(** * ATP: Agent Tool Protocol translator, registry and guardian API

    A shallow embedding of [atp_translator.py], [db.py] and [api.py],
    with the properties of schema translation, manifest fingerprints, the
    tool registry, adapter invocation and execution logging.

    Conventions of the embedding:
    - a Python [str] is a Rocq [string]; each character stands for the code
      point of the same number (so the code points below 256 are covered);
    - a value decoded from JSON ([Dict[str, Any]]) is a [json]; a [dict] is
      the list of its items in insertion order, and a well-formed dict has
      no key twice ([json_wf]);
    - a Python float is carried as the text [float.__repr__] gives for it;
    - code that can raise returns a [result]; only instances of
      [Exception] are modelled ([exn]);
    - the database is a pair of tables, each the list of its rows in
      storage order, and fresh primary keys come from a counter;
    - what is printed is not part of the model and [import] statements
      outside a [try] succeed;
    - what the libraries do is a parameter: pydantic's [create_model] and
      renderings, the provider behind a channel, the storage engine's
      faults. *)

From Stdlib Require Import List String Ascii ZArith NArith Bool Lia.
From Stdlib Require Import Permutation DecimalString.
Import ListNotations.

Local Open Scope string_scope.
Local Open Scope Z_scope.

Set Implicit Arguments.

(* ================================================================= *)
(** ** Exceptions and fallible computations *)

Inductive exn : Type :=
| TypeError (msg : string)
| AttributeError (msg : string)
| ValueError (msg : string)
| RuntimeError (msg : string)
| ImportError (msg : string)
| HTTPException (status_code : Z) (detail : string)
| OtherError (msg : string).

Inductive result (A : Type) : Type :=
| Ok (a : A)
| Raise (e : exn).

Arguments Ok {A} a.
Arguments Raise {A} e.

Definition bind {A B : Type} (r : result A) (k : A -> result B) : result B :=
  match r with
  | Ok a => k a
  | Raise e => Raise e
  end.

Notation "x <- c ;; k" := (bind c (fun x => k))
  (at level 61, c at next level, right associativity).

Fixpoint mapM {A B : Type} (f : A -> result B) (l : list A) : result (list B) :=
  match l with
  | [] => Ok []
  | a :: l' => b <- f a ;; bs <- mapM f l' ;; Ok (b :: bs)
  end.

(* ================================================================= *)
(** ** Python dicts with string keys, in insertion order *)

Section PyDict.
Variable V : Type.

Definition pydict : Type := list (string * V).

Fixpoint pd_get (d : pydict) (key : string) : option V :=
    match d with
    | [] => None
    | (k, v) :: d' => if String.eqb k key then Some v else pd_get d' key
    end.

  (** [d[key] = v]: an existing key keeps its place, a new one goes last. *)
Fixpoint pd_set (d : pydict) (key : string) (v : V) : pydict :=
    match d with
    | [] => [(key, v)]
    | (k, v') :: d' =>
        if String.eqb k key then (k, v) :: d' else (k, v') :: pd_set d' key v
    end.
End PyDict.

(* ================================================================= *)
(** ** JSON values *)

Unset Elimination Schemes.
Inductive json : Type :=
| JNull
| JBool (b : bool)
| JInt (n : Z)
| JFloat (repr : string)
| JStr (s : string)
| JArr (items : list json)
| JObj (members : list (string * json)).
Set Elimination Schemes.

(** A [dict] decoded from JSON: its items in insertion order. *)
Definition dict : Type := pydict json.

Section JsonInduction.
Variable P : json -> Prop.
Hypothesis Hnull : P JNull.
Hypothesis Hbool : forall b, P (JBool b).
Hypothesis Hint : forall n, P (JInt n).
Hypothesis Hfloat : forall r, P (JFloat r).
Hypothesis Hstr : forall s, P (JStr s).
Hypothesis Harr : forall l, Forall P l -> P (JArr l).
Hypothesis Hobj : forall m, Forall (fun kv => P (snd kv)) m -> P (JObj m).

Fixpoint json_ind (j : json) : P j :=
    match j with
    | JNull => Hnull
    | JBool b => Hbool b
    | JInt n => Hint n
    | JFloat r => Hfloat r
    | JStr s => Hstr s
    | JArr l =>
        Harr ((fix all (l : list json) : Forall P l :=
                 match l with
                 | [] => Forall_nil P
                 | x :: l' => Forall_cons x (json_ind x) (all l')
                 end) l)
    | JObj m =>
        Hobj ((fix all (m : dict) : Forall (fun kv => P (snd kv)) m :=
                 match m with
                 | [] => Forall_nil _
                 | kv :: m' => Forall_cons kv (json_ind (snd kv)) (all m')
                 end) m)
    end.
End JsonInduction.

(** [d.get(key, default)]. *)
Definition dict_get_default (d : dict) (key : string) (default : json) : json :=
  match pd_get d key with
  | Some v => v
  | None => default
  end.

Fixpoint nodupb (l : list string) : bool :=
  match l with
  | [] => true
  | x :: l' => negb (existsb (String.eqb x) l') && nodupb l'
  end.

(** Every dict inside the value has pairwise distinct keys. *)
Fixpoint json_wf (j : json) : bool :=
  match j with
  | JArr l => forallb json_wf l
  | JObj m => nodupb (map fst m) && forallb (fun kv => json_wf (snd kv)) m
  | _ => true
  end.

Definition dict_wf (d : dict) : bool := json_wf (JObj d).

(* ================================================================= *)
(** ** [json.dumps] *)

Definition hex_digit (n : N) : ascii :=
  ascii_of_N (if (n <? 10)%N then 48 + n else 87 + n)%N.

(** ['\\u{0:04x}'.format(n)] for a code point below 256. *)
Definition u_escape (c : ascii) : string :=
  let n := N_of_ascii c in
  String "\" (String "u" (String "0" (String "0"
    (String (hex_digit (n / 16)) (String (hex_digit (n mod 16)) EmptyString))))).

(** The replacement [json.encoder.py_encode_basestring_ascii] makes for one
    character: [ESCAPE_DCT] for the seven named characters, the character
    itself inside [' '..'~'], a [\uXXXX] escape otherwise. *)
Definition escape_char (c : ascii) : string :=
  let n := N_of_ascii c in
  if (n =? 34)%N then String "\" (String c EmptyString)
  else if (n =? 92)%N then String "\" (String "\" EmptyString)
  else if (n =? 8)%N then String "\" (String "b" EmptyString)
  else if (n =? 12)%N then String "\" (String "f" EmptyString)
  else if (n =? 10)%N then String "\" (String "n" EmptyString)
  else if (n =? 13)%N then String "\" (String "r" EmptyString)
  else if (n =? 9)%N then String "\" (String "t" EmptyString)
  else if ((32 <=? n) && (n <=? 126))%N then String c EmptyString
  else u_escape c.

Fixpoint escape_body (s : string) : string :=
  match s with
  | EmptyString => EmptyString
  | String c s' => escape_char c ++ escape_body s'
  end.

Definition dquote : string := String (ascii_of_N 34) EmptyString.

Definition encode_basestring_ascii (s : string) : string :=
  dquote ++ escape_body s ++ dquote.

(** [int.__repr__]. *)
Definition int_repr (n : Z) : string := NilZero.string_of_int (Z.to_int n).

(** [sorted(dct.items())] restricted to what it looks at when the keys are
    pairwise distinct: the key.  Insertion sort, stable like [sorted]. *)
Section SortItems.
Variable V : Type.

Fixpoint insert_item (kv : string * V) (l : list (string * V)) : list (string * V) :=
    match l with
    | [] => [kv]
    | kv' :: l' =>
        if String.leb (fst kv) (fst kv') then kv :: l
        else kv' :: insert_item kv l'
    end.

Fixpoint sort_items (l : list (string * V)) : list (string * V) :=
    match l with
    | [] => []
    | kv :: l' => insert_item kv (sort_items l')
    end.
End SortItems.

(** [json.dumps(obj, sort_keys=sort_keys)] with the default separators
    [(', ', ': ')] and [ensure_ascii=True].  The encoder sorts the items of a
    dict and then encodes each value; the values are encoded first here and
    the encoded items sorted, which is the same list since the order looks
    at keys only ([sort_items_map]). *)
Fixpoint dumps (sort_keys : bool) (j : json) : string :=
  match j with
  | JNull => "null"
  | JBool true => "true"
  | JBool false => "false"
  | JInt n => int_repr n
  | JFloat r => r
  | JStr s => encode_basestring_ascii s
  | JArr l => "[" ++ String.concat ", " (map (dumps sort_keys) l) ++ "]"
  | JObj m =>
      let items := map (fun kv => (fst kv, dumps sort_keys (snd kv))) m in
      let items := if sort_keys then sort_items items else items in
      "{" ++ String.concat ", "
               (map (fun kv => encode_basestring_ascii (fst kv) ++ ": " ++ snd kv) items)
          ++ "}"
  end.

(* ================================================================= *)
(** ** [str.encode('utf-8')] and [hashlib.sha256(...).hexdigest()] *)

(** Bytes and 32-bit words are integers; every word operation writes its
    wrap-around out. *)
Definition utf8_char (c : ascii) : list Z :=
  let n := Z.of_N (N_of_ascii c) in
  if n <? 128 then [n]
  else [Z.lor 0xC0 (Z.shiftr n 6); Z.lor 0x80 (Z.land n 0x3F)].

Fixpoint encode_utf8 (s : string) : list Z :=
  match s with
  | EmptyString => []
  | String c s' => utf8_char c ++ encode_utf8 s'
  end.

Module SHA256.

Definition mask32 : Z := 0xffffffff.
Definition wrap (x : Z) : Z := Z.land x mask32.
Definition add32 (x y : Z) : Z := wrap (x + y).
Definition rotr (n x : Z) : Z :=
    Z.lor (Z.shiftr x n) (wrap (Z.shiftl x (32 - n))).
Definition xor3 (x y z : Z) : Z := Z.lxor (Z.lxor x y) z.

Definition ch (x y z : Z) : Z :=
    Z.lxor (Z.land x y) (Z.land (Z.lxor x mask32) z).
Definition maj (x y z : Z) : Z :=
    xor3 (Z.land x y) (Z.land x z) (Z.land y z).
Definition bsig0 (x : Z) : Z := xor3 (rotr 2 x) (rotr 13 x) (rotr 22 x).
Definition bsig1 (x : Z) : Z := xor3 (rotr 6 x) (rotr 11 x) (rotr 25 x).
Definition ssig0 (x : Z) : Z := xor3 (rotr 7 x) (rotr 18 x) (Z.shiftr x 3).
Definition ssig1 (x : Z) : Z := xor3 (rotr 17 x) (rotr 19 x) (Z.shiftr x 10).

(** The constants of FIPS 180-4, by their definition: the first 32 bits of
    the fractional parts of the cube roots ([K]) and of the square roots
    ([H0]) of the first primes. *)
Definition is_prime (n : Z) : bool :=
  forallb (fun d => negb (n mod Z.of_nat d =? 0)) (seq 2 (Z.to_nat n - 2)).

Definition primes : list Z :=
  filter is_prime (map Z.of_nat (seq 2 310)).

(** The integer cube root, one bit after the other from [2^bits] down. *)
Fixpoint cube_root_bits (bits : nat) (n r : Z) : Z :=
  match bits with
  | O => r
  | S b =>
      let r' := r + Z.shiftl 1 (Z.of_nat b) in
      cube_root_bits b n (if r' * r' * r' <=? n then r' else r)
  end.

Definition frac_cube_root (p : Z) : Z :=
  wrap (cube_root_bits 36 (Z.shiftl p 96) 0).

Definition frac_square_root (p : Z) : Z :=
  wrap (Z.sqrt (Z.shiftl p 64)).

Definition K : list Z := Eval vm_compute in map frac_cube_root primes.

Definition H0 : list Z := Eval vm_compute in map frac_square_root (firstn 8 primes).

(** Big-endian bytes of [x], [n] of them. *)
Fixpoint be_bytes (n : nat) (x : Z) : list Z :=
    match n with
    | O => []
    | S n' => Z.land (Z.shiftr x (8 * Z.of_nat n')) 0xff :: be_bytes n' x
    end.

Definition pad (msg : list Z) : list Z :=
    let len := Z.of_nat (List.length msg) in
    msg ++ [0x80] ++ repeat 0 (Z.to_nat ((55 - len) mod 64)) ++ be_bytes 8 (8 * len).

Fixpoint words (bytes : list Z) : list Z :=
    match bytes with
    | b0 :: b1 :: b2 :: b3 :: rest =>
        (Z.shiftl b0 24 + Z.shiftl b1 16 + Z.shiftl b2 8 + b3) :: words rest
    | _ => []
    end.

  (** The message schedule: [win] holds the sixteen words before the next. *)
Fixpoint expand (n : nat) (win : list Z) : list Z :=
    match n, win with
    | S n', w16 :: rest =>
        let w := add32 (add32 (ssig1 (nth 13 rest 0)) (nth 8 rest 0))
                       (add32 (ssig0 (nth 0 rest 0)) w16) in
        w :: expand n' (rest ++ [w])
    | _, _ => []
    end.

Definition schedule (block : list Z) : list Z := block ++ expand 48 block.

Definition round (st : list Z) (kw : Z * Z) : list Z :=
    match st with
    | [a; b; c; d; e; f; g; h] =>
        let t1 := add32 (add32 (add32 h (bsig1 e)) (add32 (ch e f g) (fst kw))) (snd kw) in
        let t2 := add32 (bsig0 a) (maj a b c) in
        [add32 t1 t2; a; b; c; add32 d t1; e; f; g]
    | _ => st
    end.

Definition compress (h : list Z) (block : list Z) : list Z :=
    let st := fold_left round (combine K (schedule block)) h in
    map (fun p => add32 (fst p) (snd p)) (combine h st).

Fixpoint blocks (n : nat) (ws : list Z) : list (list Z) :=
    match n with
    | O => []
    | S n' => firstn 16 ws :: blocks n' (skipn 16 ws)
    end.

Definition digest (msg : list Z) : list Z :=
    let ws := words (pad msg) in
    fold_left compress (blocks (List.length ws / 16) ws) H0.

Fixpoint hex (n : nat) (x : Z) : string :=
    match n with
    | O => EmptyString
    | S n' =>
        String (hex_digit (Z.to_N (Z.land (Z.shiftr x (4 * Z.of_nat n')) 0xf)))
               (hex n' x)
    end.

Definition hexdigest (msg : list Z) : string :=
    String.concat "" (map (hex 8) (digest msg)).

End SHA256.

(* ================================================================= *)
(** ** [db.generate_manifest_hash] *)

Definition generate_manifest_hash (server_name tool_name : string) (schema : dict) : string :=
  let manifest_str := server_name ++ ":" ++ tool_name ++ ":" ++ dumps true (JObj schema) in
  SHA256.hexdigest (encode_utf8 manifest_str).

Definition sum_schema : dict :=
  [("type", JStr "object");
   ("properties", JObj [("a", JObj [("type", JStr "integer")]);
                        ("b", JObj [("type", JStr "integer")])]);
   ("required", JArr [JStr "a"; JStr "b"])].

(** [x in container] for a string [x] and a value decoded from JSON: list
    membership by [==], key membership for a dict, substring test for a
    [str]; the other values are not iterable. *)
Definition json_is_str (x : string) (j : json) : bool :=
  match j with
  | JStr s => String.eqb s x
  | _ => false
  end.

Definition py_in (x : string) (container : json) : result bool :=
  match container with
  | JArr l => Ok (existsb (json_is_str x) l)
  | JObj d => Ok (existsb (String.eqb x) (map fst d))
  | JStr s => Ok (match String.index 0 x s with Some _ => true | None => false end)
  | _ => Raise (TypeError "argument is not iterable")
  end.

(** [obj.get(key, default)] on a value that should be a dict. *)
Definition py_get (obj : json) (key : string) (default : json) : result json :=
  match obj with
  | JObj d => Ok (dict_get_default d key default)
  | _ => Raise (AttributeError "object has no attribute 'get'")
  end.

(** [obj.items()]. *)
Definition py_items (obj : json) : result dict :=
  match obj with
  | JObj d => Ok d
  | _ => Raise (AttributeError "object has no attribute 'items'")
  end.

(** [str.lower] and [str.capitalize] on the embedding's strings.  Below
    256 the cased letters are A-Z and a-z, and the Latin-1 letters 192-222
    and 224-254 without the signs 215 and 247.  Three lower-case letters
    have a title case that is not one code point below 256: 223 (sharp s)
    gives [Ss], 181 (micro sign) gives U+039C and 255 gives U+0178; so the
    capitalized text is a list of code points. *)
Definition is_upper (n : N) : bool :=
  (((65 <=? n) && (n <=? 90)) || ((192 <=? n) && (n <=? 222) && negb (n =? 215)))%N.

Definition is_lower (n : N) : bool :=
  (((97 <=? n) && (n <=? 122)) || ((224 <=? n) && (n <=? 254) && negb (n =? 247)))%N.

Definition lower_char (c : ascii) : ascii :=
  let n := N_of_ascii c in
  if is_upper n then ascii_of_N (n + 32) else c.

Definition title_char (c : ascii) : list N :=
  let n := N_of_ascii c in
  if is_lower n then [n - 32]%N
  else if (n =? 223)%N then [83; 115]%N
  else if (n =? 181)%N then [924]%N
  else if (n =? 255)%N then [376]%N
  else [n].

Fixpoint lower (s : string) : string :=
  match s with
  | EmptyString => EmptyString
  | String c s' => String (lower_char c) (lower s')
  end.

(** The code points of a string. *)
Definition code_points (s : string) : list N :=
  map N_of_ascii (list_ascii_of_string s).

Definition capitalize (s : string) : list N :=
  match s with
  | EmptyString => []
  | String c s' => title_char c ++ code_points (lower s')
  end.

(* ================================================================= *)
(** ** Schema translation ([atp_translator.py], lines 112-142) *)

(** The Python types a generated field can have. *)
Inductive pytype : Type :=
| Tstr | Tint | Tfloat | Tbool | Tlist | Tdict
| TAny
| TOptional (t : pytype).

Definition type_mapping : pydict pytype :=
  [("string", Tstr); ("integer", Tint); ("number", Tfloat);
   ("boolean", Tbool); ("array", Tlist); ("object", Tdict)].

(** [type_mapping.get(schema_type, Any)]: the key is hashed first, and a
    list or a dict is unhashable. *)
Definition type_mapping_get (schema_type : json) : result pytype :=
  match schema_type with
  | JStr s =>
      Ok (match pd_get type_mapping s with Some t => t | None => TAny end)
  | JArr _ => Raise (TypeError "unhashable type: 'list'")
  | JObj _ => Raise (TypeError "unhashable type: 'dict'")
  | _ => Ok TAny
  end.

Definition json_schema_to_pydantic_type (schema : json) : result pytype :=
  schema_type <- py_get schema "type" (JStr "string") ;;
  type_mapping_get schema_type.

(** [Field(..., description=d)] and [Field(default=None, description=d)]. *)
Inductive field_default : Type :=
| Ellipsis
| DefaultNone.

Record FieldInfo : Type := Field {
  default : field_default;
  description : json
}.

Definition field_def : Type := (pytype * FieldInfo)%type.

(** A model class made by pydantic: its name and its fields. *)
Record PydanticModel : Type := {
  model_name : list N;
  model_fields : pydict field_def
}.

(** pydantic's [create_model(model_name, **fields)]: what it makes of a
    name and of the fields is the library's, and it can raise (pydantic 2
    refuses a field whose name starts with an underscore). *)
Definition CreateModel : Type := list N -> pydict field_def -> result PydanticModel.

Definition translate_field (required_fields : json) (fields : pydict field_def)
    (item : string * json) : result (pydict field_def) :=
  let (field_name, field_schema) := item in
  field_type <- json_schema_to_pydantic_type field_schema ;;
  description <- py_get field_schema "description" (JStr "") ;;
  is_required <- py_in field_name required_fields ;;
  if is_required
  then Ok (pd_set fields field_name (field_type, Field Ellipsis description))
  else Ok (pd_set fields field_name (TOptional field_type, Field DefaultNone description)).

(** The [for] loop over [properties.items()]. *)
Fixpoint translate_fields (required_fields : json) (items : dict)
    (fields : pydict field_def) : result (pydict field_def) :=
  match items with
  | [] => Ok fields
  | item :: rest =>
      fields' <- translate_field required_fields fields item ;;
      translate_fields required_fields rest fields'
  end.

Definition generate_pydantic_model (create_model : CreateModel)
    (tool_name : string) (input_schema : dict) : result PydanticModel :=
  let properties := dict_get_default input_schema "properties" (JObj []) in
  let required_fields := dict_get_default input_schema "required" (JArr []) in
  items <- py_items properties ;;
  fields <- translate_fields required_fields items [] ;;
  let model_name := (capitalize tool_name ++ code_points "Input")%list in
  create_model model_name fields.


(* ================================================================= *)
(** ** What the MCP client library hands to the translator *)

Module Tool.
Record t : Type := {
    name : string;
    description : option string;
    inputSchema : dict
  }.
End Tool.

(** [mcp.types] content blocks; [type] is ["text"] exactly for a
    [TextContent], the only block with a [text]. *)
Inductive Content : Type :=
| TextContent (text : string)
| ImageContent (data mimeType : string)
| EmbeddedResource (resource : string).

Definition content_type (c : Content) : string :=
  match c with
  | TextContent _ => "text"
  | ImageContent _ _ => "image"
  | EmbeddedResource _ => "resource"
  end.

Record CallToolResult : Type := {
  content : list Content;
  isError : bool
}.

Record StdioServerParameters : Type := {
  command : string;
  args : list string
}.

(** A tool-provider process as the session sees it. *)
Record Provider : Type := {
  list_tools : result (list Tool.t);
  call_tool : string -> dict -> result CallToolResult
}.

(** An entered [ClientSession]: the channel it reads and writes, and the
    process at the other end. *)
Record ClientSession : Type := {
  channel : nat;
  server : StdioServerParameters
}.

(* ================================================================= *)
(** ** The tables of [db.py] *)

Module ATPToolRegistry.
Record t : Type := {
    id : nat;
    mcp_server_name : string;
    tool_name : string;
    manifest_hash : string;
    raw_mcp_schema : dict;
    pydantic_schema_code : option string;
    success_rate : string;
    last_anomaly_log : option string;
    created_at : nat
  }.
End ATPToolRegistry.

Module ATPExecutionLog.
Record t : Type := {
    id : nat;
    tool_id : nat;
    agent_framework : string;
    input_arguments : dict;
    execution_result : option string;
    is_anomaly : bool;
    timestamp : nat
  }.
End ATPExecutionLog.

(** The body of [POST /logs] ([api.py]). *)
Module LogCreate.
Record t : Type := {
    tool_name : string;
    agent_framework : string;
    input_arguments : dict;
    execution_result : string;
    is_anomaly : bool
  }.
End LogCreate.

(** The database file: both tables in storage order, the supply of fresh
    [uuid.uuid4()] keys and the clock behind [datetime.now]. *)
Record Database : Type := {
  registry : list ATPToolRegistry.t;
  execution_log : list ATPExecutionLog.t;
  next_uuid : nat;
  clock : nat
}.

(** [query(ATPToolRegistry).filter_by(manifest_hash=h).first()]. *)
Definition first_by_hash (db : Database) (h : string) : option ATPToolRegistry.t :=
  find (fun r => String.eqb (ATPToolRegistry.manifest_hash r) h) (registry db).

(** [query(ATPToolRegistry).filter_by(tool_name=n).first()]. *)
Definition first_by_name (db : Database) (n : string) : option ATPToolRegistry.t :=
  find (fun r => String.eqb (ATPToolRegistry.tool_name r) n) (registry db).

(** The rows carrying a fingerprint. *)
Definition rows_with_hash (db : Database) (h : string) : list ATPToolRegistry.t :=
  filter (fun r => String.eqb (ATPToolRegistry.manifest_hash r) h) (registry db).

(** [Column(String, unique=True)] on [manifest_hash]. *)
Definition registry_unique (db : Database) : Prop :=
  NoDup (map ATPToolRegistry.manifest_hash (registry db)).

(** [add(row); commit()]: the column defaults are filled in ([id],
    [success_rate], [created_at]); the unique index refuses a second row
    with the same [manifest_hash]. *)
Definition add_registry_row (db : Database)
    (server_name tool_name m_hash : string) (schema : dict) (code : string)
    : result Database :=
  match first_by_hash db m_hash with
  | Some _ => Raise (OtherError "IntegrityError: UNIQUE constraint failed")
  | None =>
      let new_entry := {|
        ATPToolRegistry.id := next_uuid db;
        ATPToolRegistry.mcp_server_name := server_name;
        ATPToolRegistry.tool_name := tool_name;
        ATPToolRegistry.manifest_hash := m_hash;
        ATPToolRegistry.raw_mcp_schema := schema;
        ATPToolRegistry.pydantic_schema_code := Some code;
        ATPToolRegistry.success_rate := "1.0";
        ATPToolRegistry.last_anomaly_log := None;
        ATPToolRegistry.created_at := clock db |} in
      Ok {| registry := registry db ++ [new_entry];
            execution_log := execution_log db;
            next_uuid := S (next_uuid db);
            clock := S (clock db) |}
  end.

(* ================================================================= *)
(** ** [api.create_log] *)

Definition not_registered (tool_name : string) : exn :=
  HTTPException 404 ("Tool " ++ tool_name ++ " not found in registry").

(** Returns the new log's [id] (the ["log_id"] of the response) or raises,
    together with the database afterwards. *)
Definition create_log (log_req : LogCreate.t) (db : Database) : result nat * Database :=
  match first_by_name db (LogCreate.tool_name log_req) with
  | None => (Raise (not_registered (LogCreate.tool_name log_req)), db)
  | Some tool =>
      let new_log := {|
        ATPExecutionLog.id := next_uuid db;
        ATPExecutionLog.tool_id := ATPToolRegistry.id tool;
        ATPExecutionLog.agent_framework := LogCreate.agent_framework log_req;
        ATPExecutionLog.input_arguments := LogCreate.input_arguments log_req;
        ATPExecutionLog.execution_result := Some (LogCreate.execution_result log_req);
        ATPExecutionLog.is_anomaly := LogCreate.is_anomaly log_req;
        ATPExecutionLog.timestamp := clock db |} in
      (Ok (ATPExecutionLog.id new_log),
       {| registry := registry db;
          execution_log := execution_log db ++ [new_log];
          next_uuid := S (next_uuid db);
          clock := S (clock db) |})
  end.

(* ================================================================= *)
(** ** The surroundings of the translator *)

(** How [from db import ...; init_db(); SessionLocal()] ends. *)
Inductive DbSetup : Type :=
| DbReady
| DbImportError
| DbInitError (e : exn).

(** How [stdio_client], [ClientSession] and [initialize] end. *)
Inductive Launch : Type :=
| SpawnFails (e : exn)
| InitializeFails (e : exn)
| Launched.

Record Env : Type := {
  (** starting the process named by the parameters *)
  launch : StdioServerParameters -> Launch;
  (** the process a channel leads to *)
  serve : StdioServerParameters -> Provider;
  db_setup : DbSetup;
  (** the [create_model] of the pydantic that is installed *)
  create_model : CreateModel;
  (** a query, flush or commit raises while this tool is being registered *)
  storage_fault : Tool.t -> option exn;
  langchain_core_installed : bool;
  autogen_core_installed : bool;
  (** encoding the record and posting it to [/logs] raises (unreachable
      sink, timeout, value that is not JSON); [None]: the request reaches
      the API *)
  delivery_fault : LogCreate.t -> option exn
}.

(** The state outside the translator object: the database file, the
    channels opened by [connect] and not closed through an exit stack since,
    and the records handed to the log sink so far.  What the runtime does
    with the contexts of an exit stack that [connect] replaces is not part
    of the model; nothing below is stated about such a channel. *)
Record World : Type := {
  db : Database;
  open_channels : list nat;
  next_channel : nat;
  submitted : list LogCreate.t
}.

Definition with_db (w : World) (db' : Database) : World :=
  {| db := db';
     open_channels := open_channels w;
     next_channel := next_channel w;
     submitted := submitted w |}.

Definition channel_open (w : World) (c : nat) : bool :=
  existsb (Nat.eqb c) (open_channels w).

Definition closed_channel : exn := OtherError "ClosedResourceError".

Definition session_list_tools (env : Env) (w : World) (s : ClientSession)
    : result (list Tool.t) :=
  if channel_open w (channel s) then list_tools (serve env (server s))
  else Raise closed_channel.

Definition session_call_tool (env : Env) (w : World) (s : option ClientSession)
    (name : string) (arguments : dict) : result CallToolResult :=
  match s with
  | None => Raise (AttributeError "'NoneType' object has no attribute 'call_tool'")
  | Some s =>
      if channel_open w (channel s) then call_tool (serve env (server s)) name arguments
      else Raise closed_channel
  end.

(** [str(e)]. *)
Definition exn_str (e : exn) : string :=
  match e with
  | TypeError m | AttributeError m | ValueError m | RuntimeError m
  | ImportError m | OtherError m => m
  | HTTPException c d => int_repr c ++ ": " ++ d
  end.

(* ================================================================= *)
(** ** [ATPTranslator] *)

Record ATPTranslator : Type := {
  target_framework : string;
  server_params : option StdioServerParameters;
  (** the channels [_exit_stack.aclose()] will close *)
  _exit_stack : option (list nat);
  session : option ClientSession;
  _stdio_ctx : option StdioServerParameters
}.

(** [ATPTranslator(target_framework)]. *)
Definition new_translator (target_framework : string) : ATPTranslator :=
  {| target_framework := lower target_framework;
     server_params := None;
     _exit_stack := None;
     session := None;
     _stdio_ctx := None |}.

(** [connect]: the assignments made before a failing step remain. *)
Definition connect (env : Env) (self : ATPTranslator)
    (server_parameters : StdioServerParameters) (w : World)
    : result unit * ATPTranslator * World :=
  match launch env server_parameters with
  | SpawnFails e =>
      (Raise e,
       {| target_framework := target_framework self;
          server_params := Some server_parameters;
          _exit_stack := Some [];
          session := session self;
          _stdio_ctx := Some server_parameters |},
       w)
  | outcome =>
      let c := next_channel w in
      let self' :=
        {| target_framework := target_framework self;
           server_params := Some server_parameters;
           _exit_stack := Some [c];
           session := Some {| channel := c; server := server_parameters |};
           _stdio_ctx := Some server_parameters |} in
      let w' :=
        {| db := db w;
           open_channels := c :: open_channels w;
           next_channel := S c;
           submitted := submitted w |} in
      (match outcome with InitializeFails e => Raise e | _ => Ok tt end, self', w')
  end.

Definition disconnect (self : ATPTranslator) (w : World) : ATPTranslator * World :=
  match _exit_stack self with
  | Some entered =>
      ({| target_framework := target_framework self;
          server_params := server_params self;
          _exit_stack := None;
          session := None;
          _stdio_ctx := _stdio_ctx self |},
       {| db := db w;
          open_channels :=
            filter (fun c => negb (existsb (Nat.eqb c) entered)) (open_channels w);
          next_channel := next_channel w;
          submitted := submitted w |})
  | None => (self, w)
  end.

(* ================================================================= *)
(** ** Adapters *)

Inductive Framework : Type := CrewAI | LangChain | AutoGen.

Definition framework_name (f : Framework) : string :=
  match f with
  | CrewAI => "crewai"
  | LangChain => "langchain"
  | AutoGen => "autogen"
  end.

(** A generated tool object: [DynamicCrewAITool], [StructuredTool] or
    [DynamicAutoGenTool], by the values the source gives it and its methods
    close over.  [adapter_description] is the description handed to the
    framework's class; what the class then shows as its description is the
    framework's (CrewAI's [BaseTool] composes its own text from it). *)
Record Adapter : Type := {
  kind : Framework;
  adapter_name : string;
  adapter_description : string;
  args_schema : PydanticModel;
  mcp_tool : Tool.t;
  adapter_session : option ClientSession
}.

(** [d or fallback]. *)
Definition or_else (d : option string) (fallback : string) : string :=
  match d with
  | Some (String c s) => String c s
  | _ => fallback
  end.

Definition make_adapter (env : Env) (f : Framework) (fallback : string)
    (s : option ClientSession) (mcp_tool : Tool.t) : result Adapter :=
  generated_schema <- generate_pydantic_model (create_model env)
                        (Tool.name mcp_tool) (Tool.inputSchema mcp_tool) ;;
  Ok {| kind := f;
        adapter_name := Tool.name mcp_tool;
        adapter_description := or_else (Tool.description mcp_tool) fallback;
        args_schema := generated_schema;
        mcp_tool := mcp_tool;
        adapter_session := s |}.

Definition generate_crewai_tool (env : Env) (self : ATPTranslator) (mcp_tool : Tool.t)
    : result Adapter :=
  make_adapter env CrewAI ("Tool to execute " ++ Tool.name mcp_tool) (session self) mcp_tool.

Definition generate_langchain_tool (env : Env) (self : ATPTranslator) (mcp_tool : Tool.t)
    : result Adapter :=
  if langchain_core_installed env
  then make_adapter env LangChain ("Tool to execute " ++ Tool.name mcp_tool) (session self) mcp_tool
  else Raise (ImportError "langchain-core is required to generate LangChain tools. Run `pip install langchain-core`.").

Definition generate_autogen_tool (env : Env) (self : ATPTranslator) (mcp_tool : Tool.t)
    : result Adapter :=
  if autogen_core_installed env
  then make_adapter env AutoGen ("Tool " ++ Tool.name mcp_tool) (session self) mcp_tool
  else Raise (ImportError "autogen-core is required to generate AutoGen tools. Run `pip install autogen-core`.").

(** The dispatch at the end of the loop body of [get_tools]. *)
Definition translate_tool (env : Env) (self : ATPTranslator) (mcp_tool : Tool.t)
    : result Adapter :=
  if String.eqb (target_framework self) "crewai" then generate_crewai_tool env self mcp_tool
  else if String.eqb (target_framework self) "langchain" then generate_langchain_tool env self mcp_tool
  else if String.eqb (target_framework self) "autogen" then generate_autogen_tool env self mcp_tool
  else Raise (ValueError ("Unsupported target framework: " ++ target_framework self)).

(** [self.server_params.command if self.server_params else "Unknown"]. *)
Definition server_name_of (self : ATPTranslator) : string :=
  match server_params self with
  | Some p => command p
  | None => "Unknown"
  end.

Section Rendering.

  (** Two renderings made by pydantic: [Model.schema_json()] and the [str]
      of a list of content blocks. *)
Variable schema_json : PydanticModel -> string.
Variable content_str : list Content -> string.

  (** *** Registration during discovery ([get_tools], lines 69-92) *)

  (** The body of the [try]. *)
Definition try_register (env : Env) (self : ATPTranslator) (mcp_tool : Tool.t)
      (db : Database) : result Database :=
    let server_name := server_name_of self in
    let schema_dict := Tool.inputSchema mcp_tool in
    let m_hash := generate_manifest_hash server_name (Tool.name mcp_tool) schema_dict in
    match storage_fault env mcp_tool with
    | Some e => Raise e
    | None =>
        match first_by_hash db m_hash with
        | Some existing_tool => Ok db
        | None =>
            model <- generate_pydantic_model (create_model env) (Tool.name mcp_tool)
                       schema_dict ;;
            add_registry_row db server_name (Tool.name mcp_tool) m_hash schema_dict
              (schema_json model)
        end
    end.

  (** [try: ... except Exception as e: print(...)]. *)
Definition register_tool (env : Env) (self : ATPTranslator) (mcp_tool : Tool.t)
      (db : Database) : Database :=
    match try_register env self mcp_tool db with
    | Ok db' => db'
    | Raise _ => db
    end.

  (** *** [get_tools] *)

  (** The [for] loop; [db_session] is [None] when [has_db] is [false]. *)
Fixpoint translate_all (env : Env) (self : ATPTranslator) (has_db : bool)
      (mcp_tools : list Tool.t) (tools : list Adapter) (db : Database)
      : result (list Adapter) * Database :=
    match mcp_tools with
    | [] => (Ok tools, db)
    | mcp_tool :: rest =>
        let db1 := if has_db then register_tool env self mcp_tool db else db in
        match translate_tool env self mcp_tool with
        | Ok translated_tool =>
            translate_all env self has_db rest (tools ++ [translated_tool]) db1
        | Raise e => (Raise e, db1)
        end
    end.

Definition get_tools (env : Env) (self : ATPTranslator) (w : World)
      : result (list Adapter) * World :=
    match session self with
    | None => (Raise (RuntimeError "Not connected to an MCP server. Call connect() first."), w)
    | Some s =>
        match session_list_tools env w s with
        | Raise e => (Raise e, w)
        | Ok response_tools =>
            match db_setup env with
            | DbInitError e => (Raise e, w)
            | DbImportError =>
                let (r, db') := translate_all env self false response_tools [] (db w) in
                (r, with_db w db')
            | DbReady =>
                let (r, db') := translate_all env self true response_tools [] (db w) in
                (r, with_db w db')
            end
        end
    end.

  (** *** Invoking an adapter *)

  (** The classification of a provider response: [(is_anomaly, output)]. *)
Definition append_text (output : string) (c : Content) : string :=
    match c with
    | TextContent text => output ++ text
    | _ => output
    end.

Definition classify (result : CallToolResult) : bool * string :=
    if isError result
    then (true, "Error executing tool: " ++ content_str (content result))
    else (false, fold_left append_text (content result) "").

  (** [try: ... await client.post(".../logs", json=payload, timeout=5.0)
      except Exception as e: print(...)]; the response is not looked at. *)
Definition submit_log (env : Env) (payload : LogCreate.t) (w : World) : World :=
    let w1 :=
      {| db := db w;
         open_channels := open_channels w;
         next_channel := next_channel w;
         submitted := submitted w ++ [payload] |} in
    match delivery_fault env payload with
    | Some _ => w1
    | None => with_db w1 (snd (create_log payload (db w)))
    end.

  (** The coroutine shared by the three adapters: call, classify, log,
      return.  [call_name] is the name sent to the provider, [log_name] the
      one put in the record. *)
Definition call_and_log (env : Env) (f : Framework) (call_name log_name : string)
      (s : option ClientSession) (kwargs : dict) (w : World) : result string * World :=
    match session_call_tool env w s call_name kwargs with
    | Raise e => (Raise e, w)
    | Ok result =>
        let (is_anomaly, output) := classify result in
        let payload := {|
          LogCreate.tool_name := log_name;
          LogCreate.agent_framework := framework_name f;
          LogCreate.input_arguments := kwargs;
          LogCreate.execution_result := output;
          LogCreate.is_anomaly := is_anomaly |} in
        (Ok output, submit_log env payload w)
    end.

  (** [DynamicCrewAITool._run]: the fresh event loop runs the coroutine to
    completion; any exception on the way becomes the returned text. *)
Definition crewai_run (env : Env) (a : Adapter) (kwargs : dict) (w : World)
      : result string * World :=
    match call_and_log env CrewAI (adapter_name a) (Tool.name (mcp_tool a))
            (adapter_session a) kwargs w with
    | (Raise e, w') => (Ok ("Exception bridging sync to async: " ++ exn_str e), w')
    | r => r
    end.

  (** [_arun] and [_run] of the LangChain [StructuredTool]. *)
Definition langchain_arun (env : Env) (a : Adapter) (kwargs : dict) (w : World)
      : result string * World :=
    call_and_log env LangChain (Tool.name (mcp_tool a)) (Tool.name (mcp_tool a))
      (adapter_session a) kwargs w.

Definition langchain_run (env : Env) (a : Adapter) (kwargs : dict) (w : World)
      : result string * World :=
    langchain_arun env a kwargs w.

  (** [DynamicAutoGenTool.run]; [kwargs] is [args.model_dump()]. *)
Definition autogen_run (env : Env) (a : Adapter) (kwargs : dict) (w : World)
      : result string * World :=
    call_and_log env AutoGen (Tool.name (mcp_tool a)) (Tool.name (mcp_tool a))
      (adapter_session a) kwargs w.

  (** Calling the tool object the way its framework does. *)
Definition invoke (env : Env) (a : Adapter) (kwargs : dict) (w : World)
      : result string * World :=
    match kind a with
    | CrewAI => crewai_run env a kwargs w
    | LangChain => langchain_arun env a kwargs w
    | AutoGen => autogen_run env a kwargs w
    end.

End Rendering.

(* ================================================================= *)
(** ** The spec's notions and concrete inputs *)

(** The same value up to the insertion order of the items of its dicts, at
    any depth. *)
Unset Elimination Schemes.
Inductive json_perm : json -> json -> Prop :=
| json_perm_same (j : json) : json_perm j j
| json_perm_arr (l l' : list json) :
    Forall2 json_perm l l' -> json_perm (JArr l) (JArr l')
| json_perm_obj (m m' m'' : dict) :
    Forall2 (fun kv kv' => fst kv = fst kv' /\ json_perm (snd kv) (snd kv')) m m' ->
    Permutation m' m'' ->
    json_perm (JObj m) (JObj m'').
Set Elimination Schemes.

(** The canonical JSON text of the spec: the keys of every dict are put in
    order, then the value is serialized as it stands. *)
Fixpoint canonicalize (j : json) : json :=
  match j with
  | JArr l => JArr (map canonicalize l)
  | JObj m => JObj (sort_items (map (fun kv => (fst kv, canonicalize (snd kv))) m))
  | _ => j
  end.

Definition canonical_schema_json (schema : dict) : string :=
  dumps false (canonicalize (JObj schema)).

(** A value with characters that [json.dumps] escapes: a quote, a
    backslash, a newline, DEL and [e] with an acute accent. *)
Definition escapes_json : json :=
  JObj [("b", JInt 1);
        ("a", JArr [JBool true; JNull;
                    JStr ("x" ++ dquote ++ "y\z"
                          ++ String (ascii_of_N 10) (String (ascii_of_N 127)
                               (String (ascii_of_N 233) EmptyString)));
                    JFloat "1.5"; JInt (-3)]);
        ("c", JObj [])].

(** [s] between double quotes. *)
Definition quoted (s : string) : string := dquote ++ s ++ dquote.

(** The schema of [calculate_sum] with its properties and its top-level keys
    in another order. *)
Definition sum_schema_permuted : dict :=
  [("required", JArr [JStr "a"; JStr "b"]);
   ("properties", JObj [("b", JObj [("type", JStr "integer")]);
                        ("a", JObj [("type", JStr "integer")])]);
   ("type", JStr "object")].

(** The field the spec describes for one property: the semantic type of
    its declared type, open when the declared type is not one of the six;
    required exactly when listed; the description kept. *)
Definition semantic_type (declared : json) : pytype :=
  match declared with
  | JStr s => match pd_get type_mapping s with Some t => t | None => TAny end
  | _ => TAny
  end.

Definition expected_field (required : list json) (field_name : string)
    (field_schema : json) : field_def :=
  match field_schema with
  | JObj d =>
      let t := semantic_type (dict_get_default d "type" (JStr "string")) in
      let descr := dict_get_default d "description" (JStr "") in
      if existsb (json_is_str field_name) required
      then (t, Field Ellipsis descr)
      else (TOptional t, Field DefaultNone descr)
  | _ => (TAny, Field DefaultNone JNull)
  end.

(** A property schema the loop body gets through: a dict whose declared
    type, when there is one, can be hashed. *)
Definition hashable (j : json) : bool :=
  match j with
  | JArr _ | JObj _ => false
  | _ => true
  end.

Definition property_ok (field_schema : json) : bool :=
  match field_schema with
  | JObj d => hashable (dict_get_default d "type" (JStr "string"))
  | _ => false
  end.

(** A tool whose property [x] declares the type [["string", "null"]], and
    one whose property [x] has the schema [true]. *)
Definition union_type_schema : dict :=
  [("type", JStr "object");
   ("properties", JObj [("x", JObj [("type", JArr [JStr "string"; JStr "null"])])])].

Definition boolean_property_schema : dict :=
  [("type", JStr "object"); ("properties", JObj [("x", JBool true)])].

(** The texts of the [TextContent] blocks, in order. *)
Definition text_fragments (l : list Content) : list string :=
  flat_map (fun c => match c with TextContent text => [text] | _ => [] end) l.

Definition contains (s sub : string) : Prop :=
  exists pre post, s = pre ++ sub ++ post.

(** The name an adapter sends to the provider. *)
Definition call_name (a : Adapter) : string :=
  match kind a with
  | CrewAI => adapter_name a
  | _ => Tool.name (mcp_tool a)
  end.

(** The same surroundings with another behaviour of the log sink. *)
Definition with_delivery (env : Env) (fault : LogCreate.t -> option exn) : Env :=
  {| launch := launch env;
     serve := serve env;
     db_setup := db_setup env;
     create_model := create_model env;
     storage_fault := storage_fault env;
     langchain_core_installed := langchain_core_installed env;
     autogen_core_installed := autogen_core_installed env;
     delivery_fault := fault |}.

(** The fingerprint [get_tools] computes for a tool. *)
Definition fingerprint_of (self : ATPTranslator) (tool : Tool.t) : string :=
  generate_manifest_hash (server_name_of self) (Tool.name tool) (Tool.inputSchema tool).

(** A [create_model] that accepts every name and every field, and one that
    refuses a field name with a leading underscore as pydantic 2 does. *)
Definition plain_create_model : CreateModel :=
  fun name fields => Ok {| model_name := name; model_fields := fields |}.

Definition leading_underscore (field_name : string) : bool :=
  match field_name with
  | String c _ => Ascii.eqb c "_"
  | EmptyString => false
  end.

Definition strict_create_model : CreateModel :=
  fun name fields =>
    if existsb leading_underscore (map fst fields)
    then Raise (OtherError "NameError: Fields must not use names with leading underscores")
    else Ok {| model_name := name; model_fields := fields |}.

(** Concrete surroundings: a provider that lists no tool, every step
    succeeding, an empty database. *)
Definition silent_provider : Provider :=
  {| list_tools := Ok [];
     call_tool := fun _ _ => Raise (OtherError "Unknown tool") |}.

Definition python_server : StdioServerParameters :=
  {| command := "python"; args := ["dummy_mcp_server.py"] |}.

Definition quiet_env : Env :=
  {| launch := fun _ => Launched;
     serve := fun _ => silent_provider;
     db_setup := DbReady;
     create_model := plain_create_model;
     storage_fault := fun _ => None;
     langchain_core_installed := true;
     autogen_core_installed := true;
     delivery_fault := fun _ => None |}.

Definition empty_db : Database :=
  {| registry := []; execution_log := []; next_uuid := 0; clock := 0 |}.

Definition fresh_world : World :=
  {| db := empty_db; open_channels := []; next_channel := 0; submitted := [] |}.

Definition supported (framework : string) : bool :=
  String.eqb framework "crewai" || String.eqb framework "langchain"
  || String.eqb framework "autogen".

(** [dummy_mcp_server.py]: [calculate_sum] and [get_weather]. *)
Definition calculate_sum_tool : Tool.t :=
  {| Tool.name := "calculate_sum";
     Tool.description := Some "Calculates the sum of two integers.";
     Tool.inputSchema := sum_schema |}.

Definition get_weather_tool : Tool.t :=
  {| Tool.name := "get_weather";
     Tool.description := Some "Gets the fictitious weather for a given location.";
     Tool.inputSchema :=
       [("type", JStr "object");
        ("properties", JObj [("location", JObj [("type", JStr "string")])]);
        ("required", JArr [JStr "location"])] |}.

Definition dummy_call (name : string) (arguments : dict) : result CallToolResult :=
  match pd_get arguments "a", pd_get arguments "b", pd_get arguments "location" with
  | Some (JInt a), Some (JInt b), _ =>
      if String.eqb name "calculate_sum"
      then Ok {| content := [TextContent (int_repr (a + b))]; isError := false |}
      else Ok {| content := [TextContent ("Unknown tool: " ++ name)]; isError := true |}
  | _, _, Some (JStr location) =>
      if String.eqb name "get_weather"
      then Ok {| content := [TextContent ("The weather in " ++ location
                                          ++ " is sunny and 75 degrees.")];
                 isError := false |}
      else Ok {| content := [TextContent ("Unknown tool: " ++ name)]; isError := true |}
  | _, _, _ =>
      Ok {| content := [TextContent ("Error executing tool " ++ name)]; isError := true |}
  end.

Definition dummy_provider : Provider :=
  {| list_tools := Ok [calculate_sum_tool; get_weather_tool];
     call_tool := dummy_call |}.

Definition dummy_env : Env :=
  {| launch := fun _ => Launched;
     serve := fun _ => dummy_provider;
     db_setup := DbReady;
     create_model := plain_create_model;
     storage_fault := fun _ => None;
     langchain_core_installed := true;
     autogen_core_installed := true;
     delivery_fault := fun _ => None |}.


Definition unreachable_sink (_ : LogCreate.t) : option exn :=
  Some (OtherError "ConnectError: All connection attempts failed").

(** A server whose only tool declares a union type. *)
Definition union_tool : Tool.t :=
  {| Tool.name := "lookup";
     Tool.description := None;
     Tool.inputSchema := union_type_schema |}.

Definition union_env : Env :=
  {| launch := fun _ => Launched;
     serve := fun _ =>
       {| list_tools := Ok [union_tool];
          call_tool := fun _ _ => Raise (OtherError "Unknown tool") |};
     db_setup := DbReady;
     create_model := plain_create_model;
     storage_fault := fun _ => None;
     langchain_core_installed := true;
     autogen_core_installed := true;
     delivery_fault := fun _ => None |}.

(** Stand-ins for the two pydantic renderings. *)
Definition text_of (points : list N) : string :=
  string_of_list_ascii (map ascii_of_N points).

Definition plain_schema_json (m : PydanticModel) : string :=
  text_of (model_name m) ++ "(" ++ String.concat ", " (map fst (model_fields m)) ++ ")".

Definition plain_content_str (l : list Content) : string :=
  "[" ++ String.concat ", " (text_fragments l) ++ "]".

(** A translator for [framework] connected to the dummy server, and the
    world after the connection. *)
Definition connected (framework : string) : ATPTranslator :=
  snd (fst (connect dummy_env (new_translator framework) python_server fresh_world)).

Definition connected_world : World :=
  snd (connect dummy_env (new_translator "crewai") python_server fresh_world).

Definition sum_adapter (f : Framework) : Adapter :=
  {| kind := f;
     adapter_name := "calculate_sum";
     adapter_description := "Calculates the sum of two integers.";
     args_schema :=
       {| model_name := code_points "Calculate_sumInput";
          model_fields :=
            [("a", (Tint, Field Ellipsis (JStr "")));
             ("b", (Tint, Field Ellipsis (JStr "")))] |};
     mcp_tool := calculate_sum_tool;
     adapter_session := Some {| channel := 0; server := python_server |} |}.

Definition five_seven : dict := [("a", JInt 5); ("b", JInt 7)].

Definition answer_12 : CallToolResult :=
  {| content := [TextContent "12"]; isError := false |}.

(** A registry where two servers expose a tool of the same name. *)
Definition two_servers_db : Database :=
  {| registry :=
       [ {| ATPToolRegistry.id := 0;
            ATPToolRegistry.mcp_server_name := "python";
            ATPToolRegistry.tool_name := "calculate_sum";
            ATPToolRegistry.manifest_hash := "c3ac";
            ATPToolRegistry.raw_mcp_schema := sum_schema;
            ATPToolRegistry.pydantic_schema_code := None;
            ATPToolRegistry.success_rate := "1.0";
            ATPToolRegistry.last_anomaly_log := None;
            ATPToolRegistry.created_at := 0 |};
         {| ATPToolRegistry.id := 1;
            ATPToolRegistry.mcp_server_name := "node";
            ATPToolRegistry.tool_name := "calculate_sum";
            ATPToolRegistry.manifest_hash := "9f1b";
            ATPToolRegistry.raw_mcp_schema := [];
            ATPToolRegistry.pydantic_schema_code := None;
            ATPToolRegistry.success_rate := "1.0";
            ATPToolRegistry.last_anomaly_log := None;
            ATPToolRegistry.created_at := 1 |} ];
     execution_log := [];
     next_uuid := 2;
     clock := 2 |}.

Definition node_log_request : LogCreate.t :=
  {| LogCreate.tool_name := "calculate_sum";
     LogCreate.agent_framework := "langchain";
     LogCreate.input_arguments := five_seven;
     LogCreate.execution_result := "12";
     LogCreate.is_anomaly := false |}.

(* ================================================================= *)
(** ** The read endpoints of [api.py] *)

(** [.offset(skip).limit(limit)] on the SQLite file [init_db()] opens.  The
    two numbers are bound as 64-bit integers, and the binding raises
    [OverflowError] for a Python [int] outside them; a negative OFFSET
    counts as zero, a negative LIMIT as no limit. *)
Definition sqlite_integer (n : Z) : bool :=
  (- 2 ^ 63 <=? n) && (n <? 2 ^ 63).

Definition overflow_error : exn :=
  OtherError "OverflowError: Python int too large to convert to SQLite INTEGER".

Definition offset_limit (A : Type) (skip limit : Z) (rows : list A) : result (list A) :=
  if sqlite_integer skip && sqlite_integer limit
  then
    let rest := skipn (Z.to_nat skip) rows in
    Ok (if limit <? 0 then rest else firstn (Z.to_nat limit) rest)
  else Raise overflow_error.

(** One item of the answer of [GET /tools]. *)
Module ToolSummary.
Record t : Type := {
  id : nat;
  mcp_server_name : string;
  tool_name : string;
  manifest_hash : string;
  success_rate : string;
  created_at : nat
}.
End ToolSummary.

Definition tool_summary (tool : ATPToolRegistry.t) : ToolSummary.t :=
  {| ToolSummary.id := ATPToolRegistry.id tool;
     ToolSummary.mcp_server_name := ATPToolRegistry.mcp_server_name tool;
     ToolSummary.tool_name := ATPToolRegistry.tool_name tool;
     ToolSummary.manifest_hash := ATPToolRegistry.manifest_hash tool;
     ToolSummary.success_rate := ATPToolRegistry.success_rate tool;
     ToolSummary.created_at := ATPToolRegistry.created_at tool |}.

(** [GET /tools]. *)
Definition api_get_tools (skip limit : Z) (db : Database) : result (list ToolSummary.t) :=
  tools <- offset_limit skip limit (registry db) ;;
  Ok (map tool_summary tools).

(** One item of the answer of [GET /logs]. *)
Module LogView.
Record t : Type := {
  id : nat;
  tool_id : nat;
  tool_name : string;
  agent_framework : string;
  input_arguments : dict;
  execution_result : option string;
  is_anomaly : bool;
  timestamp : nat
}.
End LogView.

Definition log_view (row : ATPExecutionLog.t * string) : LogView.t :=
  {| LogView.id := ATPExecutionLog.id (fst row);
     LogView.tool_id := ATPExecutionLog.tool_id (fst row);
     LogView.tool_name := snd row;
     LogView.agent_framework := ATPExecutionLog.agent_framework (fst row);
     LogView.input_arguments := ATPExecutionLog.input_arguments (fst row);
     LogView.execution_result := ATPExecutionLog.execution_result (fst row);
     LogView.is_anomaly := ATPExecutionLog.is_anomaly (fst row);
     LogView.timestamp := ATPExecutionLog.timestamp (fst row) |}.

(** [query(ATPExecutionLog, ATPToolRegistry.tool_name).join(ATPToolRegistry,
    ATPExecutionLog.tool_id == ATPToolRegistry.id)]: an inner join. *)
Definition join_registry (db : Database) : list (ATPExecutionLog.t * string) :=
  flat_map
    (fun log =>
       map (fun r => (log, ATPToolRegistry.tool_name r))
           (filter (fun r => Nat.eqb (ATPToolRegistry.id r) (ATPExecutionLog.tool_id log))
                   (registry db)))
    (execution_log db).

(** [order_by(ATPExecutionLog.timestamp.desc())]; rows of equal timestamp,
    whose order SQL leaves open, stay in the order of the join. *)
Fixpoint insert_recent (row : ATPExecutionLog.t * string)
    (rows : list (ATPExecutionLog.t * string)) : list (ATPExecutionLog.t * string) :=
  match rows with
  | [] => [row]
  | row' :: rest =>
      if Nat.leb (ATPExecutionLog.timestamp (fst row')) (ATPExecutionLog.timestamp (fst row))
      then row :: rows
      else row' :: insert_recent row rest
  end.

Fixpoint order_by_timestamp_desc (rows : list (ATPExecutionLog.t * string))
    : list (ATPExecutionLog.t * string) :=
  match rows with
  | [] => []
  | row :: rest => insert_recent row (order_by_timestamp_desc rest)
  end.

(** [GET /logs]. *)
Definition api_get_logs (skip limit : Z) (db : Database) : result (list LogView.t) :=
  logs <- offset_limit skip limit (order_by_timestamp_desc (join_registry db)) ;;
  Ok (map log_view logs).

(* ================================================================= *)
(** ** Conditions the further properties speak of *)


(** Every log entry points at a manifest. *)
Definition log_refs_ok (db : Database) : Prop :=
  forall e, In e (execution_log db) ->
            exists r, In r (registry db) /\ ATPToolRegistry.id r = ATPExecutionLog.tool_id e.

(** [id] is the primary key of the registry. *)
Definition registry_ids_unique (db : Database) : Prop :=
  NoDup (map ATPToolRegistry.id (registry db)).

(** Every stored entry was stamped before now. *)
Definition log_stamped_before_now (db : Database) : Prop :=
  Forall (fun e => (ATPExecutionLog.timestamp e < clock db)%nat) (execution_log db).

(** What [field_name in required_fields] can be evaluated on. *)
Definition iterable (required : json) : bool :=
  match required with
  | JArr _ | JObj _ | JStr _ => true
  | _ => false
  end.

(** The schemas [_generate_pydantic_model] gets through. *)
Definition schema_translatable (input_schema : dict) : bool :=
  match dict_get_default input_schema "properties" (JObj []) with
  | JObj [] => true
  | JObj props =>
      forallb (fun kv => property_ok (snd kv)) props
      && iterable (dict_get_default input_schema "required" (JArr []))
  | _ => false
  end.

Definition is_lower_hex (c : ascii) : bool :=
  let n := N_of_ascii c in
  ((48 <=? n) && (n <=? 57) || (97 <=? n) && (n <=? 102))%N.

Fixpoint string_forallb (f : ascii -> bool) (s : string) : bool :=
  match s with
  | EmptyString => true
  | String c s' => f c && string_forallb f s'
  end.

(** A record as an adapter of framework [f] composes it. *)
Definition log_record (f : Framework) (tool_name : string) (kwargs : dict)
    (is_anomaly : bool) (output : string) : LogCreate.t :=
  {| LogCreate.tool_name := tool_name;
     LogCreate.agent_framework := framework_name f;
     LogCreate.input_arguments := kwargs;
     LogCreate.execution_result := output;
     LogCreate.is_anomaly := is_anomaly |}.

(** The same surroundings with another registry behaviour. *)
Definition with_registry (env : Env) (setup : DbSetup) (fault : Tool.t -> option exn) : Env :=
  {| launch := launch env;
     serve := serve env;
     db_setup := setup;
     create_model := create_model env;
     storage_fault := fault;
     langchain_core_installed := langchain_core_installed env;
     autogen_core_installed := autogen_core_installed env;
     delivery_fault := delivery_fault env |}.

(** [d'] has the rows of [d], possibly followed by more manifests, and the
    same log. *)
Definition grows (d d' : Database) : Prop :=
  (exists added, registry d' = (registry d ++ added)%list)
  /\ execution_log d' = execution_log d.

(** The row [create_log] stores for a record on database [d] when [tool] is
    the manifest found. *)
Definition log_entry (d : Database) (tool : ATPToolRegistry.t) (log_req : LogCreate.t)
    : ATPExecutionLog.t :=
  {| ATPExecutionLog.id := next_uuid d;
     ATPExecutionLog.tool_id := ATPToolRegistry.id tool;
     ATPExecutionLog.agent_framework := LogCreate.agent_framework log_req;
     ATPExecutionLog.input_arguments := LogCreate.input_arguments log_req;
     ATPExecutionLog.execution_result := Some (LogCreate.execution_result log_req);
     ATPExecutionLog.is_anomaly := LogCreate.is_anomaly log_req;
     ATPExecutionLog.timestamp := clock d |}.

(** A world where the dummy server's channel is open but the provider
    behind it knows no tool. *)
Definition silent_world : World :=
  snd (connect quiet_env (new_translator "crewai") python_server fresh_world).

(** Timestamps from the newest to the oldest. *)
Fixpoint newest_first (stamps : list nat) : Prop :=
  match stamps with
  | [] => True
  | t :: rest => Forall (fun t' => (t' <= t)%nat) rest /\ newest_first rest
  end.

(** The timestamp of a joined row. *)
Definition stamp (row : ATPExecutionLog.t * string) : nat :=
  ATPExecutionLog.timestamp (fst row).

(** Among the rows of [d] and the listed tools, a fingerprint goes with one
    tool name only. *)
Definition names_agree (self : ATPTranslator) (tools : list Tool.t) (d : Database) : Prop :=
  (forall r t, In r (registry d) -> In t tools ->
               ATPToolRegistry.manifest_hash r = fingerprint_of self t ->
               ATPToolRegistry.tool_name r = Tool.name t)
  /\ (forall t t', In t tools -> In t' tools ->
                   fingerprint_of self t = fingerprint_of self t' ->
                   Tool.name t = Tool.name t').

(* ================================================================= *)
(** ** The [GUID] column type of [db.py] *)

Module GUID.

(** [dialect.name], as far as the type looks at it. *)
Inductive dialect : Type := postgresql | other_dialect.

(** What is bound or loaded: [None], a [uuid.UUID] (its [int], below
    [2^128]) or a [str]. *)
Inductive value : Type :=
| VNone
| VUUID (int : Z)
| VStr (s : string).

(** ["%.32x" % int] for the [int] of a UUID. *)
Definition hex32 (int : Z) : string := SHA256.hex 32 int.

(** [str(u)] for a UUID: the 32 digits in groups of 8-4-4-4-12. *)
Definition uuid_str (int : Z) : string :=
  let h := hex32 int in
  substring 0 8 h ++ "-" ++ substring 8 4 h ++ "-" ++ substring 12 4 h ++ "-"
  ++ substring 16 4 h ++ "-" ++ substring 20 12 h.

Section Parse.

(** [uuid.UUID(s).int] for a string: the library's parser. *)
Variable UUID_of_str : string -> result Z.

Definition process_bind_param (v : value) (d : dialect) : result (option string) :=
  match v with
  | VNone => Ok None
  | VUUID int =>
      match d with
      | postgresql => Ok (Some (uuid_str int))
      | other_dialect => Ok (Some (hex32 int))
      end
  | VStr s =>
      match d with
      | postgresql => Ok (Some s)
      | other_dialect => int <- UUID_of_str s ;; Ok (Some (hex32 int))
      end
  end.

Definition process_result_value (v : value) (d : dialect) : result value :=
  match v with
  | VNone => Ok VNone
  | VUUID int => Ok (VUUID int)
  | VStr s => int <- UUID_of_str s ;; Ok (VUUID int)
  end.

End Parse.

(** Reading a string of hexadecimal digits as a number. *)
Definition digit_value (c : ascii) : Z :=
  let n := Z.of_N (N_of_ascii c) in
  if n <? 58 then n - 48 else n - 87.

Fixpoint hex_value_from (acc : Z) (s : string) : Z :=
  match s with
  | EmptyString => acc
  | String c s' => hex_value_from (16 * acc + digit_value c) s'
  end.

Definition hex_value (s : string) : Z := hex_value_from 0 s.

End GUID.

(** The manifest of the python server's [calculate_sum] in
    [two_servers_db], and a world over that database. *)
Definition python_manifest : ATPToolRegistry.t :=
  {| ATPToolRegistry.id := 0;
     ATPToolRegistry.mcp_server_name := "python";
     ATPToolRegistry.tool_name := "calculate_sum";
     ATPToolRegistry.manifest_hash := "c3ac";
     ATPToolRegistry.raw_mcp_schema := sum_schema;
     ATPToolRegistry.pydantic_schema_code := None;
     ATPToolRegistry.success_rate := "1.0";
     ATPToolRegistry.last_anomaly_log := None;
     ATPToolRegistry.created_at := 0 |}.

Definition logging_world : World := with_db connected_world two_servers_db.

Definition weather_adapter : Adapter :=
  {| kind := CrewAI;
     adapter_name := "get_weather";
     adapter_description := "Gets the fictitious weather for a given location.";
     args_schema :=
       {| model_name := code_points "Get_weatherInput";
          model_fields := [("location", (Tstr, Field Ellipsis (JStr "")))] |};
     mcp_tool := get_weather_tool;
     adapter_session := Some {| channel := 0; server := python_server |} |}.

Definition dummy_tools : list Tool.t := [calculate_sum_tool; get_weather_tool].

Definition locked_storage (_ : Tool.t) : option exn :=
  Some (OtherError "OperationalError: database is locked").

(** A parser that accepts no string. *)
Definition no_uuid (_ : string) : result Z :=
  Raise (ValueError "badly formed hexadecimal UUID string").

(* ================================================================= *)
(** ** [repr] of a [str] and of a list of content blocks *)

(** [str.__repr__] on the embedding's strings: the text is put between
    single quotes, or between double quotes when it has a single quote and
    no double quote; the quote in use and the backslash get a backslash;
    tab, newline and carriage return are written [\t], [\n] and [\r]; the
    other characters that are not printable (below 32, from 127 to 160, and
    173) are written [\xhh]. *)
Definition squote : ascii := ascii_of_N 39.

Fixpoint has_char (c : ascii) (s : string) : bool :=
  match s with
  | EmptyString => false
  | String c' s' => Ascii.eqb c c' || has_char c s'
  end.

Definition repr_quote (s : string) : ascii :=
  if has_char squote s && negb (has_char (ascii_of_N 34) s)
  then ascii_of_N 34
  else squote.

Definition printable (n : N) : bool :=
  ((32 <=? n) && (n <? 127) || (161 <=? n) && negb (n =? 173))%N.

Definition x_escape (c : ascii) : string :=
  let n := N_of_ascii c in
  String "\" (String "x"
    (String (hex_digit (n / 16)) (String (hex_digit (n mod 16)) EmptyString))).

Definition repr_char (quote c : ascii) : string :=
  let n := N_of_ascii c in
  if Ascii.eqb c quote || (n =? 92)%N then String "\" (String c EmptyString)
  else if (n =? 9)%N then "\t"
  else if (n =? 10)%N then "\n"
  else if (n =? 13)%N then "\r"
  else if printable n then String c EmptyString
  else x_escape c.

Fixpoint repr_body (quote : ascii) (s : string) : string :=
  match s with
  | EmptyString => EmptyString
  | String c s' => repr_char quote c ++ repr_body quote s'
  end.

Definition py_repr (s : string) : string :=
  let quote := repr_quote s in
  String quote (repr_body quote s ++ String quote EmptyString).

(** The texts [repr] leaves as they are between the quotes: printable
    characters, no backslash, and not both kinds of quote. *)
Definition repr_verbatim (s : string) : bool :=
  string_forallb (fun c => printable (N_of_ascii c) && negb (N_of_ascii c =? 92)%N) s
  && negb (has_char squote s && has_char (ascii_of_N 34) s).

(** [repr] of a content block as pydantic prints a model,
    [Name(field=repr(value), ...)], over the fields [type], [text] (or
    [data], [mimeType], [resource]) and [annotations] of [mcp.types]; an
    optional field that is not set prints as [None], and the resource of an
    [EmbeddedResource] is carried as its printed form. *)
Definition content_repr (c : Content) : string :=
  match c with
  | TextContent text =>
      "TextContent(type='text', text=" ++ py_repr text ++ ", annotations=None)"
  | ImageContent data mimeType =>
      "ImageContent(type='image', data=" ++ py_repr data
      ++ ", mimeType=" ++ py_repr mimeType ++ ", annotations=None)"
  | EmbeddedResource resource =>
      "EmbeddedResource(type='resource', resource=" ++ resource ++ ", annotations=None)"
  end.

(** [str] of a list: the [repr] of its items between brackets. *)
Definition pydantic_content_str (l : list Content) : string :=
  "[" ++ String.concat ", " (map content_repr l) ++ "]".

(** What is asked of the rendering of a content list: it holds the [repr]
    of the text of every [TextContent] block. *)
Definition renders_text (content_str : list Content -> string) : Prop :=
  forall l text, In (TextContent text) l -> contains (content_str l) (py_repr text).

(** Error answers: a one-line detail, and a detail of two lines. *)
Definition division_by_zero : CallToolResult :=
  {| content := [TextContent "division by zero"]; isError := true |}.

Definition two_lines : string :=
  "Traceback (most recent call last):" ++ String (ascii_of_N 10) "division by zero".

Definition traceback_answer : CallToolResult :=
  {| content := [TextContent two_lines]; isError := true |}.

(** The dummy surroundings with a provider that gives one answer to every
    call. *)
Definition answering_env (r : CallToolResult) : Env :=
  {| launch := fun _ => Launched;
     serve := fun _ =>
       {| list_tools := Ok [calculate_sum_tool];
          call_tool := fun _ _ => Ok r |};
     db_setup := DbReady;
     create_model := plain_create_model;
     storage_fault := fun _ => None;
     langchain_core_installed := true;
     autogen_core_installed := true;
     delivery_fault := fun _ => None |}.




(** A second record for the same tool name, and the databases after one and
    after two accepted records. *)
Definition crewai_log_request : LogCreate.t :=
  {| LogCreate.tool_name := "calculate_sum";
     LogCreate.agent_framework := "crewai";
     LogCreate.input_arguments := [("a", JInt 1); ("b", JInt 2)];
     LogCreate.execution_result := "3";
     LogCreate.is_anomaly := false |}.

Definition one_entry_db : Database := snd (create_log node_log_request two_servers_db).

Definition two_entries_db : Database := snd (create_log crewai_log_request one_entry_db).

(** The database after the dummy server's first tool has been registered. *)
Definition sum_registered_db : Database :=
  register_tool plain_schema_json dummy_env (connected "crewai") calculate_sum_tool empty_db.

(** A schema with a property whose name starts with an underscore. *)
Definition underscore_schema : dict :=
  [("type", JStr "object");
   ("properties", JObj [("_id", JObj [("type", JStr "string")])])].

(** All the code points of the embedding's strings. *)
Definition latin1 : list N := map N.of_nat (seq 0 256).

Definition char_of (n : N) : string := String (ascii_of_N n) EmptyString.

(* ================================================================= *)
(** * Properties *)

Unset Implicit Arguments.

(** ** Test vectors *)

Example dumps_escapes :
  dumps true escapes_json
  = "{" ++ quoted "a" ++ ": [true, null, "
        ++ quoted ("x\" ++ dquote ++ "y\\z\n\u007f\u00e9") ++ ", 1.5, -3], "
        ++ quoted "b" ++ ": 1, " ++ quoted "c" ++ ": {}}".
Proof. vm_compute. reflexivity. Qed.

Example sha256_abc :
  SHA256.hexdigest (encode_utf8 "abc")
  = "ba7816bf8f01cfea414140de5dae2223b00361a396177a9cb410ff61f20015ad".
Proof. vm_compute. reflexivity. Qed.

Example hash_sum :
  generate_manifest_hash "python" "calculate_sum" sum_schema
  = "c3ac08603b972ee7458ac190a4fd79e7dc1d905e173fdabe31d94614bcd5cb5e".
Proof. vm_compute. reflexivity. Qed.

Example hash_latin1 :
  generate_manifest_hash (String (ascii_of_N 233) EmptyString) "t" []
  = "0b2507b076da53e9e86e145760e793f9e2a2da08595f613c5d14f1feebd1754b".
Proof. vm_compute. reflexivity. Qed.

(** [str.lower], [str.capitalize] and [repr] checked against Python on
    the code points below 256: the ones [lower] changes, the title case of
    a letter of each kind, and the ones [repr] does not print as they
    are. *)
Example lower_changes :
  filter (fun n => negb (String.eqb (lower (char_of n)) (char_of n))) latin1
  = (map N.of_nat (seq 65 26) ++ map N.of_nat (seq 192 23) ++ map N.of_nat (seq 216 7))%list.
Proof. vm_compute. reflexivity. Qed.

Example capitalize_letters :
  map (fun n => capitalize (char_of n ++ "LAN")) [101; 233; 223; 181; 255; 247; 215; 49]%N
  = [[69; 108; 97; 110]; [201; 108; 97; 110]; [83; 115; 108; 97; 110];
     [924; 108; 97; 110]; [376; 108; 97; 110]; [247; 108; 97; 110];
     [215; 108; 97; 110]; [49; 108; 97; 110]]%N.
Proof. vm_compute. reflexivity. Qed.

Example capitalize_changes :
  filter (fun n => if list_eq_dec N.eq_dec (capitalize (char_of n)) [n] then false else true)
         latin1
  = (map N.of_nat (seq 97 26) ++ [181; 223]%N ++ map N.of_nat (seq 224 23)
     ++ map N.of_nat (seq 248 8))%list.
Proof. vm_compute. reflexivity. Qed.

Example repr_escapes :
  filter (fun n => negb (String.eqb (py_repr (char_of n))
                           (String squote (char_of n ++ String squote EmptyString))))
         latin1
  = (map N.of_nat (seq 0 32) ++ [39; 92]%N ++ map N.of_nat (seq 127 34) ++ [173]%N)%list.
Proof. vm_compute. reflexivity. Qed.

Example repr_quotes :
  py_repr "it's" = dquote ++ "it's" ++ dquote
  /\ py_repr ("say " ++ dquote ++ "hi" ++ dquote) = "'say " ++ dquote ++ "hi" ++ dquote ++ "'"
  /\ py_repr ("both ' and " ++ dquote) = "'both \' and " ++ dquote ++ "'"
  /\ py_repr "C:\temp" = "'C:\\temp'"
  /\ py_repr two_lines = "'Traceback (most recent call last):\ndivision by zero'".
Proof. vm_compute. repeat split. Qed.

(** ** Strings *)

Lemma append_nil_r (s : string) : s ++ "" = s.
Proof. induction s as [|c s IH]; simpl; [reflexivity | now rewrite IH]. Qed.

Lemma append_assoc (s t u : string) : (s ++ t) ++ u = s ++ (t ++ u).
Proof. induction s as [|c s IH]; simpl; [reflexivity | now rewrite IH]. Qed.

Lemma string_compare_refl (s : string) : String.compare s s = Eq.
Proof.
  induction s as [|c s IH]; simpl; [reflexivity|].
  unfold Ascii.compare. now rewrite N.compare_refl.
Qed.

Lemma string_compare_lt_trans (a b c : string) :
  String.compare a b = Lt -> String.compare b c = Lt -> String.compare a c = Lt.
Proof.
  revert b c. induction a as [|x a IH]; intros [|y b] [|z c]; simpl; try congruence.
  unfold Ascii.compare.
  destruct (N.compare_spec (N_of_ascii x) (N_of_ascii y)) as [Exy|Lxy|Gxy];
    try discriminate;
    destruct (N.compare_spec (N_of_ascii y) (N_of_ascii z)) as [Eyz|Lyz|Gyz];
    try discriminate; intros Hab Hbc.
  - rewrite Exy, Eyz, N.compare_refl. eauto.
  - rewrite Exy. now apply N.compare_lt_iff in Lyz as ->.
  - rewrite <- Eyz. now apply N.compare_lt_iff in Lxy as ->.
  - assert (H : (N_of_ascii x < N_of_ascii z)%N) by lia.
    now apply N.compare_lt_iff in H as ->.
Qed.

Lemma string_leb_trans (a b c : string) :
  String.leb a b = true -> String.leb b c = true -> String.leb a c = true.
Proof.
  unfold String.leb.
  destruct (String.compare a b) eqn:Hab; try discriminate;
    destruct (String.compare b c) eqn:Hbc; try discriminate; intros _ _.
  - apply String.compare_eq_iff in Hab; subst. now rewrite Hbc.
  - apply String.compare_eq_iff in Hab; subst. now rewrite Hbc.
  - apply String.compare_eq_iff in Hbc; subst. now rewrite Hab.
  - now rewrite (string_compare_lt_trans _ _ _ Hab Hbc).
Qed.

Lemma string_leb_false (a b : string) :
  String.leb a b = false -> String.leb b a = true.
Proof.
  intros H. destruct (String.leb_total a b) as [H'|H']; congruence.
Qed.

Lemma nodupb_NoDup (l : list string) : nodupb l = true <-> NoDup l.
Proof.
  induction l as [|x l IH]; simpl.
  - split; [constructor | reflexivity].
  - rewrite andb_true_iff, negb_true_iff, IH. split.
    + intros [Hx Hl]. constructor; [|assumption].
      intros Hin. apply not_true_iff_false in Hx. apply Hx.
      apply existsb_exists. exists x. split; [assumption | apply String.eqb_refl].
    + intros H. inversion H as [|? ? Hx Hl]; subst. split; [|assumption].
      apply not_true_iff_false. intros Hex. apply existsb_exists in Hex.
      destruct Hex as [y [Hin Heq]]. apply String.eqb_eq in Heq. now subst.
Qed.

(** ** Sorting the items of a dict *)

Section SortFacts.
Variable V : Type.
Implicit Types (kv : string * V) (l : list (string * V)).

Lemma insert_item_perm kv l : Permutation (kv :: l) (insert_item kv l).
  Proof.
    induction l as [|kv' l IH]; simpl; [reflexivity|].
    destruct (String.leb (fst kv) (fst kv')); [reflexivity|].
    rewrite perm_swap. now constructor.
  Qed.

Lemma sort_items_perm l : Permutation l (sort_items l).
  Proof.
    induction l as [|kv l IH]; simpl; [reflexivity|].
    rewrite <- insert_item_perm. now constructor.
  Qed.

  (** Two items with different keys can be inserted in either order. *)
Lemma insert_item_comm kv1 kv2 l :
    fst kv1 <> fst kv2 ->
    insert_item kv1 (insert_item kv2 l) = insert_item kv2 (insert_item kv1 l).
  Proof.
    intros Hne. induction l as [|kv l IH]; simpl.
    - destruct (String.leb (fst kv1) (fst kv2)) eqn:H12;
        destruct (String.leb (fst kv2) (fst kv1)) eqn:H21; try reflexivity.
      + exfalso. apply Hne. now apply String.leb_antisym.
      + apply string_leb_false in H12. congruence.
    - destruct (String.leb (fst kv2) (fst kv)) eqn:H2;
        destruct (String.leb (fst kv1) (fst kv)) eqn:H1; simpl;
        rewrite ?H1, ?H2.
      + destruct (String.leb (fst kv1) (fst kv2)) eqn:H12;
          destruct (String.leb (fst kv2) (fst kv1)) eqn:H21;
          rewrite ?H1, ?H2; try reflexivity.
        * exfalso. apply Hne. now apply String.leb_antisym.
        * apply string_leb_false in H12. congruence.
      + destruct (String.leb (fst kv1) (fst kv2)) eqn:H12.
        * rewrite (string_leb_trans _ _ _ H12 H2) in H1. discriminate.
        * rewrite ?H1. reflexivity.
      + destruct (String.leb (fst kv2) (fst kv1)) eqn:H21.
        * rewrite (string_leb_trans _ _ _ H21 H1) in H2. discriminate.
        * rewrite ?H2. reflexivity.
      + now rewrite IH.
  Qed.

  (** With pairwise distinct keys the sorted list does not depend on the
      order the items came in. *)
Lemma sort_items_permutation l l' :
    Permutation l l' -> NoDup (map fst l) -> sort_items l = sort_items l'.
  Proof.
    induction 1 as [|kv l l' Hp IH|kv1 kv2 l|l l' l'' Hp1 IH1 Hp2 IH2]; intros Hnd.
    - reflexivity.
    - simpl. inversion Hnd; subst. now rewrite IH.
    - simpl. apply insert_item_comm. inversion Hnd as [|? ? Hnotin _]; subst.
      intros Heq. apply Hnotin. left. now symmetry.
    - rewrite IH1 by assumption. apply IH2.
      eapply Permutation_NoDup; [|exact Hnd]. now apply Permutation_map.
  Qed.
End SortFacts.

(** Sorting looks at keys only, so it commutes with a change of values. *)
Lemma insert_item_map (V W : Type) (f : V -> W) (kv : string * V) (l : list (string * V)) :
  insert_item (fst kv, f (snd kv)) (map (fun p => (fst p, f (snd p))) l)
  = map (fun p => (fst p, f (snd p))) (insert_item kv l).
Proof.
  induction l as [|kv' l IH]; simpl; [reflexivity|].
  destruct (String.leb (fst kv) (fst kv')); simpl; [reflexivity | now rewrite IH].
Qed.

Lemma sort_items_map (V W : Type) (f : V -> W) (l : list (string * V)) :
  sort_items (map (fun p => (fst p, f (snd p))) l)
  = map (fun p => (fst p, f (snd p))) (sort_items l).
Proof.
  induction l as [|kv l IH]; simpl; [reflexivity|].
  rewrite IH. apply insert_item_map.
Qed.

(** ** Fingerprints *)

Lemma dumps_sorted_canonical (j : json) :
  dumps true j = dumps false (canonicalize j).
Proof.
  induction j as [| [|] | | | | l IH | m IH] using json_ind; try reflexivity.
  - simpl. do 3 f_equal. rewrite map_map.
    apply map_ext_in. intros x Hx. rewrite Forall_forall in IH. now apply IH.
  - simpl. do 4 f_equal.
    rewrite <- (sort_items_map _ _ (dumps false)).
    rewrite map_map. simpl. f_equal.
    apply map_ext_in. intros kv Hkv. rewrite Forall_forall in IH.
    now rewrite (IH kv Hkv).
Qed.

Lemma dumps_sorted_perm (j : json) :
  forall j', json_wf j = true -> json_perm j j' -> dumps true j = dumps true j'.
Proof.
  induction j as [| b | | | | l IH | m IH] using json_ind;
    intros j' Hwf Hp; inversion Hp; subst; try reflexivity.
  - (* lists: item by item *)
    simpl. do 3 f_equal. simpl in Hwf. rewrite forallb_forall in Hwf.
    match goal with H : Forall2 json_perm _ _ |- _ => rename H into HF end.
    induction HF as [|x y l l' Hxy HF IHF]; [reflexivity|].
    inversion IH; subst. simpl. f_equal.
    + match goal with H : forall j', _ -> _ -> dumps true x = _ |- _ => apply H end;
        [apply Hwf; now left | assumption].
    + apply IHF; [assumption | | constructor; assumption].
      intros z Hz. apply Hwf. now right.
  - (* dicts: the items agree one by one, and their order is sorted away *)
    simpl. do 4 f_equal.
    simpl in Hwf. apply andb_true_iff in Hwf as [Hnd Hwf].
    apply nodupb_NoDup in Hnd. rewrite forallb_forall in Hwf.
    match goal with H : Forall2 _ m _ |- _ => rename H into HF end.
    match goal with H : Permutation _ _ |- _ => rename H into HP end.
    assert (Hmap : map (fun kv => (fst kv, dumps true (snd kv))) m
                   = map (fun kv => (fst kv, dumps true (snd kv))) m').
    { clear HP Hnd Hp. induction HF as [|x y l l' [Hk Hv] HF IHF]; [reflexivity|].
      inversion IH; subst. simpl. f_equal.
      - f_equal; [assumption|].
        match goal with H : forall j', _ -> _ -> dumps true (snd x) = _ |- _ => apply H end;
          [apply (Hwf x); now left | assumption].
      - apply IHF; [assumption|]. intros z Hz. apply Hwf. now right. }
    rewrite Hmap. apply sort_items_permutation.
    + now apply Permutation_map.
    + rewrite <- Hmap, map_map. simpl. exact Hnd.
Qed.

(** [C2] The fingerprint is a function of its three arguments (the same
    triple gives the same digest, [schema' = schema] below), it does not
    change when the items of the schema's dicts are put in another order,
    and it is the SHA-256 hex digest of the UTF-8 bytes of
    [server_name + ":" + tool_name + ":" +] the key-ordered JSON text of the
    schema. *)
Theorem fingerprint_canonical (server_name tool_name : string) (schema schema' : dict) :
  dict_wf schema = true ->
  json_perm (JObj schema) (JObj schema') ->
  generate_manifest_hash server_name tool_name schema
  = generate_manifest_hash server_name tool_name schema'
  /\ generate_manifest_hash server_name tool_name schema
     = SHA256.hexdigest
         (encode_utf8 (server_name ++ ":" ++ tool_name ++ ":" ++ canonical_schema_json schema)).
Proof.
  intros Hwf Hp. unfold generate_manifest_hash, canonical_schema_json. split.
  - now rewrite (dumps_sorted_perm _ _ Hwf Hp).
  - now rewrite dumps_sorted_canonical.
Qed.

Lemma sum_schema_perm : json_perm (JObj sum_schema) (JObj sum_schema_permuted).
Proof.
  eapply json_perm_obj with
    (m' := [("type", JStr "object");
            ("properties", JObj [("b", JObj [("type", JStr "integer")]);
                                 ("a", JObj [("type", JStr "integer")])]);
            ("required", JArr [JStr "a"; JStr "b"])]).
  - repeat constructor; simpl.
    eapply json_perm_obj; [|apply perm_swap].
    repeat constructor.
  - unfold sum_schema_permuted.
    eapply perm_trans; [apply perm_skip, perm_swap|].
    eapply perm_trans; [apply perm_swap|].
    apply perm_skip, perm_swap.
Qed.

Lemma fingerprint_canonical_witness :
  dict_wf sum_schema = true
  /\ json_perm (JObj sum_schema) (JObj sum_schema_permuted)
  /\ generate_manifest_hash "python" "calculate_sum" sum_schema
     = generate_manifest_hash "python" "calculate_sum" sum_schema_permuted.
Proof.
  split; [reflexivity|]. split; [exact sum_schema_perm|].
  exact (proj1 (fingerprint_canonical "python" "calculate_sum" sum_schema
                  sum_schema_permuted eq_refl sum_schema_perm)).
Defined.

(** ** Schema translation *)

Lemma type_mapping_get_hashable (t : json) :
  hashable t = true -> type_mapping_get t = Ok (semantic_type t).
Proof. destruct t; simpl; intros H; try reflexivity; discriminate. Qed.

Lemma semantic_type_six :
  semantic_type (JStr "string") = Tstr /\ semantic_type (JStr "integer") = Tint
  /\ semantic_type (JStr "number") = Tfloat /\ semantic_type (JStr "boolean") = Tbool
  /\ semantic_type (JStr "array") = Tlist /\ semantic_type (JStr "object") = Tdict.
Proof. repeat split. Qed.

Lemma semantic_type_unrecognized (s : string) :
  pd_get type_mapping s = None -> semantic_type (JStr s) = TAny.
Proof. simpl. now intros ->. Qed.

Lemma pd_set_fresh (V : Type) (d : pydict V) (k : string) (v : V) :
  ~ In k (map fst d) -> pd_set d k v = (d ++ [(k, v)])%list.
Proof.
  induction d as [|[k' v'] d IH]; simpl; intros Hk; [reflexivity|].
  destruct (String.eqb_spec k' k) as [->|Hne].
  - exfalso. apply Hk. now left.
  - rewrite IH; [reflexivity|]. intros Hin. apply Hk. now right.
Qed.

Lemma translate_field_ok (required : list json) (fields : pydict field_def)
    (field_name : string) (field_schema : json) :
  property_ok field_schema = true ->
  translate_field (JArr required) fields (field_name, field_schema)
  = Ok (pd_set fields field_name (expected_field required field_name field_schema)).
Proof.
  destruct field_schema as [| | | | | |d]; try discriminate.
  intros Hok. unfold translate_field, json_schema_to_pydantic_type. simpl in *.
  rewrite type_mapping_get_hashable by exact Hok. simpl.
  now destruct (existsb (json_is_str field_name) required).
Qed.

Lemma translate_fields_ok (required : list json) (items : dict) :
  forall fields,
    forallb (fun kv => property_ok (snd kv)) items = true ->
    NoDup (map fst fields ++ map fst items)%list ->
    translate_fields (JArr required) items fields
    = Ok (fields ++ map (fun kv => (fst kv, expected_field required (fst kv) (snd kv))) items)%list.
Proof.
  induction items as [|[k v] items IH]; intros fields Hok Hnd; cbn [translate_fields].
  - simpl. now rewrite app_nil_r.
  - simpl in Hok. apply andb_true_iff in Hok as [Hv Hok].
    rewrite translate_field_ok by exact Hv. cbn [bind map fst snd].
    assert (Hfresh : ~ In k (map fst fields)).
    { intros Hin. apply NoDup_remove_2 in Hnd. apply Hnd.
      apply in_or_app. now left. }
    rewrite pd_set_fresh by exact Hfresh. rewrite IH.
    + now rewrite <- app_assoc.
    + assumption.
    + rewrite map_app, <- app_assoc. exact Hnd.
Qed.

(** [X24] On a schema whose property schemas are dicts with hashable declared
    types and whose [required] is a list, [create_model] is called with the
    capitalized tool name followed by [Input] and with one field per
    property, in order, each as the spec describes it; what comes back is
    what [create_model] makes of them. *)
Lemma generate_pydantic_model_ok (create_model : CreateModel) (tool_name : string)
    (input_schema props : dict) (required : list json) :
  dict_get_default input_schema "properties" (JObj []) = JObj props ->
  dict_get_default input_schema "required" (JArr []) = JArr required ->
  NoDup (map fst props) ->
  forallb (fun kv => property_ok (snd kv)) props = true ->
  generate_pydantic_model create_model tool_name input_schema
  = create_model (capitalize tool_name ++ code_points "Input")%list
      (map (fun kv => (fst kv, expected_field required (fst kv) (snd kv))) props).
Proof.
  intros Hp Hr Hnd Hok. unfold generate_pydantic_model. rewrite Hp, Hr. simpl.
  now rewrite (translate_fields_ok required props [] Hok Hnd).
Qed.

(** [C3] Schema translation is not total: a declared type that is a list
    is not one of the six names, and instead of giving an open field the
    lookup in [type_mapping] raises [TypeError]; a property schema that is
    not a dict raises [AttributeError].  No contract is produced. *)
Theorem generate_pydantic_model_raises (create_model : CreateModel) :
  generate_pydantic_model create_model "t" union_type_schema
  = Raise (TypeError "unhashable type: 'list'")
  /\ generate_pydantic_model create_model "t" boolean_property_schema
     = Raise (AttributeError "object has no attribute 'get'").
Proof. split; reflexivity. Qed.

(** ** The log endpoint *)

Lemma find_none_iff (A : Type) (f : A -> bool) (l : list A) :
  find f l = None <-> forall x, In x l -> f x = false.
Proof.
  split; [apply find_none|].
  induction l as [|a l IH]; simpl; intros H; [reflexivity|].
  rewrite (H a) by now left. apply IH. intros x Hx. apply H. now right.
Qed.

Lemma find_app_none (A : Type) (f : A -> bool) (l l' : list A) :
  find f l = None -> find f (l ++ l') = find f l'.
Proof.
  induction l as [|a l IH]; simpl; [reflexivity|].
  destruct (f a); [discriminate | exact IH].
Qed.

(** [find] returns the first element that passes. *)
Lemma find_first (A : Type) (f : A -> bool) (l : list A) (x : A) :
  find f l = Some x ->
  exists before after,
    l = (before ++ x :: after)%list /\ f x = true /\ Forall (fun y => f y = false) before.
Proof.
  induction l as [|a l IH]; simpl; [discriminate|].
  destruct (f a) eqn:Ha.
  - intros [= ->]. exists [], l. repeat split; [assumption | constructor].
  - intros H. destruct (IH H) as (before & after & -> & Hx & Hb).
    exists (a :: before), after. repeat split; [assumption | now constructor].
Qed.

(** [C6] A request naming a tool that no manifest carries is answered with
    the 404 error; the database, registry and log alike, is what it was. *)
Theorem create_log_unknown_tool (log_req : LogCreate.t) (db : Database) :
  (forall r, In r (registry db) ->
             ATPToolRegistry.tool_name r <> LogCreate.tool_name log_req) ->
  create_log log_req db
  = (Raise (HTTPException 404
              ("Tool " ++ LogCreate.tool_name log_req ++ " not found in registry")),
     db).
Proof.
  intros Hnone. unfold create_log, first_by_name.
  assert (H : find (fun r => String.eqb (ATPToolRegistry.tool_name r)
                                        (LogCreate.tool_name log_req)) (registry db) = None).
  { apply find_none_iff. intros r Hr. apply String.eqb_neq. now apply Hnone. }
  now rewrite H.
Qed.

(** [C10] The entry written for a request carries the [id] of the first
    manifest, in storage order, whose [tool_name] is the request's; server
    name and fingerprint are not looked at.  The registry is left as it
    was, so any later request with that tool name, whatever its framework,
    gets the same [tool_id]. *)
Theorem create_log_attaches_by_name (log_req : LogCreate.t) (db db' : Database)
    (log_id : nat) :
  create_log log_req db = (Ok log_id, db') ->
  exists before tool after entry,
    registry db = (before ++ tool :: after)%list
    /\ ATPToolRegistry.tool_name tool = LogCreate.tool_name log_req
    /\ Forall (fun r => ATPToolRegistry.tool_name r <> LogCreate.tool_name log_req) before
    /\ execution_log db' = (execution_log db ++ [entry])%list
    /\ ATPExecutionLog.id entry = log_id
    /\ ATPExecutionLog.tool_id entry = ATPToolRegistry.id tool
    /\ registry db' = registry db
    /\ forall log_req2,
         LogCreate.tool_name log_req2 = LogCreate.tool_name log_req ->
         exists entry2,
           execution_log (snd (create_log log_req2 db'))
           = (execution_log db' ++ [entry2])%list
           /\ ATPExecutionLog.tool_id entry2 = ATPToolRegistry.id tool.
Proof.
  unfold create_log at 1.
  destruct (first_by_name db (LogCreate.tool_name log_req)) as [tool|] eqn:Hfind;
    [|discriminate].
  intros [= <- <-].
  destruct (find_first _ _ _ _ Hfind) as (before & after & Hreg & Hname & Hbefore).
  apply String.eqb_eq in Hname.
  eexists before, tool, after, _. split; [exact Hreg|]. split; [exact Hname|].
  split.
  { eapply Forall_impl; [|exact Hbefore]. intros r Hr. now apply String.eqb_neq. }
  split; [reflexivity|]. split; [reflexivity|]. split; [reflexivity|].
  split; [reflexivity|].
  intros log_req2 Hsame. unfold create_log, first_by_name. simpl.
  rewrite Hsame. unfold first_by_name in Hfind. rewrite Hfind. simpl.
  eexists. split; reflexivity.
Qed.

(** ** Adapter invocation *)

Lemma concat_empty_cons (s : string) (l : list string) :
  String.concat "" (s :: l) = s ++ String.concat "" l.
Proof. destruct l; simpl; [now rewrite append_nil_r | reflexivity]. Qed.

Lemma fold_append_text (l : list Content) (output : string) :
  fold_left append_text l output = output ++ String.concat "" (text_fragments l).
Proof.
  revert output. induction l as [|c l IH]; intros output.
  - simpl. now rewrite append_nil_r.
  - cbn [fold_left]. rewrite IH. unfold text_fragments.
    destruct c; cbn [append_text flat_map app]; try reflexivity.
    now rewrite concat_empty_cons, append_assoc.
Qed.

Lemma text_fragments_In (l : list Content) (text : string) :
  In text (text_fragments l) <-> In (TextContent text) l.
Proof.
  unfold text_fragments. rewrite in_flat_map. split.
  - intros (c & Hc & Hin). destruct c; simpl in Hin; try contradiction.
    destruct Hin as [->|[]]. exact Hc.
  - intros Hin. exists (TextContent text). split; [exact Hin | now left].
Qed.

Lemma contains_refl (s : string) : contains s s.
Proof. exists "", "". now rewrite append_nil_r. Qed.

Lemma contains_trans (s t u : string) : contains s t -> contains t u -> contains s u.
Proof.
  intros (p1 & q1 & ->) (p2 & q2 & ->). exists (p1 ++ p2), (q2 ++ q1).
  now rewrite !append_assoc.
Qed.

Lemma contains_append_l (p s t : string) : contains s t -> contains (p ++ s) t.
Proof. intros (p1 & q1 & ->). exists (p ++ p1), q1. now rewrite !append_assoc. Qed.

Lemma contains_append_r (s q t : string) : contains s t -> contains (s ++ q) t.
Proof. intros (p1 & q1 & ->). exists p1, (q1 ++ q). now rewrite !append_assoc. Qed.

Lemma contains_concat (sep : string) (l : list string) (x : string) :
  In x l -> contains (String.concat sep l) x.
Proof.
  induction l as [|y l IH]; [intros []|]. intros [->|Hin].
  - destruct l; [apply contains_refl|]. cbn [String.concat].
    apply contains_append_r, contains_refl.
  - destruct l as [|z l]; [destruct Hin|]. cbn [String.concat].
    apply contains_append_l, contains_append_l. now apply IH.
Qed.

(** The rendering pydantic gives holds the [repr] of every text. *)
Lemma pydantic_renders_text : renders_text pydantic_content_str.
Proof.
  intros l text Hin. unfold pydantic_content_str.
  apply contains_append_l, contains_append_r.
  apply contains_trans with (t := content_repr (TextContent text)).
  - apply contains_concat. now apply (in_map content_repr).
  - cbn [content_repr]. apply contains_append_l, contains_append_r, contains_refl.
Qed.

Lemma repr_body_verbatim (quote : ascii) (s : string) :
  string_forallb (fun c => printable (N_of_ascii c) && negb (N_of_ascii c =? 92)%N) s = true ->
  has_char quote s = false ->
  repr_body quote s = s.
Proof.
  induction s as [|c s IH]; [reflexivity|]. cbn [string_forallb has_char repr_body].
  intros Hp Hq. apply andb_true_iff in Hp as [Hc Hp]. apply andb_true_iff in Hc as [Hpr Hbs].
  apply orb_false_iff in Hq as [Hcq Hq]. rewrite (IH Hp Hq).
  unfold repr_char. rewrite Ascii.eqb_sym, Hcq.
  apply negb_true_iff in Hbs. rewrite Hbs. cbn [orb].
  assert (H32 : (32 <=? N_of_ascii c)%N = true).
  { unfold printable in Hpr. apply orb_true_iff in Hpr as [H|H];
      apply andb_true_iff in H as [H _]; apply N.leb_le in H; apply N.leb_le; lia. }
  apply N.leb_le in H32.
  replace (N_of_ascii c =? 9)%N with false by (symmetry; apply N.eqb_neq; lia).
  replace (N_of_ascii c =? 10)%N with false by (symmetry; apply N.eqb_neq; lia).
  replace (N_of_ascii c =? 13)%N with false by (symmetry; apply N.eqb_neq; lia).
  now rewrite Hpr.
Qed.

(** A text that [repr] leaves as it is stands between the quotes. *)
Lemma repr_verbatim_contains (s : string) :
  repr_verbatim s = true -> contains (py_repr s) s.
Proof.
  unfold repr_verbatim, py_repr. intros H. apply andb_true_iff in H as [Hp Hq].
  apply negb_true_iff in Hq.
  assert (Hfree : has_char (repr_quote s) s = false).
  { unfold repr_quote.
    destruct (has_char squote s) eqn:Hs; destruct (has_char (ascii_of_N 34) s) eqn:Hd;
      cbn [andb negb]; try assumption; discriminate. }
  rewrite (repr_body_verbatim _ s Hp Hfree).
  exists (String (repr_quote s) ""), (String (repr_quote s) ""). reflexivity.
Qed.

(** When a text is not found from the start of another, it is not in it. *)
Lemma substring_middle (pre sub post : string) :
  substring (String.length pre) (String.length sub) (pre ++ sub ++ post) = sub.
Proof.
  induction pre as [|c pre IH]; [|exact IH]. cbn [String.length append].
  induction sub as [|c sub IH]; cbn [String.length append substring].
  - now destruct post.
  - now rewrite IH.
Qed.

Lemma index_none_not_contains (s sub : string) :
  sub <> "" -> String.index 0 sub s = None -> ~ contains s sub.
Proof.
  intros Hne Hidx (pre & post & ->).
  apply (index_correct3 0 (String.length pre) sub _ Hidx Hne); [lia|].
  apply substring_middle.
Qed.

Lemma make_adapter_inv (env : Env) (f : Framework) (fallback : string)
    (s : option ClientSession) (tool : Tool.t) (a : Adapter) :
  make_adapter env f fallback s tool = Ok a ->
  kind a = f /\ adapter_name a = Tool.name tool /\ mcp_tool a = tool
  /\ adapter_session a = s
  /\ generate_pydantic_model (create_model env) (Tool.name tool) (Tool.inputSchema tool)
     = Ok (args_schema a).
Proof.
  unfold make_adapter.
  destruct (generate_pydantic_model (create_model env) (Tool.name tool)
              (Tool.inputSchema tool)); simpl;
    [|discriminate].
  intros [= <-]. simpl. repeat split.
Qed.

(** What [translate_tool] returns is an adapter of the configured
    framework, for this tool, closed over the translator's session. *)
Lemma translate_tool_inv (env : Env) (self : ATPTranslator) (tool : Tool.t) (a : Adapter) :
  translate_tool env self tool = Ok a ->
  framework_name (kind a) = target_framework self
  /\ adapter_name a = Tool.name tool /\ mcp_tool a = tool
  /\ adapter_session a = session self
  /\ generate_pydantic_model (create_model env) (Tool.name tool) (Tool.inputSchema tool)
     = Ok (args_schema a).
Proof.
  unfold translate_tool, generate_crewai_tool, generate_langchain_tool,
    generate_autogen_tool.
  destruct (String.eqb_spec (target_framework self) "crewai") as [E1|_].
  { intros H. apply make_adapter_inv in H as (-> & H). now rewrite E1. }
  destruct (String.eqb_spec (target_framework self) "langchain") as [E2|_].
  { destruct (langchain_core_installed env); [|discriminate].
    intros H. apply make_adapter_inv in H as (-> & H). now rewrite E2. }
  destruct (String.eqb_spec (target_framework self) "autogen") as [E3|_];
    [|discriminate].
  destruct (autogen_core_installed env); [|discriminate].
  intros H. apply make_adapter_inv in H as (-> & H). now rewrite E3.
Qed.

Section AdapterFacts.

Variable schema_json : PydanticModel -> string.
Variable content_str : list Content -> string.

(** An adapter whose provider answers returns the classified text and
    hands exactly one record to the log sink. *)
Lemma invoke_answered (env : Env) (a : Adapter) (kwargs : dict) (w : World)
    (r : CallToolResult) :
  session_call_tool env w (adapter_session a) (call_name a) kwargs = Ok r ->
  fst (invoke content_str env a kwargs w) = Ok (snd (classify content_str r))
  /\ submitted (snd (invoke content_str env a kwargs w))
     = (submitted w ++
        [{| LogCreate.tool_name := Tool.name (mcp_tool a);
            LogCreate.agent_framework := framework_name (kind a);
            LogCreate.input_arguments := kwargs;
            LogCreate.execution_result := snd (classify content_str r);
            LogCreate.is_anomaly := fst (classify content_str r) |}])%list.
Proof.
  unfold call_name, invoke, crewai_run, langchain_arun, autogen_run, call_and_log.
  destruct (kind a); intros ->; destruct (classify content_str r) as [is_anomaly output]; simpl;
    unfold submit_log;
    match goal with |- context [delivery_fault ?e ?p] => destruct (delivery_fault e p) end;
    split; reflexivity.
Qed.

(** [C4, as the code has it] For an adapter made by [get_tools]' dispatch,
    when the provider answers.  With an error status the record handed to
    the log sink has [is_anomaly = True] and the returned text is
    ["Error executing tool: "] followed by the [str] of the content list;
    with a rendering that holds the [repr] of each text block, the returned
    text contains the [repr] of every text fragment of the error detail,
    and the fragment itself when [repr] leaves it as it is.  Without an
    error status the record has [is_anomaly = False] and the returned text
    is the texts of the [TextContent] blocks joined in order. *)
Theorem anomaly_classification (env : Env) (self : ATPTranslator) (tool : Tool.t)
    (a : Adapter) (kwargs : dict) (w : World) (r : CallToolResult) :
  renders_text content_str ->
  translate_tool env self tool = Ok a ->
  session_call_tool env w (session self) (Tool.name tool) kwargs = Ok r ->
  exists output,
    fst (invoke content_str env a kwargs w) = Ok output
    /\ submitted (snd (invoke content_str env a kwargs w))
       = (submitted w ++
          [{| LogCreate.tool_name := Tool.name tool;
              LogCreate.agent_framework := target_framework self;
              LogCreate.input_arguments := kwargs;
              LogCreate.execution_result := output;
              LogCreate.is_anomaly := isError r |}])%list
    /\ (isError r = true ->
        output = "Error executing tool: " ++ content_str (content r)
        /\ forall text,
             In text (text_fragments (content r)) ->
             contains output (py_repr text)
             /\ (repr_verbatim text = true -> contains output text))
    /\ (isError r = false ->
        output = String.concat "" (text_fragments (content r))).
Proof.
  intros Hrender Ha Hcall.
  destruct (translate_tool_inv _ _ _ _ Ha) as (Hfw & Hname & Htool & Hsess & _).
  assert (Hcall' : session_call_tool env w (adapter_session a) (call_name a) kwargs = Ok r).
  { unfold call_name. rewrite Hsess, Htool, Hname. now destruct (kind a). }
  destruct (invoke_answered _ _ _ _ _ Hcall') as [Hret Hsub].
  exists (snd (classify content_str r)). split; [exact Hret|]. split.
  - rewrite Hsub, Htool, Hfw. do 3 f_equal.
    unfold classify. now destruct (isError r).
  - unfold classify. split; intros ->; simpl.
    + split; [reflexivity|]. intros text Hin.
      apply text_fragments_In in Hin.
      assert (Hc : contains ("Error executing tool: " ++ content_str (content r))
                     (py_repr text)).
      { apply contains_append_l. now apply Hrender. }
      split; [exact Hc|]. intros Hv.
      apply (contains_trans _ _ _ Hc). now apply repr_verbatim_contains.
    + apply fold_append_text.
Qed.

(** [C5] Whatever the log sink does with the record, raise included, the
    adapter returns what it returns when the sink accepts it; and once the
    provider has answered, what it returns is the classified text, not an
    exception. *)
Theorem logging_failure_invisible (env : Env) (a : Adapter) (kwargs : dict) (w : World)
    (fault : LogCreate.t -> option exn) :
  fst (invoke content_str (with_delivery env fault) a kwargs w)
  = fst (invoke content_str (with_delivery env (fun _ => None)) a kwargs w)
  /\ forall r,
       session_call_tool env w (adapter_session a) (call_name a) kwargs = Ok r ->
       fst (invoke content_str (with_delivery env fault) a kwargs w) = Ok (snd (classify content_str r)).
Proof.
  split.
  - unfold invoke, crewai_run, langchain_arun, autogen_run, call_and_log.
    destruct (kind a);
      match goal with
      | |- context [session_call_tool (with_delivery env fault) ?w ?s ?n ?k] =>
          change (session_call_tool (with_delivery env fault) w s n k)
            with (session_call_tool env w s n k);
          change (session_call_tool (with_delivery env (fun _ => None)) w s n k)
            with (session_call_tool env w s n k);
          destruct (session_call_tool env w s n k) as [r|e]
      end;
      try destruct (classify content_str r); reflexivity.
  - intros r Hr.
    apply (invoke_answered (with_delivery env fault) a kwargs w r Hr).
Qed.

End AdapterFacts.

(** ** Discovery and the registry *)

Lemma rows_with_hash_none (db : Database) (h : string) :
  first_by_hash db h = None -> rows_with_hash db h = [].
Proof.
  unfold first_by_hash, rows_with_hash. induction (registry db) as [|r l IH]; simpl;
    [reflexivity|].
  destruct (String.eqb (ATPToolRegistry.manifest_hash r) h); [discriminate | exact IH].
Qed.

(** Under the unique index the first row with a fingerprint is the only one. *)
Lemma rows_with_hash_unique (db : Database) (h : string) (m : ATPToolRegistry.t) :
  registry_unique db -> first_by_hash db h = Some m -> rows_with_hash db h = [m].
Proof.
  unfold registry_unique, first_by_hash, rows_with_hash.
  induction (registry db) as [|r l IH]; simpl; [discriminate|].
  intros Hnd. inversion Hnd as [|? ? Hnotin Hnd']; subst.
  destruct (String.eqb_spec (ATPToolRegistry.manifest_hash r) h) as [Heq|Hne].
  - intros [= ->]. f_equal.
    assert (Hnone : forall l', ~ In h (map ATPToolRegistry.manifest_hash l') ->
              filter (fun r => String.eqb (ATPToolRegistry.manifest_hash r) h) l' = []).
    { induction l' as [|r' l' IH']; simpl; [reflexivity|]. intros Hn.
      destruct (String.eqb_spec (ATPToolRegistry.manifest_hash r') h) as [E|_].
      - exfalso. apply Hn. now left.
      - apply IH'. intros Hin. apply Hn. now right. }
    apply Hnone. now rewrite <- Heq.
  - now apply IH.
Qed.

Lemma first_by_hash_absent (db : Database) (h : string) :
  first_by_hash db h = None -> ~ In h (map ATPToolRegistry.manifest_hash (registry db)).
Proof.
  unfold first_by_hash. intros Hnone Hin. apply in_map_iff in Hin as (r & Hr & Hin).
  pose proof (find_none _ _ Hnone r Hin) as H. simpl in H.
  rewrite Hr, String.eqb_refl in H. discriminate.
Qed.

(** What [add(); commit()] leaves behind. *)
Lemma add_registry_row_ok (db : Database) (server_name tool_name h : string)
    (schema : dict) (code : string) :
  first_by_hash db h = None ->
  exists db' m,
    add_registry_row db server_name tool_name h schema code = Ok db'
    /\ registry db' = (registry db ++ [m])%list
    /\ execution_log db' = execution_log db
    /\ first_by_hash db' h = Some m
    /\ ATPToolRegistry.id m = next_uuid db
    /\ ATPToolRegistry.mcp_server_name m = server_name
    /\ ATPToolRegistry.tool_name m = tool_name
    /\ ATPToolRegistry.manifest_hash m = h
    /\ ATPToolRegistry.raw_mcp_schema m = schema
    /\ ATPToolRegistry.success_rate m = "1.0"
    /\ (registry_unique db -> registry_unique db').
Proof.
  intros Hnone. unfold add_registry_row. rewrite Hnone.
  eexists _, _. split; [reflexivity|]. simpl. split; [reflexivity|].
  split; [reflexivity|]. split.
  - unfold first_by_hash in *. simpl. rewrite find_app_none by exact Hnone. simpl.
    now rewrite String.eqb_refl.
  - repeat (split; [reflexivity|]).
    unfold registry_unique. simpl. intros Hnd.
    rewrite map_app. simpl. apply NoDup_app; [exact Hnd | repeat constructor; intros [] |].
    intros x Hin [<-|[]]. now apply (first_by_hash_absent _ _ Hnone).
Qed.

Section DiscoveryFacts.

Variable schema_json : PydanticModel -> string.
Variable content_str : list Content -> string.

(** A registered fingerprint makes the registration step a no-op, whatever
    the storage does. *)
Lemma register_tool_found (env : Env) (self : ATPTranslator) (tool : Tool.t)
    (d : Database) (m : ATPToolRegistry.t) :
  first_by_hash d (fingerprint_of self tool) = Some m ->
  register_tool schema_json env self tool d = d.
Proof.
  intros Hd. unfold register_tool, try_register.
  destruct (storage_fault env tool); [reflexivity|].
  fold (fingerprint_of self tool). now rewrite Hd.
Qed.

(** The registration step inserts when, and only when, the fingerprint is
    new, the contract is generated and storage does not raise. *)
Lemma register_tool_fresh (env : Env) (self : ATPTranslator) (tool : Tool.t)
    (d : Database) (model : PydanticModel) :
  first_by_hash d (fingerprint_of self tool) = None ->
  storage_fault env tool = None ->
  generate_pydantic_model (create_model env) (Tool.name tool) (Tool.inputSchema tool) = Ok model ->
  add_registry_row d (server_name_of self) (Tool.name tool) (fingerprint_of self tool)
    (Tool.inputSchema tool) (schema_json model)
  = Ok (register_tool schema_json env self tool d).
Proof.
  intros Hnone Hfault Hmodel. unfold register_tool, try_register. rewrite Hfault.
  fold (fingerprint_of self tool). rewrite Hnone, Hmodel. simpl.
  destruct (add_registry_row_ok d (server_name_of self) (Tool.name tool)
              (fingerprint_of self tool) (Tool.inputSchema tool) (schema_json model) Hnone)
    as (d' & m & Hadd & _).
  now rewrite Hadd.
Qed.

Lemma register_tool_unique (env : Env) (self : ATPTranslator) (tool : Tool.t)
    (d : Database) :
  registry_unique d -> registry_unique (register_tool schema_json env self tool d).
Proof.
  intros Hu. unfold register_tool, try_register.
  destruct (storage_fault env tool); [exact Hu|].
  fold (fingerprint_of self tool).
  destruct (first_by_hash d (fingerprint_of self tool)) eqn:Hfind; [exact Hu|].
  destruct (generate_pydantic_model (create_model env) (Tool.name tool) (Tool.inputSchema tool)) as [model|];
    simpl; [|exact Hu].
  destruct (add_registry_row_ok d (server_name_of self) (Tool.name tool)
              (fingerprint_of self tool) (Tool.inputSchema tool) (schema_json model) Hfind)
    as (d' & m & Hadd & H).
  rewrite Hadd. now apply H.
Qed.

Lemma rows_with_hash_le_1 (d : Database) (h : string) :
  registry_unique d -> (List.length (rows_with_hash d h) <= 1)%nat.
Proof.
  intros Hu. destruct (first_by_hash d h) as [m|] eqn:Hfind.
  - rewrite (rows_with_hash_unique d h m Hu Hfind). simpl. lia.
  - rewrite (rows_with_hash_none d h Hfind). simpl. lia.
Qed.

(** [C1, as the code has it] Two discovery runs registering the same
    (server, tool, schema), each under its own storage conditions, on a
    registry that respects its unique index.  There is never a second row
    with the fingerprint.  Once the first run leaves a manifest [m] for the
    fingerprint, the second run changes nothing: the database is the same,
    [m] (with its [id]) is still the manifest found, and it is the only row
    with that fingerprint.  A manifest present before the first run is left
    as it is.  The first run does leave a manifest whenever the typed
    contract of the schema is generated and storage does not raise: the one
    already there, or a new last row with a fresh [id], the server name,
    tool name, schema and a [success_rate] of 1.0.  When storage raises, the
    run leaves the database as it was. *)
Theorem upsert_idempotent (env1 env2 : Env) (self : ATPTranslator) (tool : Tool.t)
    (db : Database) :
  registry_unique db ->
  let h := fingerprint_of self tool in
  let db1 := register_tool schema_json env1 self tool db in
  let db2 := register_tool schema_json env2 self tool db1 in
  (List.length (rows_with_hash db2 h) <= 1)%nat
  /\ (forall m, first_by_hash db1 h = Some m ->
        db2 = db1 /\ first_by_hash db2 h = Some m /\ rows_with_hash db2 h = [m])
  /\ (forall m0, first_by_hash db h = Some m0 ->
        db1 = db /\ first_by_hash db1 h = Some m0)
  /\ (forall model,
        storage_fault env1 tool = None ->
        generate_pydantic_model (create_model env1) (Tool.name tool) (Tool.inputSchema tool)
        = Ok model ->
        exists m,
          first_by_hash db1 h = Some m
          /\ (first_by_hash db h = None ->
              registry db1 = (registry db ++ [m])%list
              /\ ATPToolRegistry.id m = next_uuid db
              /\ ATPToolRegistry.mcp_server_name m = server_name_of self
              /\ ATPToolRegistry.tool_name m = Tool.name tool
              /\ ATPToolRegistry.manifest_hash m = h
              /\ ATPToolRegistry.raw_mcp_schema m = Tool.inputSchema tool
              /\ ATPToolRegistry.success_rate m = "1.0"))
  /\ (storage_fault env1 tool <> None -> db1 = db).
Proof.
  intros Huniq h db1 db2.
  assert (Hu1 : registry_unique db1) by now apply register_tool_unique.
  assert (Hu2 : registry_unique db2) by now apply register_tool_unique.
  split; [now apply rows_with_hash_le_1|]. split; [|split; [|split]].
  4:{ intros Hf. unfold db1, register_tool, try_register.
      destruct (storage_fault env1 tool); [reflexivity | now destruct Hf]. }
  - intros m Hm.
    assert (E : db2 = db1) by (apply (register_tool_found env2 self tool db1 m Hm)).
    rewrite E. split; [reflexivity|]. split; [exact Hm|].
    now apply rows_with_hash_unique.
  - intros m0 Hm0.
    assert (E : db1 = db) by (apply (register_tool_found env1 self tool db m0 Hm0)).
    rewrite E. split; [reflexivity | exact Hm0].
  - intros model Hfault Hmodel.
    destruct (first_by_hash db h) as [m0|] eqn:Hfind.
    + exists m0. split; [|discriminate].
      unfold db1. now rewrite (register_tool_found env1 self tool db m0 Hfind).
    + destruct (add_registry_row_ok db (server_name_of self) (Tool.name tool) h
                  (Tool.inputSchema tool) (schema_json model) Hfind)
        as (db' & m & Hadd & Hreg & _ & Hfind' & Hid & Hsrv & Hname & Hh & Hschema & Hrate & _).
      assert (E : db1 = db').
      { pose proof (register_tool_fresh env1 self tool db model Hfind Hfault Hmodel) as H.
        fold h in H. rewrite Hadd in H. now injection H. }
      exists m. rewrite E. split; [exact Hfind'|]. intros _.
      repeat (split; [assumption|]). assumption.
Qed.

(** The list [get_tools] returns, or the exception it raises, is that of
    translating the tools one after the other: the registry has no part in
    it. *)
Lemma translate_all_result (env : Env) (self : ATPTranslator) (has_db : bool)
    (mcp_tools : list Tool.t) :
  forall tools db,
    fst (translate_all schema_json env self has_db mcp_tools tools db)
    = (bs <- mapM (translate_tool env self) mcp_tools ;; Ok (tools ++ bs)%list).
Proof.
  induction mcp_tools as [|t rest IH]; intros tools db; simpl.
  - now rewrite app_nil_r.
  - destruct (translate_tool env self t) as [a|e]; simpl; [|reflexivity].
    rewrite IH. destruct (mapM (translate_tool env self) rest); simpl; [|reflexivity].
    now rewrite <- app_assoc.
Qed.


Lemma mapM_In (A B : Type) (f : A -> result B) (l : list A) :
  forall bs b, mapM f l = Ok bs -> In b bs -> exists a, In a l /\ f a = Ok b.
Proof.
  induction l as [|a l IH]; simpl; intros bs b.
  - intros [= <-] [].
  - destruct (f a) as [b0|] eqn:Hfa; simpl; [|discriminate].
    destruct (mapM f l) as [bs0|]; simpl; [|discriminate].
    intros [= <-] [<-|Hin].
    + exists a. split; [now left | assumption].
    + destruct (IH bs0 b eq_refl Hin) as (a' & Ha' & Hfa'). exists a'. split;
        [now right | assumption].
Qed.






Lemma get_tools_result (env : Env) (self : ATPTranslator) (w : World)
    (s : ClientSession) (tools : list Tool.t) :
  session self = Some s ->
  session_list_tools env w s = Ok tools ->
  (forall e, db_setup env <> DbInitError e) ->
  fst (get_tools schema_json env self w) = mapM (translate_tool env self) tools.
Proof.
  intros Hs Hl Hdb. unfold get_tools. rewrite Hs, Hl.
  assert (H : forall b, fst (translate_all schema_json env self b tools [] (db w))
                        = mapM (translate_tool env self) tools).
  { intros b. rewrite translate_all_result.
    now destruct (mapM (translate_tool env self) tools). }
  destruct (db_setup env) as [| |e].
  - specialize (H true).
    destruct (translate_all schema_json env self true tools [] (db w)). exact H.
  - specialize (H false).
    destruct (translate_all schema_json env self false tools [] (db w)). exact H.
  - now destruct (Hdb e).
Qed.

(** With a tool to translate, a framework outside the three raises. *)
Lemma get_tools_unsupported_raises (env : Env) (self : ATPTranslator) (w : World)
    (s : ClientSession) (t : Tool.t) (rest : list Tool.t) :
  session self = Some s ->
  session_list_tools env w s = Ok (t :: rest) ->
  (forall e, db_setup env <> DbInitError e) ->
  supported (target_framework self) = false ->
  fst (get_tools schema_json env self w)
  = Raise (ValueError ("Unsupported target framework: " ++ target_framework self)).
Proof.
  intros Hs Hl Hdb Hsup.
  rewrite get_tools_result with (s := s) (tools := t :: rest) by assumption. simpl.
  unfold translate_tool. unfold supported in Hsup.
  apply orb_false_iff in Hsup as [Hsup H3]. apply orb_false_iff in Hsup as [H1 H2].
  now rewrite H1, H2, H3.
Qed.

(** [C7] A translator configured for a framework outside the supported
    three, connected to a provider that lists no tool: [get_tools] returns
    the empty list and raises nothing. *)
Theorem get_tools_unsupported_silent :
  supported (target_framework (new_translator "Fortran")) = false
  /\ (let '(r, self, w) :=
        connect quiet_env (new_translator "Fortran") python_server fresh_world in
      r = Ok tt /\ get_tools schema_json quiet_env self w = (Ok [], w)).
Proof. split; [reflexivity|]. split; reflexivity. Qed.

Lemma mapM_tools (env : Env) (self : ATPTranslator) (tools : list Tool.t) :
  forall adapters,
    mapM (translate_tool env self) tools = Ok adapters ->
    map mcp_tool adapters = tools.
Proof.
  induction tools as [|t tools IH]; simpl; intros adapters.
  - now intros [= <-].
  - destruct (translate_tool env self t) as [a|] eqn:Ha; simpl; [|discriminate].
    destruct (mapM (translate_tool env self) tools) as [bs|]; simpl; [|discriminate].
    intros [= <-]. simpl. rewrite (IH bs eq_refl).
    now destruct (translate_tool_inv _ _ _ _ Ha) as (_ & _ & -> & _).
Qed.



(** ** Connecting *)

(** [C8, as the code has it] [connect] has no guard: with a launch that
    succeeds it returns normally whatever the state of the translator,
    connected or not.  It opens a new channel and makes it the session and
    the only entry of a new exit stack, in place of what the translator
    held; the new channel is open, and it is the one a later [disconnect]
    closes. *)
Theorem connect_unguarded (env : Env) (self : ATPTranslator)
    (server_parameters : StdioServerParameters) (w : World) :
  launch env server_parameters = Launched ->
  let '(r, self', w') := connect env self server_parameters w in
  r = Ok tt
  /\ session self' = Some {| channel := next_channel w; server := server_parameters |}
  /\ _exit_stack self' = Some [next_channel w]
  /\ server_params self' = Some server_parameters
  /\ channel_open w' (next_channel w) = true
  /\ channel_open (snd (disconnect self' w')) (next_channel w) = false.
Proof.
  intros Hl. unfold connect. rewrite Hl. cbn.
  do 4 (split; [reflexivity|]).
  rewrite Nat.eqb_refl. cbn. split; [reflexivity|].
  induction (open_channels w) as [|c l IH]; [reflexivity|].
  cbn. destruct (Nat.eqb_spec c (next_channel w)) as [E|Hne]; cbn; [exact IH|].
  destruct (Nat.eqb_spec (next_channel w) c) as [E|_]; [now destruct Hne | exact IH].
Qed.


End DiscoveryFacts.

(** ** The dummy server, end to end *)

Example discovery_scenario :
  let '(r, w) := get_tools plain_schema_json dummy_env (connected "crewai") connected_world in
  r = Ok [sum_adapter CrewAI;
          {| kind := CrewAI;
             adapter_name := "get_weather";
             adapter_description := "Gets the fictitious weather for a given location.";
             args_schema :=
               {| model_name := code_points "Get_weatherInput";
                  model_fields := [("location", (Tstr, Field Ellipsis (JStr "")))] |};
             mcp_tool := get_weather_tool;
             adapter_session := Some {| channel := 0; server := python_server |} |}]
  /\ map ATPToolRegistry.tool_name (registry (db w)) = ["calculate_sum"; "get_weather"]
  /\ map ATPToolRegistry.manifest_hash (registry (db w))
     = ["c3ac08603b972ee7458ac190a4fd79e7dc1d905e173fdabe31d94614bcd5cb5e";
        generate_manifest_hash "python" "get_weather" (Tool.inputSchema get_weather_tool)]
  /\ snd (get_tools plain_schema_json dummy_env (connected "crewai") w) = w.
Proof. vm_compute. repeat split. Qed.

(** Discovery against a server with a union-typed tool: nothing is
    registered and [get_tools] raises. *)
Example discovery_union_type :
  get_tools plain_schema_json union_env (connected "crewai") connected_world
  = (Raise (TypeError "unhashable type: 'list'"), connected_world).
Proof. vm_compute. reflexivity. Qed.

Example invocation_scenario :
  let w := snd (get_tools plain_schema_json dummy_env (connected "crewai") connected_world) in
  let '(r, w') := invoke plain_content_str dummy_env (sum_adapter CrewAI) five_seven w in
  r = Ok "12"
  /\ map (fun e => (ATPExecutionLog.tool_id e, ATPExecutionLog.agent_framework e,
                    ATPExecutionLog.execution_result e, ATPExecutionLog.is_anomaly e))
         (execution_log (db w'))
     = [(0%nat, "crewai", Some "12", false)].
Proof. vm_compute. repeat split. Qed.

(** ** Instances of the theorems that have hypotheses *)

Lemma upsert_idempotent_witness :
  registry_unique empty_db
  /\ (let h := fingerprint_of (connected "crewai") calculate_sum_tool in
      let db1 := register_tool plain_schema_json dummy_env (connected "crewai")
                   calculate_sum_tool empty_db in
      let db2 := register_tool plain_schema_json dummy_env (connected "crewai")
                   calculate_sum_tool db1 in
      exists m,
        first_by_hash db1 h = Some m
        /\ ATPToolRegistry.id m = 0%nat
        /\ db2 = db1
        /\ first_by_hash db2 h = Some m
        /\ rows_with_hash db2 h = [m]).
Proof.
  split; [constructor|].
  destruct (upsert_idempotent plain_schema_json dummy_env dummy_env (connected "crewai")
              calculate_sum_tool empty_db (NoDup_nil _))
    as (_ & Hkeep & _ & Hfirst & _).
  destruct (Hfirst (args_schema (sum_adapter CrewAI)) eq_refl eq_refl) as (m & Hm & Hnew).
  exists m. split; [exact Hm|]. split; [exact (proj1 (proj2 (Hnew eq_refl)))|].
  exact (Hkeep m Hm).
Defined.

Lemma anomaly_classification_witness :
  renders_text pydantic_content_str
  /\ translate_tool (answering_env division_by_zero) (connected "crewai") calculate_sum_tool
     = Ok (sum_adapter CrewAI)
  /\ session_call_tool (answering_env division_by_zero) connected_world
       (session (connected "crewai")) "calculate_sum" five_seven = Ok division_by_zero
  /\ (exists output,
        fst (invoke pydantic_content_str (answering_env division_by_zero) (sum_adapter CrewAI)
               five_seven connected_world) = Ok output
        /\ submitted (snd (invoke pydantic_content_str (answering_env division_by_zero)
                             (sum_adapter CrewAI) five_seven connected_world))
           = [{| LogCreate.tool_name := "calculate_sum";
                 LogCreate.agent_framework := "crewai";
                 LogCreate.input_arguments := five_seven;
                 LogCreate.execution_result := output;
                 LogCreate.is_anomaly := true |}]
        /\ output = "Error executing tool: [TextContent(type='text', text='division by zero', annotations=None)]"
        /\ contains output "division by zero")
  /\ (exists output,
        fst (invoke pydantic_content_str dummy_env (sum_adapter CrewAI) five_seven
               connected_world) = Ok output
        /\ submitted (snd (invoke pydantic_content_str dummy_env (sum_adapter CrewAI)
                             five_seven connected_world))
           = [{| LogCreate.tool_name := "calculate_sum";
                 LogCreate.agent_framework := "crewai";
                 LogCreate.input_arguments := five_seven;
                 LogCreate.execution_result := output;
                 LogCreate.is_anomaly := false |}]
        /\ output = "12").
Proof.
  split; [exact pydantic_renders_text|]. split; [reflexivity|]. split; [reflexivity|].
  split.
  - destruct (anomaly_classification pydantic_content_str (answering_env division_by_zero)
                (connected "crewai") calculate_sum_tool (sum_adapter CrewAI) five_seven
                connected_world division_by_zero pydantic_renders_text eq_refl eq_refl)
      as (output & Hret & Hsub & Herr & _).
    destruct (Herr eq_refl) as (Hout & Hfrag).
    destruct (Hfrag "division by zero" (or_introl eq_refl)) as (_ & Hverb).
    exists output. split; [exact Hret|]. split; [exact Hsub|]. split; [exact Hout|].
    exact (Hverb eq_refl).
  - destruct (anomaly_classification pydantic_content_str dummy_env
                (connected "crewai") calculate_sum_tool (sum_adapter CrewAI) five_seven
                connected_world answer_12 pydantic_renders_text eq_refl eq_refl)
      as (output & Hret & Hsub & _ & Hok).
    exists output. split; [exact Hret|]. split; [exact Hsub|]. exact (Hok eq_refl).
Defined.

Lemma logging_failure_invisible_witness :
  fst (invoke plain_content_str (with_delivery dummy_env unreachable_sink)
         (sum_adapter LangChain) five_seven connected_world)
  = fst (invoke plain_content_str (with_delivery dummy_env (fun _ => None))
           (sum_adapter LangChain) five_seven connected_world)
  /\ fst (invoke plain_content_str (with_delivery dummy_env unreachable_sink)
            (sum_adapter LangChain) five_seven connected_world)
     = Ok (snd (classify plain_content_str answer_12)).
Proof.
  destruct (logging_failure_invisible plain_content_str dummy_env (sum_adapter LangChain)
              five_seven connected_world unreachable_sink) as [Hsame Hok].
  split; [exact Hsame|]. apply Hok. reflexivity.
Defined.

Lemma create_log_unknown_tool_witness :
  (forall r, In r (registry empty_db) ->
             ATPToolRegistry.tool_name r <> LogCreate.tool_name node_log_request)
  /\ create_log node_log_request empty_db
     = (Raise (HTTPException 404 "Tool calculate_sum not found in registry"), empty_db).
Proof.
  split; [intros r []|].
  apply (create_log_unknown_tool node_log_request empty_db). intros r [].
Defined.

Lemma create_log_attaches_by_name_witness :
  create_log node_log_request two_servers_db
  = (Ok 2%nat, snd (create_log node_log_request two_servers_db))
  /\ exists before tool after entry,
       registry two_servers_db = (before ++ tool :: after)%list
       /\ ATPToolRegistry.tool_name tool = "calculate_sum"
       /\ Forall (fun r => ATPToolRegistry.tool_name r <> "calculate_sum") before
       /\ execution_log (snd (create_log node_log_request two_servers_db))
          = (execution_log two_servers_db ++ [entry])%list
       /\ ATPExecutionLog.id entry = 2%nat
       /\ ATPExecutionLog.tool_id entry = ATPToolRegistry.id tool
       /\ registry (snd (create_log node_log_request two_servers_db))
          = registry two_servers_db
       /\ forall log_req2,
            LogCreate.tool_name log_req2 = "calculate_sum" ->
            exists entry2,
              execution_log
                (snd (create_log log_req2 (snd (create_log node_log_request two_servers_db))))
              = (execution_log (snd (create_log node_log_request two_servers_db))
                 ++ [entry2])%list
              /\ ATPExecutionLog.tool_id entry2 = ATPToolRegistry.id tool.
Proof.
  split; [reflexivity|].
  apply (create_log_attaches_by_name node_log_request two_servers_db
           (snd (create_log node_log_request two_servers_db)) 2%nat).
  reflexivity.
Defined.


Lemma connect_unguarded_witness :
  session (connected "crewai") = Some {| channel := 0; server := python_server |}
  /\ launch dummy_env python_server = Launched
  /\ (let '(r, self', w') :=
        connect dummy_env (connected "crewai") python_server connected_world in
      r = Ok tt
      /\ session self' = Some {| channel := next_channel connected_world;
                                 server := python_server |}
      /\ _exit_stack self' = Some [next_channel connected_world]
      /\ server_params self' = Some python_server
      /\ channel_open w' (next_channel connected_world) = true
      /\ channel_open (snd (disconnect self' w')) (next_channel connected_world) = false).
Proof.
  split; [reflexivity|]. split; [reflexivity|].
  apply (connect_unguarded dummy_env (connected "crewai") python_server connected_world).
  reflexivity.
Defined.

(** ** Where the code departs from the spec *)

(** [C8, as the spec has it] is refuted: a translator that holds a session
    on channel 0 connects again and gets a normal return, with its session
    now on channel 1; so it is not the case that [connect] on a connected
    translator always reports an error. *)
Lemma connect_twice_accepted :
  session (connected "crewai") = Some {| channel := 0; server := python_server |}
  /\ (let '(r, self', w') :=
        connect dummy_env (connected "crewai") python_server connected_world in
      r = Ok tt
      /\ session self' = Some {| channel := 1; server := python_server |})
  /\ ~ (forall env self server_parameters w,
          session self <> None ->
          exists e, fst (fst (connect env self server_parameters w)) = Raise e).
Proof.
  split; [reflexivity|]. split; [repeat split|].
  intros Hguard.
  destruct (Hguard dummy_env (connected "crewai") python_server connected_world)
    as [e He]; [discriminate|]. discriminate He.
Qed.

(** [C1, as the spec has it] is refuted: the registration step does not
    always leave a manifest.  With storage in order, for a tool whose typed
    contract cannot be generated, and for any tool while storage raises,
    the exception is caught inside the step and after two runs the registry
    has no row with the fingerprint; so it is not the case that two runs
    always leave exactly one. *)
Lemma upsert_nothing_registered :
  (let self := connected "crewai" in
   let db1 := register_tool plain_schema_json dummy_env self union_tool empty_db in
   let db2 := register_tool plain_schema_json dummy_env self union_tool db1 in
   storage_fault dummy_env union_tool = None
   /\ registry db1 = [] /\ rows_with_hash db2 (fingerprint_of self union_tool) = [])
  /\ (let self := connected "crewai" in
      let env := with_registry dummy_env DbReady locked_storage in
      let db1 := register_tool plain_schema_json env self calculate_sum_tool empty_db in
      let db2 := register_tool plain_schema_json env self calculate_sum_tool db1 in
      registry db1 = [] /\ rows_with_hash db2 (fingerprint_of self calculate_sum_tool) = [])
  /\ ~ (forall self tool db,
          registry_unique db ->
          let db1 := register_tool plain_schema_json dummy_env self tool db in
          let db2 := register_tool plain_schema_json dummy_env self tool db1 in
          exists m,
            first_by_hash db1 (fingerprint_of self tool) = Some m
            /\ rows_with_hash db2 (fingerprint_of self tool) = [m]).
Proof.
  split; [repeat split|]. split; [repeat split|].
  intros Hone.
  destruct (Hone (connected "crewai") union_tool empty_db (NoDup_nil _)) as (m & Hm & _).
  discriminate Hm.
Qed.

(** [C4, as the spec has it] is refuted: the provider reports an error
    whose detail has two lines; the adapter returns the prefix followed by
    the printed content list, where the line break of the detail is written
    as a backslash and an [n]; the detail itself is not in the returned
    text.  So it is not the case that the text returned for an error always
    contains the error detail. *)
Lemma error_detail_not_verbatim :
  session_call_tool (answering_env traceback_answer) connected_world
    (adapter_session (sum_adapter CrewAI)) (call_name (sum_adapter CrewAI)) five_seven
  = Ok traceback_answer
  /\ isError traceback_answer = true
  /\ text_fragments (content traceback_answer) = [two_lines]
  /\ fst (invoke pydantic_content_str (answering_env traceback_answer) (sum_adapter CrewAI)
            five_seven connected_world)
     = Ok ("Error executing tool: [TextContent(type='text', "
           ++ "text='Traceback (most recent call last):\ndivision by zero', "
           ++ "annotations=None)]")
  /\ ~ (forall env a kwargs w r output,
          session_call_tool env w (adapter_session a) (call_name a) kwargs = Ok r ->
          isError r = true ->
          fst (invoke pydantic_content_str env a kwargs w) = Ok output ->
          forall text, In text (text_fragments (content r)) -> contains output text).
Proof.
  split; [reflexivity|]. split; [reflexivity|]. split; [reflexivity|].
  split; [vm_compute; reflexivity|].
  intros Hclaim.
  refine (index_none_not_contains _ two_lines _ _
            (Hclaim (answering_env traceback_answer) (sum_adapter CrewAI) five_seven
               connected_world traceback_answer _ eq_refl eq_refl eq_refl two_lines
               (or_introl eq_refl))).
  - discriminate.
  - vm_compute. reflexivity.
Qed.

(* ================================================================= *)
(** * Further properties *)

(** ** The session lifecycle *)


Section LifecycleFacts.

Variable schema_json : PydanticModel -> string.

(** [X1] [disconnect] can be called again: the second call changes
    nothing.  After a [disconnect] that had an exit stack to close, the
    translator has no session and [get_tools] raises the not-connected
    [RuntimeError] without touching anything. *)
Theorem disconnect_then_not_connected (env : Env) (self : ATPTranslator) (w : World) :
  disconnect (fst (disconnect self w)) (snd (disconnect self w)) = disconnect self w
  /\ (_exit_stack self <> None ->
      session (fst (disconnect self w)) = None
      /\ get_tools schema_json env (fst (disconnect self w)) (snd (disconnect self w))
         = (Raise (RuntimeError "Not connected to an MCP server. Call connect() first."),
            snd (disconnect self w))).
Proof.
  unfold disconnect. destruct (_exit_stack self) as [entered|] eqn:Hstack; simpl.
  - split; [reflexivity|]. intros _. split; reflexivity.
  - rewrite Hstack. split; [reflexivity|]. intros H. now destruct H.
Qed.


End LifecycleFacts.

(** ** Discovery *)

Lemma grows_refl (d : Database) : grows d d.
Proof. split; [exists []; now rewrite app_nil_r | reflexivity]. Qed.

Lemma grows_trans (d1 d2 d3 : Database) : grows d1 d2 -> grows d2 d3 -> grows d1 d3.
Proof.
  intros [[a Ha] Hl] [[b Hb] Hl']. split.
  - exists (a ++ b)%list. now rewrite Hb, Ha, app_assoc.
  - congruence.
Qed.

Lemma first_by_hash_grows (d d' : Database) (h : string) (m : ATPToolRegistry.t) :
  grows d d' -> first_by_hash d h = Some m -> first_by_hash d' h = Some m.
Proof.
  intros [[added Ha] _]. unfold first_by_hash. rewrite Ha. clear Ha.
  induction (registry d) as [|r l IH]; simpl; [discriminate|].
  destruct (String.eqb (ATPToolRegistry.manifest_hash r) h); [trivial | exact IH].
Qed.

Section DiscoveryMore.

Variable schema_json : PydanticModel -> string.

Lemma register_tool_grows (env : Env) (self : ATPTranslator) (tool : Tool.t) (d : Database) :
  grows d (register_tool schema_json env self tool d).
Proof.
  unfold register_tool, try_register.
  destruct (storage_fault env tool); [apply grows_refl|].
  destruct (first_by_hash d _) eqn:Hfind; [apply grows_refl|].
  destruct (generate_pydantic_model _ _ _) as [model|]; simpl; [|apply grows_refl].
  destruct (add_registry_row_ok d (server_name_of self) (Tool.name tool) _
              (Tool.inputSchema tool) (schema_json model) Hfind)
    as (d' & m & Hadd & Hreg & Hlog & _).
  rewrite Hadd. split; [now exists [m] | exact Hlog].
Qed.

(** Once a tool has gone through the registration step, the step does
    nothing on any later state of the database. *)
Lemma register_tool_settled (env : Env) (self : ATPTranslator) (tool : Tool.t)
    (d d' : Database) :
  grows (register_tool schema_json env self tool d) d' ->
  register_tool schema_json env self tool d' = d'.
Proof.
  intros Hg.
  assert (Hd : grows d d').
  { eapply grows_trans; [apply register_tool_grows | exact Hg]. }
  revert Hg. unfold register_tool at 1 2. unfold try_register.
  destruct (storage_fault env tool); [reflexivity|].
  fold (fingerprint_of self tool).
  destruct (first_by_hash d (fingerprint_of self tool)) as [m|] eqn:Hfind.
  - intros _. now rewrite (first_by_hash_grows d d' _ m Hd Hfind).
  - destruct (generate_pydantic_model (create_model env) (Tool.name tool) (Tool.inputSchema tool))
      as [model|] eqn:Hmodel; simpl.
    + destruct (add_registry_row_ok d (server_name_of self) (Tool.name tool)
                  (fingerprint_of self tool) (Tool.inputSchema tool)
                  (schema_json model) Hfind)
        as (d1 & m & Hadd & _ & _ & Hfind1 & _).
      rewrite Hadd. intros Hg.
      now rewrite (first_by_hash_grows d1 d' _ m Hg Hfind1).
    + intros _. now destruct (first_by_hash d' (fingerprint_of self tool)).
Qed.

Lemma translate_all_grows (env : Env) (self : ATPTranslator) (has_db : bool)
    (mcp_tools : list Tool.t) :
  forall tools d, grows d (snd (translate_all schema_json env self has_db mcp_tools tools d)).
Proof.
  induction mcp_tools as [|t rest IH]; intros tools d; simpl; [apply grows_refl|].
  assert (H1 : grows d (if has_db then register_tool schema_json env self t d else d)).
  { destruct has_db; [apply register_tool_grows | apply grows_refl]. }
  destruct (translate_tool env self t); simpl; [|exact H1].
  eapply grows_trans; [exact H1 | apply IH].
Qed.

Lemma translate_all_settled (env : Env) (self : ATPTranslator) (has_db : bool)
    (mcp_tools : list Tool.t) :
  forall tools d tools' d',
    grows (snd (translate_all schema_json env self has_db mcp_tools tools d)) d' ->
    snd (translate_all schema_json env self has_db mcp_tools tools' d') = d'.
Proof.
  induction mcp_tools as [|t rest IH]; intros tools d tools' d' Hg; simpl in *;
    [reflexivity|].
  destruct has_db.
  - destruct (translate_tool env self t) as [a|e]; simpl in *.
    + assert (Hs : register_tool schema_json env self t d' = d').
      { apply register_tool_settled with (d := d).
        eapply grows_trans; [apply translate_all_grows | exact Hg]. }
      rewrite Hs. eapply IH. exact Hg.
    + now apply register_tool_settled with (d := d).
  - destruct (translate_tool env self t) as [a|e]; simpl in *; [|reflexivity].
    eapply IH. exact Hg.
Qed.

(** [get_tools] on a connected translator whose provider answers, with the
    registry set up or missing. *)
Lemma get_tools_connected (env : Env) (self : ATPTranslator) (w : World)
    (s : ClientSession) (tools : list Tool.t) (has_db : bool) :
  session self = Some s ->
  session_list_tools env w s = Ok tools ->
  db_setup env = (if has_db then DbReady else DbImportError) ->
  get_tools schema_json env self w
  = (fst (translate_all schema_json env self has_db tools [] (db w)),
     with_db w (snd (translate_all schema_json env self has_db tools [] (db w)))).
Proof.
  intros Hs Hl Hsetup. unfold get_tools. rewrite Hs, Hl, Hsetup.
  destruct has_db;
    now destruct (translate_all schema_json env self _ tools [] (db w)).
Qed.

(** After a registration step that storage let through, the step does
    nothing on any later state of the database, whatever the registry's
    behaviour has become. *)
Lemma register_tool_settled_for_good (env : Env) (setup : DbSetup)
    (fault : Tool.t -> option exn) (self : ATPTranslator) (tool : Tool.t) (d d' : Database) :
  storage_fault env tool = None ->
  grows (register_tool schema_json env self tool d) d' ->
  register_tool schema_json (with_registry env setup fault) self tool d' = d'.
Proof.
  intros Hfault Hg.
  assert (Hd : grows d d').
  { eapply grows_trans; [apply register_tool_grows | exact Hg]. }
  revert Hg. unfold register_tool at 1 2. unfold try_register. rewrite Hfault.
  cbn [storage_fault create_model with_registry].
  destruct (fault tool); [reflexivity|].
  fold (fingerprint_of self tool).
  destruct (first_by_hash d (fingerprint_of self tool)) as [m|] eqn:Hfind.
  - intros _. now rewrite (first_by_hash_grows d d' _ m Hd Hfind).
  - destruct (generate_pydantic_model (create_model env) (Tool.name tool) (Tool.inputSchema tool))
      as [model|] eqn:Hmodel; simpl.
    + destruct (add_registry_row_ok d (server_name_of self) (Tool.name tool)
                  (fingerprint_of self tool) (Tool.inputSchema tool)
                  (schema_json model) Hfind)
        as (d1 & m & Hadd & _ & _ & Hfind1 & _).
      rewrite Hadd. intros Hg.
      now rewrite (first_by_hash_grows d1 d' _ m Hg Hfind1).
    + intros _. now destruct (first_by_hash d' (fingerprint_of self tool)).
Qed.

Lemma translate_tool_with_registry (env : Env) (setup : DbSetup)
    (fault : Tool.t -> option exn) (self : ATPTranslator) (tool : Tool.t) :
  translate_tool (with_registry env setup fault) self tool = translate_tool env self tool.
Proof. reflexivity. Qed.

Lemma translate_all_settled_for_good (env : Env) (setup : DbSetup)
    (fault : Tool.t -> option exn) (self : ATPTranslator) (has_db : bool)
    (mcp_tools : list Tool.t) :
  (forall t, In t mcp_tools -> storage_fault env t = None) ->
  forall tools d tools' d',
    grows (snd (translate_all schema_json env self true mcp_tools tools d)) d' ->
    snd (translate_all schema_json (with_registry env setup fault) self has_db
           mcp_tools tools' d') = d'.
Proof.
  induction mcp_tools as [|t rest IH]; intros Hfault tools d tools' d' Hg;
    cbn [translate_all] in *; [reflexivity|].
  rewrite translate_tool_with_registry.
  assert (Hs : register_tool schema_json (with_registry env setup fault) self t d' = d').
  { apply register_tool_settled_for_good with (d := d); [apply Hfault; now left|].
    destruct (translate_tool env self t); simpl in Hg; [|exact Hg].
    eapply grows_trans; [apply translate_all_grows | exact Hg]. }
  assert (Hd' : (if has_db
                 then register_tool schema_json (with_registry env setup fault) self t d'
                 else d') = d').
  { destruct has_db; [exact Hs | reflexivity]. }
  rewrite Hd'.
  destruct (translate_tool env self t) as [a|e]; simpl in *; [|reflexivity].
  eapply IH; [|exact Hg]. intros t' Ht'. apply Hfault. now right.
Qed.

(** [X4] Once a discovery run has gone through with the registry set up
    and storage raising for no tool, a later run on the world it left
    changes nothing, whatever the registry does by then (set up, missing,
    or raising while a tool is registered); and unless the registry's setup
    now raises, the later run returns what the first run returned, the same
    adapters or the same exception. *)
Theorem get_tools_twice (env : Env) (self : ATPTranslator) (w : World)
    (setup : DbSetup) (fault : Tool.t -> option exn) :
  db_setup env = DbReady ->
  (forall t, storage_fault env t = None) ->
  let w1 := snd (get_tools schema_json env self w) in
  snd (get_tools schema_json (with_registry env setup fault) self w1) = w1
  /\ ((forall e, setup <> DbInitError e) ->
      fst (get_tools schema_json (with_registry env setup fault) self w1)
      = fst (get_tools schema_json env self w)).
Proof.
  intros Hready Hfault. cbv zeta.
  destruct (session self) as [s|] eqn:Hs;
    [|unfold get_tools; rewrite !Hs; simpl; rewrite ?Hs; split; reflexivity].
  destruct (session_list_tools env w s) as [tools|e] eqn:Hl.
  2:{ unfold get_tools. rewrite !Hs, !Hl. simpl. rewrite ?Hs.
      change (session_list_tools (with_registry env setup fault) w s)
        with (session_list_tools env w s).
      rewrite Hl. split; reflexivity. }
  rewrite (get_tools_connected env self w s tools true Hs Hl Hready).
  cbn [fst snd].
  set (d1 := snd (translate_all schema_json env self true tools [] (db w))).
  assert (Hl1 : session_list_tools (with_registry env setup fault) (with_db w d1) s = Ok tools)
    by exact Hl.
  destruct setup as [| |e].
  - rewrite (get_tools_connected (with_registry env DbReady fault) self (with_db w d1) s tools
               true Hs Hl1 eq_refl).
    cbn [fst snd with_db db].
    rewrite (translate_all_settled_for_good env DbReady fault self true tools
               (fun t _ => Hfault t) [] (db w) [] d1 (grows_refl d1)).
    split; [reflexivity|]. intros _. rewrite !translate_all_result. reflexivity.
  - rewrite (get_tools_connected (with_registry env DbImportError fault) self (with_db w d1) s
               tools false Hs Hl1 eq_refl).
    cbn [fst snd with_db db].
    rewrite (translate_all_settled_for_good env DbImportError fault self false tools
               (fun t _ => Hfault t) [] (db w) [] d1 (grows_refl d1)).
    split; [reflexivity|]. intros _. rewrite !translate_all_result. reflexivity.
  - unfold get_tools at 1 2. rewrite Hs, Hl1. cbn [db_setup with_registry fst snd].
    split; [reflexivity|]. intros H. now destruct (H e).
Qed.

(** [X5] Discovery only adds manifests: the registry it leaves is the one
    it found followed by new rows; the unique index is respected if it
    was; the execution log, the open channels and the records handed to the
    log sink are as before. *)
Theorem get_tools_only_appends (env : Env) (self : ATPTranslator) (w : World) :
  let w1 := snd (get_tools schema_json env self w) in
  grows (db w) (db w1)
  /\ (registry_unique (db w) -> registry_unique (db w1))
  /\ open_channels w1 = open_channels w
  /\ next_channel w1 = next_channel w
  /\ submitted w1 = submitted w.
Proof.
  cbv zeta.
  assert (Hall : forall b tools,
            grows (db w) (snd (translate_all schema_json env self b tools [] (db w)))
            /\ (registry_unique (db w) ->
                registry_unique (snd (translate_all schema_json env self b tools [] (db w))))).
  { intros b tools. split; [apply translate_all_grows|].
    generalize (@nil Adapter). generalize (db w).
    induction tools as [|t rest IH]; intros d acc Hu; simpl; [exact Hu|].
    assert (Hu1 : registry_unique (if b then register_tool schema_json env self t d else d)).
    { destruct b; [now apply register_tool_unique | exact Hu]. }
    destruct (translate_tool env self t); simpl; [now apply IH | exact Hu1]. }
  assert (Hsame : grows (db w) (db w) /\ (registry_unique (db w) -> registry_unique (db w))
                  /\ open_channels w = open_channels w /\ next_channel w = next_channel w
                  /\ submitted w = submitted w).
  { split; [apply grows_refl|]. repeat split. trivial. }
  unfold get_tools. destruct (session self) as [s|]; [|exact Hsame].
  destruct (session_list_tools env w s) as [tools|e]; [|exact Hsame].
  destruct (db_setup env) as [| |e]; [| |exact Hsame].
  - destruct (Hall true tools) as [Hg Hu].
    destruct (translate_all schema_json env self true tools [] (db w)) as [r d1].
    simpl in *. split; [exact Hg|]. split; [exact Hu|]. repeat split.
  - destruct (Hall false tools) as [Hg Hu].
    destruct (translate_all schema_json env self false tools [] (db w)) as [r d1].
    simpl in *. split; [exact Hg|]. split; [exact Hu|]. repeat split.
Qed.

(** [X6] With a framework outside the three and a provider that lists at
    least one tool, [get_tools] raises [ValueError]; by then the first
    listed tool has gone through registration, and no other has. *)
Theorem get_tools_unsupported_after_registering (env : Env) (self : ATPTranslator)
    (w : World) (s : ClientSession) (t : Tool.t) (rest : list Tool.t) :
  session self = Some s ->
  session_list_tools env w s = Ok (t :: rest) ->
  db_setup env = DbReady ->
  supported (target_framework self) = false ->
  get_tools schema_json env self w
  = (Raise (ValueError ("Unsupported target framework: " ++ target_framework self)),
     with_db w (register_tool schema_json env self t (db w))).
Proof.
  intros Hs Hl Hsetup Hsup.
  rewrite (get_tools_connected env self w s (t :: rest) true Hs Hl Hsetup). simpl.
  unfold translate_tool. unfold supported in Hsup.
  apply orb_false_iff in Hsup as [Hsup H3]. apply orb_false_iff in Hsup as [H1 H2].
  now rewrite H1, H2, H3.
Qed.

(** [X7] What [get_tools] returns, adapters or exception, does not depend
    on the registry: not on the rows of the database, not on whether the
    [db] module is there, not on what storage raises. *)
Theorem get_tools_registry_independent (env : Env) (self : ATPTranslator) (w : World)
    (d' : Database) (setup' : DbSetup) (fault' : Tool.t -> option exn) :
  (forall e, db_setup env <> DbInitError e) ->
  (forall e, setup' <> DbInitError e) ->
  fst (get_tools schema_json (with_registry env setup' fault') self (with_db w d'))
  = fst (get_tools schema_json env self w).
Proof.
  intros Hdb Hdb'.
  destruct (session self) as [s|] eqn:Hs;
    [|unfold get_tools; now rewrite Hs].
  destruct (session_list_tools env w s) as [tools|e] eqn:Hl.
  - rewrite (get_tools_result schema_json env self w s tools Hs Hl Hdb).
    rewrite (get_tools_result schema_json (with_registry env setup' fault') self
               (with_db w d') s tools Hs Hl Hdb').
    reflexivity.
  - unfold get_tools. rewrite Hs, Hl.
    change (session_list_tools (with_registry env setup' fault') (with_db w d') s)
      with (session_list_tools env w s).
    now rewrite Hl.
Qed.

End DiscoveryMore.

(** ** Invocation and the log *)

Section InvocationMore.

Variable schema_json : PydanticModel -> string.
Variable content_str : list Content -> string.

(** What an invocation does, by the outcome of the provider call. *)
Lemma invoke_cases (env : Env) (a : Adapter) (kwargs : dict) (w : World) :
  match session_call_tool env w (adapter_session a) (call_name a) kwargs with
  | Raise e =>
      invoke content_str env a kwargs w
      = (match kind a with
         | CrewAI => Ok ("Exception bridging sync to async: " ++ exn_str e)
         | _ => Raise e
         end, w)
  | Ok r =>
      invoke content_str env a kwargs w
      = (Ok (snd (classify content_str r)),
         submit_log env
           (log_record (kind a) (Tool.name (mcp_tool a)) kwargs
              (fst (classify content_str r)) (snd (classify content_str r))) w)
  end.
Proof.
  unfold invoke, call_name, crewai_run, langchain_arun, autogen_run, call_and_log,
    log_record.
  destruct (kind a);
    match goal with
    | |- context [session_call_tool ?e ?w ?s ?n ?k] =>
        destruct (session_call_tool e w s n k) as [r|e']
    end; try reflexivity;
    destruct (classify content_str r); reflexivity.
Qed.

Lemma submit_log_db (env : Env) (payload : LogCreate.t) (w : World) :
  db (submit_log env payload w) = db w
  \/ (delivery_fault env payload = None
      /\ db (submit_log env payload w) = snd (create_log payload (db w))).
Proof.
  unfold submit_log. destruct (delivery_fault env payload); [now left | now right].
Qed.

Lemma create_log_db (log_req : LogCreate.t) (d : Database) :
  (first_by_name d (LogCreate.tool_name log_req) = None
   /\ snd (create_log log_req d) = d)
  \/ (exists tool,
        first_by_name d (LogCreate.tool_name log_req) = Some tool
        /\ registry (snd (create_log log_req d)) = registry d
        /\ execution_log (snd (create_log log_req d))
           = (execution_log d ++ [log_entry d tool log_req])%list).
Proof.
  unfold create_log.
  destruct (first_by_name d (LogCreate.tool_name log_req)) as [tool|];
    [right; exists tool; repeat split | left; split; reflexivity].
Qed.

(** [X8] When the provider call raises, the CrewAI adapter returns the
    text ["Exception bridging sync to async: "] followed by the message and
    raises nothing, the LangChain and AutoGen adapters let the exception
    through; no record is handed to the log sink and nothing else changes
    either. *)
Theorem invoke_provider_failure (env : Env) (a : Adapter) (kwargs : dict) (w : World)
    (e : exn) :
  session_call_tool env w (adapter_session a) (call_name a) kwargs = Raise e ->
  snd (invoke content_str env a kwargs w) = w
  /\ (kind a = CrewAI ->
      fst (invoke content_str env a kwargs w)
      = Ok ("Exception bridging sync to async: " ++ exn_str e))
  /\ (kind a <> CrewAI -> fst (invoke content_str env a kwargs w) = Raise e).
Proof.
  intros Hcall. pose proof (invoke_cases env a kwargs w) as H. rewrite Hcall in H.
  rewrite H. simpl. split; [reflexivity|]. split.
  - now intros ->.
  - intros Hk. destruct (kind a); [now destruct Hk | reflexivity | reflexivity].
Qed.

(** [X9] An invocation never changes the registry, the open channels or
    the channel counter; it leaves the execution log as it was or with one
    more entry at the end, and hands at most one record to the log sink. *)
Theorem invoke_frame (env : Env) (a : Adapter) (kwargs : dict) (w : World) :
  let w' := snd (invoke content_str env a kwargs w) in
  registry (db w') = registry (db w)
  /\ open_channels w' = open_channels w
  /\ next_channel w' = next_channel w
  /\ (execution_log (db w') = execution_log (db w)
      \/ exists entry, execution_log (db w') = (execution_log (db w) ++ [entry])%list)
  /\ (submitted w' = submitted w
      \/ exists record, submitted w' = (submitted w ++ [record])%list).
Proof.
  cbv zeta. pose proof (invoke_cases env a kwargs w) as H.
  destruct (session_call_tool env w (adapter_session a) (call_name a) kwargs) as [r|e];
    rewrite H; simpl.
  - set (payload := log_record _ _ _ _ _).
    assert (Hsub : submitted (submit_log env payload w) = (submitted w ++ [payload])%list).
    { unfold submit_log. now destruct (delivery_fault env payload). }
    assert (Hch : open_channels (submit_log env payload w) = open_channels w
                  /\ next_channel (submit_log env payload w) = next_channel w).
    { unfold submit_log. now destruct (delivery_fault env payload). }
    destruct Hch as [Hopen Hnext].
    destruct (submit_log_db env payload w) as [Hdb|[_ Hdb]]; rewrite Hdb.
    + repeat split; try assumption; [now left | right; now exists payload].
    + destruct (create_log_db payload (db w)) as [[_ Hc]|(tool & _ & Hreg & Hlog)].
      * rewrite Hc. repeat split; try assumption; [now left | right; now exists payload].
      * rewrite Hreg, Hlog. repeat split; try assumption;
          [right; now eexists | right; now exists payload].
  - repeat split; now left.
Qed.

(** [X10] When the provider answers, the log sink accepts the request and
    a manifest carries the tool's name, the invocation appends exactly one
    entry: its [tool_id] is the [id] of the first manifest of that name, its
    framework the adapter's, its arguments the ones passed, its result the
    text returned to the caller and its [is_anomaly] the error status of the
    answer. *)
Theorem invoke_logged (env : Env) (a : Adapter) (kwargs : dict) (w : World)
    (r : CallToolResult) (tool : ATPToolRegistry.t) :
  session_call_tool env w (adapter_session a) (call_name a) kwargs = Ok r ->
  first_by_name (db w) (Tool.name (mcp_tool a)) = Some tool ->
  (forall record, delivery_fault env record = None) ->
  exists text,
    fst (invoke content_str env a kwargs w) = Ok text
    /\ execution_log (db (snd (invoke content_str env a kwargs w)))
       = (execution_log (db w) ++
          [{| ATPExecutionLog.id := next_uuid (db w);
              ATPExecutionLog.tool_id := ATPToolRegistry.id tool;
              ATPExecutionLog.agent_framework := framework_name (kind a);
              ATPExecutionLog.input_arguments := kwargs;
              ATPExecutionLog.execution_result := Some text;
              ATPExecutionLog.is_anomaly := isError r;
              ATPExecutionLog.timestamp := clock (db w) |}])%list.
Proof.
  intros Hcall Hfind Hdeliver. pose proof (invoke_cases env a kwargs w) as H.
  rewrite Hcall in H. rewrite H. simpl. eexists. split; [reflexivity|].
  unfold submit_log. rewrite Hdeliver. simpl. unfold create_log. simpl.
  rewrite Hfind. simpl. do 2 f_equal. unfold classify. now destruct (isError r).
Qed.

End InvocationMore.

(** ** The registry and the log together *)

Lemma log_refs_grows (d d' : Database) : grows d d' -> log_refs_ok d -> log_refs_ok d'.
Proof.
  intros [[added Ha] Hl] Hok e He. rewrite Hl in He.
  destruct (Hok e He) as (r & Hr & Hid). exists r. split; [|exact Hid].
  rewrite Ha. apply in_or_app. now left.
Qed.

Lemma create_log_keeps_refs (log_req : LogCreate.t) (d : Database) :
  log_refs_ok d -> log_refs_ok (snd (create_log log_req d)).
Proof.
  intros Hok. unfold create_log.
  destruct (first_by_name d (LogCreate.tool_name log_req)) as [tool|] eqn:Hfind;
    [|exact Hok].
  intros e He. simpl in *. apply in_app_or in He as [He|[<-|[]]].
  - exact (Hok e He).
  - exists tool. split; [|reflexivity].
    unfold first_by_name in Hfind. now apply find_some in Hfind.
Qed.

Section IntegrityFacts.

Variable schema_json : PydanticModel -> string.
Variable content_str : list Content -> string.

(** [X11] Every log entry points at a manifest, and discovery, adapter
    invocation and the log endpoint keep it so: an entry is only written
    with the [id] of a manifest that is there, and manifests are never
    removed. *)
Theorem log_refs_preserved (env : Env) (self : ATPTranslator) (w : World) :
  log_refs_ok (db w) ->
  log_refs_ok (db (snd (get_tools schema_json env self w)))
  /\ (forall a kwargs, log_refs_ok (db (snd (invoke content_str env a kwargs w))))
  /\ (forall log_req, log_refs_ok (snd (create_log log_req (db w)))).
Proof.
  intros Hok. split; [|split].
  - apply log_refs_grows with (d := db w); [|exact Hok].
    unfold get_tools. destruct (session self) as [s|]; [|apply grows_refl].
    destruct (session_list_tools env w s) as [tools|e]; [|apply grows_refl].
    destruct (db_setup env) as [| |e]; [| |apply grows_refl].
    + pose proof (translate_all_grows schema_json env self true tools [] (db w)) as Hg.
      now destruct (translate_all schema_json env self true tools [] (db w)).
    + pose proof (translate_all_grows schema_json env self false tools [] (db w)) as Hg.
      now destruct (translate_all schema_json env self false tools [] (db w)).
  - intros a kwargs. pose proof (invoke_cases content_str env a kwargs w) as H.
    destruct (session_call_tool env w (adapter_session a) (call_name a) kwargs) as [r|e];
      rewrite H; simpl; [|exact Hok].
    match goal with |- context [submit_log env ?p w] =>
      destruct (submit_log_db env p w) as [Hdb|[_ Hdb]]; rewrite Hdb end;
      [exact Hok | now apply create_log_keeps_refs].
  - intros log_req. now apply create_log_keeps_refs.
Qed.

End IntegrityFacts.

(** ** The read endpoints *)

Lemma firstn_plus (A : Type) (n m : nat) (l : list A) :
  (firstn n l ++ firstn m (skipn n l))%list = firstn (n + m) l.
Proof.
  revert l. induction n as [|n IH]; intros l; simpl; [reflexivity|].
  destruct l as [|a l]; simpl; [now rewrite firstn_nil | now rewrite IH].
Qed.

Lemma skipn_plus (A : Type) (n m : nat) (l : list A) :
  skipn m (skipn n l) = skipn (n + m) l.
Proof.
  revert l. induction n as [|n IH]; intros l; simpl; [reflexivity|].
  destruct l as [|a l]; simpl; [now rewrite skipn_nil | apply IH].
Qed.

Lemma in_firstn (A : Type) (n : nat) (l : list A) (x : A) :
  In x (firstn n l) -> In x l.
Proof.
  intros H. rewrite <- (firstn_skipn n l). apply in_or_app. now left.
Qed.

Lemma in_skipn (A : Type) (n : nat) (l : list A) (x : A) :
  In x (skipn n l) -> In x l.
Proof.
  intros H. rewrite <- (firstn_skipn n l). apply in_or_app. now right.
Qed.

(** Inside the 64-bit range, and with numbers that are not negative, the
    page is the [limit] rows after the first [skip]; from [2^63] on the
    binding raises. *)
Lemma offset_limit_ok (A : Type) (skip limit : Z) (rows : list A) :
  0 <= skip < 2 ^ 63 -> 0 <= limit < 2 ^ 63 ->
  offset_limit skip limit rows
  = Ok (firstn (Z.to_nat limit) (skipn (Z.to_nat skip) rows)).
Proof.
  intros Hs Hl. unfold offset_limit, sqlite_integer.
  destruct (Z.leb_spec (- 2 ^ 63) skip); [|lia].
  destruct (Z.ltb_spec skip (2 ^ 63)); [|lia].
  destruct (Z.leb_spec (- 2 ^ 63) limit); [|lia].
  destruct (Z.ltb_spec limit (2 ^ 63)); [|lia].
  cbn [andb]. destruct (Z.ltb_spec limit 0); [lia | reflexivity].
Qed.

Lemma offset_limit_overflow (A : Type) (skip limit : Z) (rows : list A) :
  2 ^ 63 <= skip \/ 2 ^ 63 <= limit ->
  offset_limit skip limit rows = Raise overflow_error.
Proof.
  intros H. unfold offset_limit, sqlite_integer.
  destruct (Z.ltb_spec skip (2 ^ 63)); destruct (Z.ltb_spec limit (2 ^ 63));
    rewrite ?andb_false_r; cbn [andb]; try reflexivity; lia.
Qed.

(** [X12] [GET /tools] with a skip and a limit that are not negative and
    stay below [2^63]: a page has at most [limit] items, each the summary
    of a registered manifest; a page of [n] followed by the page of [m] that
    starts [n] further is the page of [n + m]; and a page from the start
    that is as long as the registry shows every manifest, in storage order.
    With a skip or a limit from [2^63] on, the request fails with the
    [OverflowError] of the database binding. *)
Theorem api_get_tools_pages (db : Database) (skip n m : Z) :
  0 <= skip -> 0 <= n -> 0 <= m -> skip + n + m < 2 ^ 63 ->
  (exists page_n page_m,
     api_get_tools skip n db = Ok page_n
     /\ api_get_tools (skip + n) m db = Ok page_m
     /\ api_get_tools skip (n + m) db = Ok (page_n ++ page_m)%list
     /\ (List.length page_n <= Z.to_nat n)%nat
     /\ (forall item, In item page_n ->
                      exists tool, In tool (registry db) /\ item = tool_summary tool)
     /\ (Z.of_nat (List.length (registry db)) <= n ->
         api_get_tools 0 n db = Ok (map tool_summary (registry db))))
  /\ (forall skip' limit',
        2 ^ 63 <= skip' \/ 2 ^ 63 <= limit' ->
        api_get_tools skip' limit' db = Raise overflow_error).
Proof.
  intros Hs Hn Hm Hbound. split.
  - unfold api_get_tools. rewrite !offset_limit_ok by lia. cbn [bind].
    eexists _, _. split; [reflexivity|]. split; [reflexivity|]. split; [|split; [|split]].
    + rewrite <- map_app. do 2 f_equal.
      rewrite !Z2Nat.inj_add by lia. rewrite <- skipn_plus. symmetry. apply firstn_plus.
    + rewrite length_map. apply firstn_le_length.
    + intros item Hin. apply in_map_iff in Hin as (tool & <- & Hin).
      exists tool. split; [|reflexivity]. apply in_firstn in Hin. eapply in_skipn; eauto.
    + intros Hlen. do 2 f_equal. simpl. apply firstn_all2. lia.
  - intros skip' limit' H. unfold api_get_tools.
    now rewrite offset_limit_overflow.
Qed.

Lemma insert_recent_perm (row : ATPExecutionLog.t * string)
    (rows : list (ATPExecutionLog.t * string)) :
  Permutation (row :: rows) (insert_recent row rows).
Proof.
  induction rows as [|row' rest IH]; simpl; [reflexivity|].
  destruct (Nat.leb _ _); [reflexivity|].
  rewrite perm_swap. now constructor.
Qed.

Lemma order_by_timestamp_desc_perm (rows : list (ATPExecutionLog.t * string)) :
  Permutation rows (order_by_timestamp_desc rows).
Proof.
  induction rows as [|row rest IH]; simpl; [reflexivity|].
  rewrite <- insert_recent_perm. now constructor.
Qed.

Lemma insert_recent_sorted (row : ATPExecutionLog.t * string)
    (rows : list (ATPExecutionLog.t * string)) :
  newest_first (map stamp rows) -> newest_first (map stamp (insert_recent row rows)).
Proof.
  induction rows as [|row' rest IH]; simpl; intros Hs; [split; [constructor | exact I]|].
  destruct Hs as [Hall Hs].
  destruct (Nat.leb_spec (ATPExecutionLog.timestamp (fst row'))
                         (ATPExecutionLog.timestamp (fst row))) as [Hle|Hgt]; simpl.
  - split; [|split; assumption].
    constructor; [exact Hle|]. eapply Forall_impl; [|exact Hall].
    intros t Ht. unfold stamp in *. simpl in *. lia.
  - split; [|now apply IH].
    assert (Hp : Permutation (stamp row :: map stamp rest)
                             (map stamp (insert_recent row rest))).
    { change (stamp row :: map stamp rest) with (map stamp (row :: rest)).
      apply Permutation_map, insert_recent_perm. }
    apply Forall_forall. intros t Ht.
    apply (Permutation_in _ (Permutation_sym Hp)) in Ht.
    destruct Ht as [<-|Ht]; [unfold stamp; lia|].
    rewrite Forall_forall in Hall. now apply Hall.
Qed.

Lemma order_by_timestamp_desc_sorted (rows : list (ATPExecutionLog.t * string)) :
  newest_first (map stamp (order_by_timestamp_desc rows)).
Proof.
  induction rows as [|row rest IH]; simpl; [exact I | now apply insert_recent_sorted].
Qed.

Lemma newest_first_skipn (n : nat) (l : list nat) :
  newest_first l -> newest_first (skipn n l).
Proof.
  revert l. induction n as [|n IH]; intros l Hs; [exact Hs|].
  destruct l as [|t l]; [exact I|]. simpl. apply IH. now destruct Hs.
Qed.

Lemma newest_first_firstn (n : nat) (l : list nat) :
  newest_first l -> newest_first (firstn n l).
Proof.
  revert l. induction n as [|n IH]; intros l Hs; [exact I|].
  destruct l as [|t l]; [exact I|]. simpl. destruct Hs as [Hall Hs]. split.
  - rewrite Forall_forall in *. intros x Hx. apply Hall. eapply in_firstn; eauto.
  - now apply IH.
Qed.

Lemma join_registry_In (db : Database) (row : ATPExecutionLog.t * string) :
  In row (join_registry db) ->
  exists r, In (fst row) (execution_log db) /\ In r (registry db)
            /\ ATPToolRegistry.id r = ATPExecutionLog.tool_id (fst row)
            /\ snd row = ATPToolRegistry.tool_name r.
Proof.
  unfold join_registry. intros H. apply in_flat_map in H as (e & He & H).
  apply in_map_iff in H as (r & <- & Hr). apply filter_In in Hr as [Hr Hid].
  apply Nat.eqb_eq in Hid. exists r. simpl. repeat split; assumption.
Qed.

(** [X13] [GET /logs] with a limit that is not negative, skip and limit
    inside the 64-bit range: the answer has at most [limit] items, from the
    newest timestamp to the oldest; each item shows a stored entry together
    with the [tool_name] of a manifest whose [id] is the entry's
    [tool_id]. *)
Theorem api_get_logs_newest_first (db : Database) (skip limit : Z) :
  0 <= skip < 2 ^ 63 ->
  0 <= limit < 2 ^ 63 ->
  exists page,
    api_get_logs skip limit db = Ok page
    /\ (List.length page <= Z.to_nat limit)%nat
    /\ newest_first (map LogView.timestamp page)
    /\ forall item, In item page ->
         exists e r,
           In e (execution_log db) /\ In r (registry db)
           /\ ATPToolRegistry.id r = ATPExecutionLog.tool_id e
           /\ item = log_view (e, ATPToolRegistry.tool_name r).
Proof.
  intros Hs Hl. unfold api_get_logs. rewrite offset_limit_ok by assumption. cbn [bind].
  eexists. split; [reflexivity|]. split; [|split].
  - rewrite length_map. apply firstn_le_length.
  - rewrite map_map.
    change (fun x => LogView.timestamp (log_view x)) with stamp.
    rewrite <- firstn_map, <- skipn_map.
    apply newest_first_firstn, newest_first_skipn, order_by_timestamp_desc_sorted.
  - intros item Hin. apply in_map_iff in Hin as (row & <- & Hin).
    apply in_firstn, in_skipn in Hin.
    apply (Permutation_in _ (Permutation_sym (order_by_timestamp_desc_perm _))) in Hin.
    destruct (join_registry_In db row Hin) as (r & He & Hr & Hid & Hname).
    exists (fst row), r. repeat split; try assumption.
    destruct row as [e n]. simpl in *. now subst n.
Qed.

Lemma filter_none (A : Type) (f : A -> bool) (l : list A) :
  (forall x, In x l -> f x = false) -> filter f l = [].
Proof.
  induction l as [|a l IH]; simpl; intros H; [reflexivity|].
  rewrite (H a) by now left. apply IH. intros x Hx. apply H. now right.
Qed.

Lemma filter_by_id_unique (reg : list ATPToolRegistry.t) (tool : ATPToolRegistry.t) :
  NoDup (map ATPToolRegistry.id reg) -> In tool reg ->
  filter (fun r => Nat.eqb (ATPToolRegistry.id r) (ATPToolRegistry.id tool)) reg = [tool].
Proof.
  induction reg as [|r reg IH]; simpl; intros Hnd Hin; [contradiction|].
  inversion Hnd as [|? ? Hnotin Hnd']; subst.
  destruct Hin as [->|Hin].
  - rewrite Nat.eqb_refl. f_equal. apply filter_none. intros r Hr.
    apply Nat.eqb_neq. intros Heq. apply Hnotin. rewrite <- Heq. now apply in_map.
  - destruct (Nat.eqb_spec (ATPToolRegistry.id r) (ATPToolRegistry.id tool)) as [Heq|_].
    + exfalso. apply Hnotin. rewrite Heq. now apply in_map.
    + now apply IH.
Qed.

Lemma join_registry_complete (db : Database) :
  registry_ids_unique db -> log_refs_ok db ->
  map fst (join_registry db) = execution_log db.
Proof.
  unfold registry_ids_unique, log_refs_ok, join_registry. intros Hu Hrefs.
  induction (execution_log db) as [|e logs IH]; simpl; [reflexivity|].
  destruct (Hrefs e (or_introl eq_refl)) as (r & Hr & Hid).
  rewrite <- Hid, (filter_by_id_unique _ r Hu Hr). simpl. f_equal.
  apply IH. intros e' He'. apply Hrefs. now right.
Qed.

Lemma order_by_timestamp_desc_newest (rows : list (ATPExecutionLog.t * string))
    (row : ATPExecutionLog.t * string) :
  Forall (fun row' => (stamp row' < stamp row)%nat) rows ->
  order_by_timestamp_desc (rows ++ [row]) = row :: order_by_timestamp_desc rows.
Proof.
  induction rows as [|row' rest IH]; simpl; intros Hall; [reflexivity|].
  inversion Hall as [|? ? Hlt Hrest]; subst. rewrite (IH Hrest). simpl.
  unfold stamp in Hlt.
  destruct (Nat.leb_spec (ATPExecutionLog.timestamp (fst row))
                         (ATPExecutionLog.timestamp (fst row'))); [lia | reflexivity].
Qed.

(** [X14] After a record is accepted, with [id] the primary key of the
    registry and every stored entry stamped before now, the first item of
    [GET /logs] (any positive limit below [2^63]) is the new entry: the
    returned [log_id], the request's tool name, framework, arguments, result
    and anomaly flag, and the [id] of the manifest found. *)
Theorem api_get_logs_after_create (db : Database) (log_req : LogCreate.t)
    (tool : ATPToolRegistry.t) (limit : Z) :
  registry_ids_unique db ->
  log_stamped_before_now db ->
  first_by_name db (LogCreate.tool_name log_req) = Some tool ->
  0 < limit < 2 ^ 63 ->
  fst (create_log log_req db) = Ok (next_uuid db)
  /\ exists page,
       api_get_logs 0 limit (snd (create_log log_req db)) = Ok page
       /\ hd_error page
          = Some {| LogView.id := next_uuid db;
                    LogView.tool_id := ATPToolRegistry.id tool;
                    LogView.tool_name := LogCreate.tool_name log_req;
                    LogView.agent_framework := LogCreate.agent_framework log_req;
                    LogView.input_arguments := LogCreate.input_arguments log_req;
                    LogView.execution_result := Some (LogCreate.execution_result log_req);
                    LogView.is_anomaly := LogCreate.is_anomaly log_req;
                    LogView.timestamp := clock db |}.
Proof.
  intros Hu Hstamp Hfind Hlimit. unfold create_log. rewrite Hfind. simpl.
  split; [reflexivity|].
  pose proof Hfind as Hin. unfold first_by_name in Hin.
  apply find_some in Hin as [Hin Hname]. apply String.eqb_eq in Hname.
  unfold api_get_logs. rewrite offset_limit_ok by lia. cbn [bind].
  eexists. split; [reflexivity|].
  unfold join_registry. simpl.
  rewrite flat_map_app. simpl.
  rewrite (filter_by_id_unique _ tool Hu Hin). simpl.
  rewrite order_by_timestamp_desc_newest.
  - destruct (Z.to_nat limit) eqn:Hn; [lia|]. simpl. unfold log_view. simpl.
    now rewrite Hname.
  - apply Forall_forall. intros row Hrow.
    destruct (join_registry_In db row Hrow) as (_ & He & _).
    unfold log_stamped_before_now in Hstamp. rewrite Forall_forall in Hstamp.
    unfold stamp. simpl. now apply Hstamp.
Qed.

(** [X15] With [id] the primary key of the registry and every entry
    pointing at a manifest, the join of [GET /logs] hides and repeats
    nothing: a page from the start that is as long as the log, with a limit
    below [2^63], shows every stored entry exactly once. *)
Theorem api_get_logs_complete (db : Database) (limit : Z) :
  registry_ids_unique db ->
  log_refs_ok db ->
  Z.of_nat (List.length (execution_log db)) <= limit < 2 ^ 63 ->
  exists rows,
    api_get_logs 0 limit db = Ok (map log_view rows)
    /\ Permutation (map fst rows) (execution_log db).
Proof.
  intros Hu Hrefs Hlimit. exists (order_by_timestamp_desc (join_registry db)).
  assert (Hperm : Permutation (map fst (order_by_timestamp_desc (join_registry db)))
                              (execution_log db)).
  { rewrite <- (join_registry_complete db Hu Hrefs).
    apply Permutation_map, Permutation_sym, order_by_timestamp_desc_perm. }
  split; [|exact Hperm].
  unfold api_get_logs. rewrite offset_limit_ok by lia. cbn [bind]. simpl.
  do 2 f_equal. apply firstn_all2.
  apply Permutation_length in Hperm. rewrite length_map in Hperm. lia.
Qed.

(** ** More on fingerprints *)

Lemma string_length_append (s t : string) :
  String.length (s ++ t) = (String.length s + String.length t)%nat.
Proof. induction s as [|c s IH]; simpl; [reflexivity | now rewrite IH]. Qed.

Lemma string_forallb_append (f : ascii -> bool) (s t : string) :
  string_forallb f (s ++ t) = string_forallb f s && string_forallb f t.
Proof.
  induction s as [|c s IH]; simpl; [reflexivity|]. now rewrite IH, andb_assoc.
Qed.

Lemma hex_digit_lower (n : N) : (n < 16)%N -> is_lower_hex (hex_digit n) = true.
Proof.
  intros H. rewrite <- (N2Nat.id n).
  assert (Hlt : (N.to_nat n < 16)%nat) by lia.
  generalize dependent (N.to_nat n). clear. intros k Hlt.
  do 16 (destruct k as [|k]; [reflexivity|]). lia.
Qed.

Lemma hex_shape (n : nat) (x : Z) :
  String.length (SHA256.hex n x) = n
  /\ string_forallb is_lower_hex (SHA256.hex n x) = true.
Proof.
  induction n as [|n [IHl IHf]]; simpl; [split; reflexivity|].
  split; [now rewrite IHl|]. rewrite IHf, andb_true_r.
  apply hex_digit_lower.
  change 0xf with (Z.ones 4). rewrite Z.land_ones by lia.
  change (2 ^ 4) with 16.
  match goal with
  | |- (Z.to_N (?a mod 16) < 16)%N =>
      assert (Hb : 0 <= a mod 16 < 16) by (apply Z.mod_pos_bound; reflexivity)
  end.
  lia.
Qed.

Lemma round_length (st : list Z) (kw : Z * Z) :
  List.length (SHA256.round st kw) = List.length st.
Proof.
  unfold SHA256.round.
  do 9 (destruct st as [|? st]; [reflexivity|]); reflexivity.
Qed.

Lemma compress_length (h block : list Z) :
  List.length (SHA256.compress h block) = List.length h.
Proof.
  unfold SHA256.compress. rewrite length_map, length_combine.
  assert (H : forall kws st, List.length (fold_left SHA256.round kws st) = List.length st).
  { induction kws as [|kw kws IH]; intros st; simpl; [reflexivity|].
    now rewrite IH, round_length. }
  rewrite H. lia.
Qed.

Lemma digest_length (msg : list Z) : List.length (SHA256.digest msg) = 8%nat.
Proof.
  unfold SHA256.digest.
  assert (H : forall bs h, List.length (fold_left SHA256.compress bs h) = List.length h).
  { induction bs as [|b bs IH]; intros h; simpl; [reflexivity|].
    now rewrite IH, compress_length. }
  now rewrite H.
Qed.

Lemma concat_hex_shape (ws : list Z) :
  String.length (String.concat "" (map (SHA256.hex 8) ws)) = (8 * List.length ws)%nat
  /\ string_forallb is_lower_hex (String.concat "" (map (SHA256.hex 8) ws)) = true.
Proof.
  induction ws as [|w ws [IHl IHf]]; [split; reflexivity|].
  change (map (SHA256.hex 8) (w :: ws)) with (SHA256.hex 8 w :: map (SHA256.hex 8) ws).
  rewrite concat_empty_cons, string_length_append, string_forallb_append.
  destruct (hex_shape 8 w) as [Hl Hf]. rewrite Hl, Hf, IHl, IHf. simpl. split; [lia | reflexivity].
Qed.

(** [X16] Whatever the server name, tool name and schema, the fingerprint
    is 64 characters long and made of the digits [0-9] and the letters
    [a-f] only. *)
Theorem generate_manifest_hash_shape (server_name tool_name : string) (schema : dict) :
  String.length (generate_manifest_hash server_name tool_name schema) = 64%nat
  /\ string_forallb is_lower_hex (generate_manifest_hash server_name tool_name schema)
     = true.
Proof.
  unfold generate_manifest_hash, SHA256.hexdigest.
  destruct (concat_hex_shape
              (SHA256.digest
                 (encode_utf8 (server_name ++ ":" ++ tool_name ++ ":"
                               ++ dumps true (JObj schema))))) as [Hl Hf].
  rewrite digest_length in Hl. split; assumption.
Qed.

Section FingerprintMore.

Variable schema_json : PydanticModel -> string.

(** [X17] The colon that joins server name and tool name is not escaped:
    the server [server + ":" + x] with the tool [name] and the server
    [server] with the tool [x + ":" + name] have the same fingerprint for
    the same schema.  So once one of the two is registered, the
    registration step does nothing for the other. *)
Theorem fingerprint_separator_ambiguous (server x name : string) (schema : dict) :
  generate_manifest_hash (server ++ ":" ++ x) name schema
  = generate_manifest_hash server (x ++ ":" ++ name) schema
  /\ forall env self1 self2 tool1 tool2 d m,
       server_name_of self1 = server ++ ":" ++ x -> Tool.name tool1 = name ->
       server_name_of self2 = server -> Tool.name tool2 = x ++ ":" ++ name ->
       Tool.inputSchema tool1 = schema -> Tool.inputSchema tool2 = schema ->
       first_by_hash d (fingerprint_of self1 tool1) = Some m ->
       register_tool schema_json env self2 tool2 d = d.
Proof.
  assert (Heq : generate_manifest_hash (server ++ ":" ++ x) name schema
                = generate_manifest_hash server (x ++ ":" ++ name) schema).
  { unfold generate_manifest_hash. do 2 f_equal.
    now rewrite !append_assoc. }
  split; [exact Heq|].
  intros env self1 self2 tool1 tool2 d m Hs1 Hn1 Hs2 Hn2 Hi1 Hi2 Hfind.
  apply register_tool_found with (m := m).
  unfold fingerprint_of in *. rewrite Hs2, Hn2, Hi2, <- Heq.
  now rewrite Hs1, Hn1, Hi1 in Hfind.
Qed.

End FingerprintMore.

(** ** More on schema translation *)

Lemma translate_field_outcome (required : json) (fields : pydict field_def)
    (k : string) (v : json) :
  if property_ok v && iterable required
  then exists fields', translate_field required fields (k, v) = Ok fields'
  else exists msg,
         translate_field required fields (k, v) = Raise (TypeError msg)
         \/ translate_field required fields (k, v) = Raise (AttributeError msg).
Proof.
  unfold translate_field, json_schema_to_pydantic_type.
  destruct v as [| | | | | |d]; simpl; try (eexists; right; reflexivity).
  destruct (dict_get_default d "type" (JStr "string")) as [| | | |s| |] eqn:Ht; simpl;
    try (eexists; left; reflexivity);
    destruct required as [| | | |r|l|m]; simpl;
    try (eexists; left; reflexivity);
    match goal with
    | |- context [if ?c then _ else _] => destruct c
    end; eexists; reflexivity.
Qed.

Lemma translate_fields_outcome (required : json) (items : dict) :
  forall fields,
    if match items with
       | [] => true
       | _ => forallb (fun kv => property_ok (snd kv)) items && iterable required
       end
    then exists fields', translate_fields required items fields = Ok fields'
    else exists msg,
           translate_fields required items fields = Raise (TypeError msg)
           \/ translate_fields required items fields = Raise (AttributeError msg).
Proof.
  induction items as [|[k v] rest IH]; intros fields; [now exists fields|].
  cbn [translate_fields forallb snd].
  pose proof (translate_field_outcome required fields k v) as H1.
  destruct (property_ok v); simpl in *.
  - destruct (iterable required); simpl in *.
    + destruct H1 as [fields' ->]. simpl. specialize (IH fields').
      destruct rest as [|kv rest']; exact IH.
    + rewrite andb_false_r. destruct H1 as [msg [-> | ->]]; exists msg; [left | right];
        reflexivity.
  - destruct H1 as [msg [-> | ->]]; exists msg; [left | right]; reflexivity.
Qed.

(** [X18] [_generate_pydantic_model] gets as far as [create_model] exactly
    for the schemas whose [properties] is a dict that is empty, or whose
    values are all dicts with a hashable declared type while [required] is
    a list, a dict or a string: for such a schema the result is what
    [create_model] makes of the capitalized tool name followed by [Input]
    and of fields that are the same whatever [create_model] is.  For any
    other schema it raises before [create_model] is called, and what it
    raises is a [TypeError] or an [AttributeError].  With [properties]
    missing or empty [create_model] gets no field, whatever [required]
    is. *)
Theorem generate_pydantic_model_reaches_create_model (tool_name : string)
    (input_schema : dict) :
  (if schema_translatable input_schema
   then exists fields,
          forall create_model,
            generate_pydantic_model create_model tool_name input_schema
            = create_model (capitalize tool_name ++ code_points "Input")%list fields
   else exists msg,
          (forall create_model,
             generate_pydantic_model create_model tool_name input_schema
             = Raise (TypeError msg))
          \/ (forall create_model,
                generate_pydantic_model create_model tool_name input_schema
                = Raise (AttributeError msg)))
  /\ (dict_get_default input_schema "properties" (JObj []) = JObj [] ->
      forall create_model,
        generate_pydantic_model create_model tool_name input_schema
        = create_model (capitalize tool_name ++ code_points "Input")%list []).
Proof.
  unfold generate_pydantic_model, schema_translatable.
  destruct (dict_get_default input_schema "properties" (JObj [])) as [| | | | | |props];
    simpl; try (split; [eexists; right; reflexivity | discriminate]).
  pose proof (translate_fields_outcome
                (dict_get_default input_schema "required" (JArr [])) props []) as H.
  destruct props as [|kv props'].
  - simpl. split; [exists []; reflexivity | reflexivity].
  - split; [|discriminate].
    destruct (forallb (fun kv => property_ok (snd kv)) (kv :: props')
              && iterable (dict_get_default input_schema "required" (JArr []))).
    + destruct H as [fields' ->]. exists fields'. reflexivity.
    + destruct H as [msg [-> | ->]]; exists msg; [left | right]; reflexivity.
Qed.

(** ** From discovery to the log *)

Lemma find_exists (A : Type) (f : A -> bool) (l : list A) (x : A) :
  In x l -> f x = true -> exists y, find f l = Some y.
Proof.
  induction l as [|a l IH]; simpl; intros Hin Hf; [contradiction|].
  destruct (f a) eqn:Ha; [now exists a|].
  destruct Hin as [->|Hin]; [congruence | now apply IH].
Qed.

Section DiscoveryToLog.

Variable schema_json : PydanticModel -> string.

Lemma register_tool_names (env : Env) (self : ATPTranslator) (tools : list Tool.t)
    (t : Tool.t) (d : Database) :
  In t tools -> names_agree self tools d ->
  names_agree self tools (register_tool schema_json env self t d).
Proof.
  intros Ht [Hrows Htools]. unfold register_tool, try_register.
  destruct (storage_fault env t); [now split|].
  fold (fingerprint_of self t).
  destruct (first_by_hash d (fingerprint_of self t)) eqn:Hfind; [now split|].
  destruct (generate_pydantic_model (create_model env) (Tool.name t) (Tool.inputSchema t)) as [model|];
    simpl; [|now split].
  destruct (add_registry_row_ok d (server_name_of self) (Tool.name t)
              (fingerprint_of self t) (Tool.inputSchema t) (schema_json model) Hfind)
    as (d' & m & Hadd & Hreg & _ & _ & _ & _ & Hname & Hh & _).
  rewrite Hadd. split; [|exact Htools].
  intros r t0 Hr Ht0 Hhash. rewrite Hreg in Hr. apply in_app_or in Hr as [Hr|[<-|[]]].
  - now apply Hrows.
  - rewrite Hname. apply Htools; [assumption | assumption | congruence].
Qed.

Lemma register_tool_named (env : Env) (self : ATPTranslator) (tools : list Tool.t)
    (t : Tool.t) (d : Database) (model : PydanticModel) :
  In t tools -> names_agree self tools d ->
  storage_fault env t = None ->
  generate_pydantic_model (create_model env) (Tool.name t) (Tool.inputSchema t) = Ok model ->
  exists r, In r (registry (register_tool schema_json env self t d))
            /\ ATPToolRegistry.tool_name r = Tool.name t.
Proof.
  intros Ht [Hrows _] Hfault Hmodel.
  destruct (first_by_hash d (fingerprint_of self t)) as [m|] eqn:Hfind.
  - rewrite (register_tool_found schema_json env self t d m Hfind).
    unfold first_by_hash in Hfind. apply find_some in Hfind as [Hin Hh].
    apply String.eqb_eq in Hh. exists m. split; [exact Hin | now apply Hrows].
  - pose proof (register_tool_fresh schema_json env self t d model Hfind Hfault Hmodel)
      as Hreg.
    destruct (add_registry_row_ok d (server_name_of self) (Tool.name t)
                (fingerprint_of self t) (Tool.inputSchema t) (schema_json model) Hfind)
      as (d' & m & Hadd & Hrows' & _ & _ & _ & _ & Hname & _).
    rewrite Hadd in Hreg. injection Hreg as <-.
    exists m. split; [|exact Hname]. rewrite Hrows'. apply in_or_app. right. now left.
Qed.

Lemma translate_all_named (env : Env) (self : ATPTranslator) (tools ts : list Tool.t) :
  incl ts tools ->
  (forall t, In t ts -> storage_fault env t = None) ->
  forall acc d adapters,
    names_agree self tools d ->
    fst (translate_all schema_json env self true ts acc d) = Ok adapters ->
    forall t, In t ts ->
      exists r, In r (registry (snd (translate_all schema_json env self true ts acc d)))
                /\ ATPToolRegistry.tool_name r = Tool.name t.
Proof.
  induction ts as [|t0 rest IH]; intros Hincl Hfault acc d adapters Hagree Hok t Ht;
    [contradiction|].
  simpl in *.
  destruct (translate_tool env self t0) as [a|e] eqn:Ha; simpl in *; [|discriminate].
  assert (Ht0 : In t0 tools) by (apply Hincl; now left).
  destruct Ht as [<-|Ht].
  - destruct (translate_tool_inv env self t0 a Ha) as (_ & _ & _ & _ & Hmodel).
    destruct (register_tool_named env self tools t0 d (args_schema a) Ht0 Hagree
                (Hfault t0 (or_introl eq_refl)) Hmodel) as (r & Hr & Hname).
    exists r. split; [|exact Hname].
    destruct (translate_all_grows schema_json env self true rest (acc ++ [a])
                (register_tool schema_json env self t0 d)) as [[added Hadd] _].
    rewrite Hadd. apply in_or_app. now left.
  - apply (IH (fun x Hx => Hincl x (or_intror Hx))
              (fun x Hx => Hfault x (or_intror Hx))
              (acc ++ [a])%list (register_tool schema_json env self t0 d) adapters).
    + now apply register_tool_names.
    + exact Hok.
    + exact Ht.
Qed.

(** [X19] After a discovery with the registry set up and no storage
    exception, where a fingerprint goes with one tool name only, every
    adapter returned can log: the registry holds a manifest with the
    adapter's tool name, and the log endpoint accepts a record for it. *)
Theorem discovered_tools_can_log (env : Env) (self : ATPTranslator) (w : World)
    (s : ClientSession) (tools : list Tool.t) (adapters : list Adapter) :
  session self = Some s ->
  session_list_tools env w s = Ok tools ->
  db_setup env = DbReady ->
  (forall t, In t tools -> storage_fault env t = None) ->
  names_agree self tools (db w) ->
  fst (get_tools schema_json env self w) = Ok adapters ->
  forall a log_req,
    In a adapters ->
    LogCreate.tool_name log_req = adapter_name a ->
    let d := db (snd (get_tools schema_json env self w)) in
    exists tool,
      first_by_name d (adapter_name a) = Some tool
      /\ ATPToolRegistry.tool_name tool = adapter_name a
      /\ fst (create_log log_req d) = Ok (next_uuid d).
Proof.
  intros Hs Hl Hsetup Hfault Hagree Hok a log_req Ha Hreq d.
  assert (Hres := get_tools_result schema_json env self w s tools Hs Hl
                    (fun e H => ltac:(rewrite Hsetup in H; discriminate))).
  rewrite Hres in Hok.
  destruct (mapM_In _ _ _ _ _ a Hok Ha) as (t & Ht & Hta).
  destruct (translate_tool_inv env self t a Hta) as (_ & Hname & _).
  assert (Hd : d = snd (translate_all schema_json env self true tools [] (db w))).
  { unfold d. now rewrite (get_tools_connected schema_json env self w s tools true Hs Hl Hsetup). }
  assert (Hfst : fst (translate_all schema_json env self true tools [] (db w)) = Ok adapters).
  { rewrite translate_all_result, Hok. reflexivity. }
  destruct (translate_all_named env self tools tools (incl_refl _) Hfault [] (db w)
              adapters Hagree Hfst t Ht) as (r & Hr & Hrname).
  rewrite <- Hd in Hr.
  destruct (find_exists _ (fun x => String.eqb (ATPToolRegistry.tool_name x) (adapter_name a))
              (registry d) r Hr) as [tool Hfind].
  { apply String.eqb_eq. congruence. }
  exists tool. split; [exact Hfind|]. split.
  - apply find_some in Hfind as [_ H]. now apply String.eqb_eq in H.
  - unfold create_log, first_by_name. rewrite Hreq, Hfind. reflexivity.
Qed.

End DiscoveryToLog.

(** ** More compositions *)

Section CompositionFacts.

Variable schema_json : PydanticModel -> string.
Variable content_str : list Content -> string.

(** [X20] A tool registered for the first time shows up in [GET /tools]:
    a page from the start with a limit above the registry's length and
    below [2^63] was the summaries of the manifests there were, and is now
    that page followed by the summary of the new manifest, with the server
    name, the tool name, the fingerprint and a success rate of 1.0. *)
Theorem registered_tool_listed (env : Env) (self : ATPTranslator) (tool : Tool.t)
    (d : Database) (model : PydanticModel) (limit : Z) :
  first_by_hash d (fingerprint_of self tool) = None ->
  storage_fault env tool = None ->
  generate_pydantic_model (create_model env) (Tool.name tool) (Tool.inputSchema tool)
  = Ok model ->
  Z.of_nat (List.length (registry d)) < limit < 2 ^ 63 ->
  api_get_tools 0 limit d = Ok (map tool_summary (registry d))
  /\ api_get_tools 0 limit (register_tool schema_json env self tool d)
     = Ok (map tool_summary (registry d) ++
           [{| ToolSummary.id := next_uuid d;
               ToolSummary.mcp_server_name := server_name_of self;
               ToolSummary.tool_name := Tool.name tool;
               ToolSummary.manifest_hash := fingerprint_of self tool;
               ToolSummary.success_rate := "1.0";
               ToolSummary.created_at := clock d |}])%list.
Proof.
  intros Hfind Hfault Hmodel Hlimit.
  pose proof (register_tool_fresh schema_json env self tool d model Hfind Hfault Hmodel)
    as Hreg.
  unfold add_registry_row in Hreg. rewrite Hfind in Hreg. injection Hreg as <-.
  unfold api_get_tools. rewrite !offset_limit_ok by lia. cbn [bind]. simpl.
  rewrite !firstn_all2 by (rewrite ?length_app; simpl; lia).
  now rewrite map_app.
Qed.

(** [X22] Adapters do not outlive the session they were made on: after
    [connect], [get_tools] and [disconnect], invoking any of the returned
    adapters reaches no provider and logs nothing; the CrewAI adapter
    returns the bridging text for the closed channel, the others raise. *)
Theorem adapters_after_disconnect (env : Env) (self : ATPTranslator)
    (server_parameters : StdioServerParameters) (w : World)
    (adapters : list Adapter) (a : Adapter) (kwargs : dict) :
  launch env server_parameters = Launched ->
  let '(_, self1, w1) := connect env self server_parameters w in
  fst (get_tools schema_json env self1 w1) = Ok adapters ->
  In a adapters ->
  let w2 := snd (get_tools schema_json env self1 w1) in
  let '(_, w3) := disconnect self1 w2 in
  invoke content_str env a kwargs w3
  = (match kind a with
     | CrewAI => Ok ("Exception bridging sync to async: " ++ exn_str closed_channel)
     | _ => Raise closed_channel
     end, w3).
Proof.
  intros Hl. unfold connect. rewrite Hl. cbn zeta iota beta.
  set (c := next_channel w).
  set (self1 := {| target_framework := target_framework self;
                   server_params := Some server_parameters;
                   _exit_stack := Some [c];
                   session := Some {| channel := c; server := server_parameters |};
                   _stdio_ctx := Some server_parameters |}).
  set (w1 := {| db := db w; open_channels := c :: open_channels w;
                next_channel := S c; submitted := submitted w |}).
  intros Hok Hin.
  assert (Hopen : open_channels (snd (get_tools schema_json env self1 w1))
                  = c :: open_channels w).
  { unfold get_tools.
    destruct (session self1); [|reflexivity].
    destruct (session_list_tools env w1 _); [|reflexivity].
    destruct (db_setup env); [| |reflexivity];
      now destruct (translate_all schema_json env self1 _ _ [] (db w1)). }
  assert (Hsess : adapter_session a = Some {| channel := c; server := server_parameters |}).
  { assert (Hs1 : session self1 = Some {| channel := c; server := server_parameters |})
      by reflexivity.
    destruct (session_list_tools env w1 {| channel := c; server := server_parameters |})
      as [tools|e] eqn:Htools.
    - destruct (db_setup env) as [| |e] eqn:Hsetup.
      + rewrite (get_tools_result schema_json env self1 w1 _ tools Hs1 Htools) in Hok
          by (intros e; rewrite Hsetup; discriminate).
        destruct (mapM_In _ _ _ _ _ a Hok Hin) as (t & _ & Ht).
        now destruct (translate_tool_inv env self1 t a Ht) as (_ & _ & _ & -> & _).
      + rewrite (get_tools_result schema_json env self1 w1 _ tools Hs1 Htools) in Hok
          by (intros e; rewrite Hsetup; discriminate).
        destruct (mapM_In _ _ _ _ _ a Hok Hin) as (t & _ & Ht).
        now destruct (translate_tool_inv env self1 t a Ht) as (_ & _ & _ & -> & _).
      + unfold get_tools in Hok. rewrite Hs1, Htools, Hsetup in Hok. discriminate.
    - unfold get_tools in Hok. rewrite Hs1, Htools in Hok. discriminate. }
  unfold disconnect. cbn [_exit_stack self1].
  match goal with
  | |- invoke _ _ _ _ ?w3 = _ =>
      pose proof (invoke_cases content_str env a kwargs w3) as H;
      assert (Hcall : session_call_tool env w3 (adapter_session a) (call_name a) kwargs
                      = Raise closed_channel)
  end.
  { rewrite Hsess. unfold session_call_tool, channel_open. cbn [open_channels channel].
    rewrite Hopen.
    assert (Hclosed : existsb (Nat.eqb c)
                        (filter (fun c0 => negb (existsb (Nat.eqb c0) [c]))
                                (c :: open_channels w)) = false).
    { apply not_true_iff_false. intros Hex. apply existsb_exists in Hex as (x & Hx & Hcx).
      apply Nat.eqb_eq in Hcx. subst x. apply filter_In in Hx as [_ Hx].
      simpl in Hx. now rewrite Nat.eqb_refl in Hx. }
    now rewrite Hclosed. }
  rewrite Hcall in H. exact H.
Qed.

End CompositionFacts.

(** ** The GUID column *)

Lemma digit_value_hex_digit (k : Z) :
  0 <= k < 16 -> GUID.digit_value (hex_digit (Z.to_N k)) = k.
Proof.
  intros H. assert (Hk : k = Z.of_nat (Z.to_nat k)) by lia.
  assert (Hlt : (Z.to_nat k < 16)%nat) by lia.
  rewrite Hk. generalize dependent (Z.to_nat k). clear. intros n _ Hlt.
  do 16 (destruct n as [|n]; [reflexivity|]). lia.
Qed.

Lemma hex_value_from_hex (n : nat) (x acc : Z) :
  GUID.hex_value_from acc (SHA256.hex n x) = acc * 16 ^ Z.of_nat n + x mod 16 ^ Z.of_nat n.
Proof.
  revert acc. induction n as [|n IH]; intros acc.
  - simpl. rewrite Z.mod_1_r. lia.
  - cbn [SHA256.hex GUID.hex_value_from]. rewrite IH.
    change 0xf with (Z.ones 4). rewrite Z.land_ones by lia.
    rewrite Z.shiftr_div_pow2 by lia.
    replace (2 ^ (4 * Z.of_nat n)) with (16 ^ Z.of_nat n)
      by (rewrite Z.pow_mul_r by lia; reflexivity).
    change (2 ^ 4) with 16.
    assert (Hpos : 0 < 16 ^ Z.of_nat n) by (apply Z.pow_pos_nonneg; lia).
    rewrite digit_value_hex_digit by (apply Z.mod_pos_bound; lia).
    replace (16 ^ Z.of_nat (S n)) with (16 ^ Z.of_nat n * 16)
      by (rewrite Nat2Z.inj_succ, Z.pow_succ_r by lia; lia).
    rewrite (Z.rem_mul_r x (16 ^ Z.of_nat n) 16) by lia.
    lia.
Qed.

(** [X23] On a dialect other than PostgreSQL a UUID is bound as exactly 32
    characters, digits and the letters [a-f], and read as a hexadecimal
    number they give back the UUID's [int]; so two different UUIDs are
    never bound to the same key. *)
Theorem guid_bind_faithful (UUID_of_str : string -> result Z) (int : Z) :
  0 <= int < 2 ^ 128 ->
  exists key,
    GUID.process_bind_param UUID_of_str (GUID.VUUID int) GUID.other_dialect = Ok (Some key)
    /\ String.length key = 32%nat
    /\ string_forallb is_lower_hex key = true
    /\ GUID.hex_value key = int
    /\ forall int',
         0 <= int' < 2 ^ 128 ->
         GUID.process_bind_param UUID_of_str (GUID.VUUID int') GUID.other_dialect
         = Ok (Some key) ->
         int' = int.
Proof.
  intros Hrange. exists (GUID.hex32 int). split; [reflexivity|].
  destruct (hex_shape 32 int) as [Hl Hf].
  split; [unfold GUID.hex32; exact Hl|]. split; [unfold GUID.hex32; exact Hf|].
  assert (Hval : forall i, 0 <= i < 2 ^ 128 -> GUID.hex_value (GUID.hex32 i) = i).
  { intros i Hi. unfold GUID.hex_value, GUID.hex32. rewrite hex_value_from_hex.
    replace (16 ^ Z.of_nat 32) with (2 ^ 128) by reflexivity.
    rewrite Z.mod_small by exact Hi. lia. }
  split; [now apply Hval|].
  intros int' Hrange' Hkey.
  assert (Hk : GUID.hex32 int' = GUID.hex32 int).
  { unfold GUID.process_bind_param in Hkey.
    remember (GUID.hex32 int') as k1. remember (GUID.hex32 int) as k2.
    now injection Hkey. }
  rewrite <- (Hval int' Hrange'), Hk. now apply Hval.
Qed.

(** ** Instances of the further properties *)


Lemma get_tools_unsupported_after_registering_witness :
  supported (target_framework (connected "Fortran")) = false
  /\ get_tools plain_schema_json dummy_env (connected "Fortran") connected_world
     = (Raise (ValueError "Unsupported target framework: fortran"),
        with_db connected_world
          (register_tool plain_schema_json dummy_env (connected "Fortran")
             calculate_sum_tool (db connected_world))).
Proof.
  split; [reflexivity|].
  exact (get_tools_unsupported_after_registering plain_schema_json dummy_env
           (connected "Fortran") connected_world
           {| channel := 0; server := python_server |} calculate_sum_tool
           [get_weather_tool] eq_refl eq_refl eq_refl eq_refl).
Defined.

Lemma get_tools_registry_independent_witness :
  fst (get_tools plain_schema_json (with_registry dummy_env DbImportError locked_storage)
         (connected "crewai") (with_db connected_world two_servers_db))
  = fst (get_tools plain_schema_json dummy_env (connected "crewai") connected_world).
Proof.
  apply (get_tools_registry_independent plain_schema_json dummy_env (connected "crewai")
           connected_world two_servers_db DbImportError locked_storage);
    intros e; discriminate.
Defined.

Lemma invoke_provider_failure_witness :
  session_call_tool quiet_env silent_world (adapter_session (sum_adapter CrewAI))
    (call_name (sum_adapter CrewAI)) five_seven
  = Raise (OtherError "Unknown tool")
  /\ snd (invoke plain_content_str quiet_env (sum_adapter CrewAI) five_seven silent_world)
     = silent_world
  /\ fst (invoke plain_content_str quiet_env (sum_adapter CrewAI) five_seven silent_world)
     = Ok "Exception bridging sync to async: Unknown tool".
Proof.
  split; [reflexivity|].
  destruct (invoke_provider_failure plain_content_str quiet_env (sum_adapter CrewAI)
              five_seven silent_world (OtherError "Unknown tool") eq_refl)
    as (Hw & Hcrew & _).
  split; [exact Hw | exact (Hcrew eq_refl)].
Defined.

Lemma invoke_logged_witness :
  first_by_name (db logging_world) (Tool.name (mcp_tool (sum_adapter LangChain)))
  = Some python_manifest
  /\ exists text,
       fst (invoke plain_content_str dummy_env (sum_adapter LangChain) five_seven
              logging_world) = Ok text
       /\ execution_log
            (db (snd (invoke plain_content_str dummy_env (sum_adapter LangChain)
                        five_seven logging_world)))
          = (execution_log (db logging_world) ++
             [{| ATPExecutionLog.id := next_uuid (db logging_world);
                 ATPExecutionLog.tool_id := ATPToolRegistry.id python_manifest;
                 ATPExecutionLog.agent_framework := framework_name LangChain;
                 ATPExecutionLog.input_arguments := five_seven;
                 ATPExecutionLog.execution_result := Some text;
                 ATPExecutionLog.is_anomaly := isError answer_12;
                 ATPExecutionLog.timestamp := clock (db logging_world) |}])%list.
Proof.
  split; [reflexivity|].
  exact (invoke_logged plain_content_str dummy_env (sum_adapter LangChain) five_seven
           logging_world answer_12 python_manifest eq_refl eq_refl (fun _ => eq_refl)).
Defined.

Lemma log_refs_preserved_witness :
  log_refs_ok (db logging_world)
  /\ log_refs_ok
       (db (snd (invoke plain_content_str dummy_env (sum_adapter AutoGen) five_seven
                   logging_world))).
Proof.
  assert (H0 : log_refs_ok (db logging_world)) by (intros e []).
  split; [exact H0|].
  exact (proj1 (proj2 (log_refs_preserved plain_schema_json plain_content_str dummy_env
                         (connected "autogen") logging_world H0))
           (sum_adapter AutoGen) five_seven).
Defined.

Lemma api_get_tools_pages_witness :
  (exists page_n page_m,
     api_get_tools 0 1 two_servers_db = Ok page_n
     /\ api_get_tools 1 1 two_servers_db = Ok page_m
     /\ api_get_tools 0 2 two_servers_db = Ok (page_n ++ page_m)%list
     /\ map ToolSummary.mcp_server_name page_n = ["python"]
     /\ map ToolSummary.mcp_server_name page_m = ["node"])
  /\ api_get_tools 0 (2 ^ 63) two_servers_db = Raise overflow_error.
Proof.
  assert (H0 : 0 <= 0) by discriminate.
  assert (H1 : 0 <= 1) by discriminate.
  destruct (api_get_tools_pages two_servers_db 0 1 1 H0 H1 H1 eq_refl)
    as ((page_n & page_m & Hn & Hm & Hnm & _) & Hover).
  split; [|apply Hover; right; discriminate].
  exists page_n, page_m. split; [exact Hn|]. split; [exact Hm|]. split; [exact Hnm|].
  assert (En : Ok page_n = api_get_tools 0 1 two_servers_db) by (symmetry; exact Hn).
  assert (Em : Ok page_m = api_get_tools 1 1 two_servers_db) by (symmetry; exact Hm).
  vm_compute in En. vm_compute in Em. injection En as ->. injection Em as ->.
  split; reflexivity.
Defined.

Lemma api_get_logs_newest_first_witness :
  map ATPExecutionLog.timestamp (execution_log two_entries_db) = [2; 3]%nat
  /\ exists page,
       api_get_logs 0 10 two_entries_db = Ok page
       /\ map LogView.timestamp page = [3; 2]%nat
       /\ map LogView.agent_framework page = ["crewai"; "langchain"]
       /\ newest_first (map LogView.timestamp page).
Proof.
  split; [reflexivity|].
  assert (H0 : 0 <= 0 < 2 ^ 63) by (split; [discriminate | reflexivity]).
  assert (H10 : 0 <= 10 < 2 ^ 63) by (split; [discriminate | reflexivity]).
  destruct (api_get_logs_newest_first two_entries_db 0 10 H0 H10)
    as (page & Hpage & _ & Hnew & _).
  exists page. split; [exact Hpage|].
  assert (E : Ok page = api_get_logs 0 10 two_entries_db) by (symmetry; exact Hpage).
  vm_compute in E. injection E as E.
  split; [rewrite E; reflexivity|]. split; [rewrite E; reflexivity | exact Hnew].
Defined.

Lemma two_servers_ids_unique : registry_ids_unique two_servers_db.
Proof.
  unfold registry_ids_unique. simpl. repeat constructor; simpl; intuition discriminate.
Qed.

Lemma one_entry_stamped : log_stamped_before_now one_entry_db.
Proof. repeat constructor. Qed.

Lemma api_get_logs_after_create_witness :
  map ATPExecutionLog.id (execution_log one_entry_db) = [2%nat]
  /\ log_stamped_before_now one_entry_db
  /\ first_by_name one_entry_db (LogCreate.tool_name crewai_log_request) = Some python_manifest
  /\ fst (create_log crewai_log_request one_entry_db) = Ok 3%nat
  /\ exists page,
       api_get_logs 0 5 two_entries_db = Ok page
       /\ map LogView.id page = [3; 2]%nat
       /\ hd_error page
          = Some {| LogView.id := 3;
                    LogView.tool_id := 0;
                    LogView.tool_name := "calculate_sum";
                    LogView.agent_framework := "crewai";
                    LogView.input_arguments := [("a", JInt 1); ("b", JInt 2)];
                    LogView.execution_result := Some "3";
                    LogView.is_anomaly := false;
                    LogView.timestamp := 3 |}.
Proof.
  split; [reflexivity|]. split; [exact one_entry_stamped|]. split; [reflexivity|].
  assert (H5 : 0 < 5 < 2 ^ 63) by (split; reflexivity).
  destruct (api_get_logs_after_create one_entry_db crewai_log_request python_manifest 5
              two_servers_ids_unique one_entry_stamped eq_refl H5)
    as (Hid & page & Hpage & Hhd).
  split; [exact Hid|]. exists page. split; [exact Hpage|]. split; [|exact Hhd].
  assert (E : Ok page = api_get_logs 0 5 two_entries_db) by (symmetry; exact Hpage).
  vm_compute in E. injection E as ->. reflexivity.
Defined.

Lemma api_get_logs_complete_witness :
  List.length (execution_log two_entries_db) = 2%nat
  /\ exists rows,
       api_get_logs 0 2 two_entries_db = Ok (map log_view rows)
       /\ Permutation (map fst rows) (execution_log two_entries_db).
Proof.
  split; [reflexivity|].
  apply (api_get_logs_complete two_entries_db 2).
  - exact two_servers_ids_unique.
  - apply create_log_keeps_refs, create_log_keeps_refs. intros e [].
  - split; [discriminate | reflexivity].
Defined.

Lemma dummy_names_agree : names_agree (connected "crewai") dummy_tools (db connected_world).
Proof.
  split; [intros r t []|].
  intros t t' [<-|[<-|[]]] [<-|[<-|[]]] H; try reflexivity;
    vm_compute in H; discriminate H.
Qed.

Lemma discovered_tools_can_log_witness :
  fst (get_tools plain_schema_json dummy_env (connected "crewai") connected_world)
  = Ok [sum_adapter CrewAI; weather_adapter]
  /\ (let d := db (snd (get_tools plain_schema_json dummy_env (connected "crewai")
                          connected_world)) in
      exists tool,
        first_by_name d (adapter_name weather_adapter) = Some tool
        /\ ATPToolRegistry.tool_name tool = adapter_name weather_adapter
        /\ fst (create_log
                  (log_record CrewAI "get_weather" [("location", JStr "Seattle")] false
                     "The weather in Seattle is sunny and 75 degrees.") d)
           = Ok (next_uuid d)).
Proof.
  assert (Hok : fst (get_tools plain_schema_json dummy_env (connected "crewai")
                       connected_world)
                = Ok [sum_adapter CrewAI; weather_adapter]) by (vm_compute; reflexivity).
  split; [exact Hok|].
  exact (discovered_tools_can_log plain_schema_json dummy_env (connected "crewai")
           connected_world {| channel := 0; server := python_server |} dummy_tools
           [sum_adapter CrewAI; weather_adapter] eq_refl eq_refl eq_refl
           (fun _ _ => eq_refl) dummy_names_agree Hok weather_adapter
           (log_record CrewAI "get_weather" [("location", JStr "Seattle")] false
              "The weather in Seattle is sunny and 75 degrees.")
           (or_intror (or_introl eq_refl)) eq_refl).
Defined.

Lemma registered_tool_listed_witness :
  map ToolSummary.tool_name
    (match api_get_tools 0 10 sum_registered_db with Ok page => page | Raise _ => [] end)
  = ["calculate_sum"]
  /\ first_by_hash sum_registered_db (fingerprint_of (connected "crewai") get_weather_tool)
     = None
  /\ api_get_tools 0 10
       (register_tool plain_schema_json dummy_env (connected "crewai") get_weather_tool
          sum_registered_db)
     = Ok (map tool_summary (registry sum_registered_db) ++
           [{| ToolSummary.id := 1;
               ToolSummary.mcp_server_name := "python";
               ToolSummary.tool_name := "get_weather";
               ToolSummary.manifest_hash :=
                 fingerprint_of (connected "crewai") get_weather_tool;
               ToolSummary.success_rate := "1.0";
               ToolSummary.created_at := 1 |}])%list.
Proof.
  split; [vm_compute; reflexivity|].
  assert (Hnew : first_by_hash sum_registered_db
                   (fingerprint_of (connected "crewai") get_weather_tool) = None)
    by (vm_compute; reflexivity).
  split; [exact Hnew|].
  assert (H10 : Z.of_nat (List.length (registry sum_registered_db)) < 10 < 2 ^ 63)
    by (split; reflexivity).
  exact (proj2 (registered_tool_listed plain_schema_json dummy_env (connected "crewai")
                  get_weather_tool sum_registered_db (args_schema weather_adapter) 10
                  Hnew eq_refl eq_refl H10)).
Defined.

Lemma get_tools_twice_witness :
  let w1 := snd (get_tools plain_schema_json dummy_env (connected "crewai") connected_world) in
  let later := with_registry dummy_env DbReady locked_storage in
  map ATPToolRegistry.tool_name (registry (db w1)) = ["calculate_sum"; "get_weather"]
  /\ snd (get_tools plain_schema_json later (connected "crewai") w1) = w1
  /\ fst (get_tools plain_schema_json later (connected "crewai") w1)
     = Ok [sum_adapter CrewAI; weather_adapter].
Proof.
  intros w1 later. split; [vm_compute; reflexivity|].
  destruct (get_tools_twice plain_schema_json dummy_env (connected "crewai") connected_world
              DbReady locked_storage eq_refl (fun _ => eq_refl)) as [Hsnd Hfst].
  split; [exact Hsnd|].
  unfold later, w1. rewrite Hfst by (intros e; discriminate).
  vm_compute. reflexivity.
Defined.

Lemma adapters_after_disconnect_witness :
  launch dummy_env python_server = Launched
  /\ exists w3,
       invoke plain_content_str dummy_env (sum_adapter CrewAI) five_seven w3
       = (Ok "Exception bridging sync to async: ClosedResourceError", w3).
Proof.
  split; [reflexivity|].
  pose proof (adapters_after_disconnect plain_schema_json plain_content_str dummy_env
                (new_translator "crewai") python_server fresh_world
                [sum_adapter CrewAI; weather_adapter] (sum_adapter CrewAI) five_seven
                eq_refl) as H.
  unfold connect in H. cbn [launch dummy_env] in H. cbv zeta in H.
  assert (Hok : fst (get_tools plain_schema_json dummy_env (connected "crewai")
                       connected_world)
                = Ok [sum_adapter CrewAI; weather_adapter]) by (vm_compute; reflexivity).
  specialize (H Hok (or_introl eq_refl)).
  unfold disconnect in H. cbn [_exit_stack] in H.
  eexists. exact H.
Defined.

Lemma guid_bind_faithful_witness :
  0 <= 255 < 2 ^ 128
  /\ exists key,
       GUID.process_bind_param no_uuid (GUID.VUUID 255) GUID.other_dialect = Ok (Some key)
       /\ String.length key = 32%nat
       /\ GUID.hex_value key = 255.
Proof.
  assert (Hr : 0 <= 255 < 2 ^ 128) by (split; [intros H; discriminate H | reflexivity]).
  split; [exact Hr|].
  destruct (guid_bind_faithful no_uuid 255 Hr) as (key & Hbind & Hlen & _ & Hval & _).
  exists key. repeat split; assumption.
Defined.

Section AdapterList.

Variable schema_json : PydanticModel -> string.

(** [X25] The list [get_tools] returns has one adapter per listed tool, in
    the provider's order; each is of the configured framework, carries the
    tool's name and the contract generated from the tool's schema, and is
    closed over the translator's session. *)
Theorem get_tools_adapters (env : Env) (self : ATPTranslator) (w : World)
    (s : ClientSession) (tools : list Tool.t) (adapters : list Adapter) :
  session self = Some s ->
  session_list_tools env w s = Ok tools ->
  fst (get_tools schema_json env self w) = Ok adapters ->
  map mcp_tool adapters = tools
  /\ Forall (fun a =>
               framework_name (kind a) = target_framework self
               /\ adapter_name a = Tool.name (mcp_tool a)
               /\ adapter_session a = Some s
               /\ generate_pydantic_model (create_model env) (Tool.name (mcp_tool a))
                    (Tool.inputSchema (mcp_tool a)) = Ok (args_schema a))
            adapters.
Proof.
  intros Hs Hl Hok.
  assert (Hm : mapM (translate_tool env self) tools = Ok adapters).
  { destruct (db_setup env) as [| |e] eqn:Hsetup.
    - rewrite <- Hok. symmetry. apply get_tools_result with (s := s); try assumption.
      intros e. rewrite Hsetup. discriminate.
    - rewrite <- Hok. symmetry. apply get_tools_result with (s := s); try assumption.
      intros e. rewrite Hsetup. discriminate.
    - unfold get_tools in Hok. rewrite Hs, Hl, Hsetup in Hok. discriminate. }
  split; [now apply mapM_tools in Hm|].
  apply Forall_forall. intros a Ha.
  destruct (mapM_In _ _ _ _ _ a Hm Ha) as (t & _ & Ht).
  destruct (translate_tool_inv env self t a Ht) as (Hfw & Hname & Htool & Hsess & Hmodel).
  rewrite Htool, Hsess, Hs. repeat split; assumption.
Qed.

End AdapterList.

Lemma get_tools_adapters_witness :
  fst (get_tools plain_schema_json dummy_env (connected "crewai") connected_world)
  = Ok [sum_adapter CrewAI; weather_adapter]
  /\ map mcp_tool [sum_adapter CrewAI; weather_adapter] = dummy_tools.
Proof.
  assert (Hok : fst (get_tools plain_schema_json dummy_env (connected "crewai")
                       connected_world)
                = Ok [sum_adapter CrewAI; weather_adapter]) by (vm_compute; reflexivity).
  split; [exact Hok|].
  exact (proj1 (get_tools_adapters plain_schema_json dummy_env (connected "crewai")
                  connected_world {| channel := 0; server := python_server |} dummy_tools
                  [sum_adapter CrewAI; weather_adapter] eq_refl eq_refl Hok)).
Defined.

Lemma generate_pydantic_model_ok_witness :
  NoDup (map fst [("a", JObj [("type", JStr "integer")]);
                  ("b", JObj [("type", JStr "integer")])])
  /\ generate_pydantic_model plain_create_model "calculate_sum" sum_schema
     = Ok {| model_name := code_points "Calculate_sumInput";
             model_fields :=
               [("a", (Tint, Field Ellipsis (JStr "")));
                ("b", (Tint, Field Ellipsis (JStr "")))] |}
  /\ generate_pydantic_model strict_create_model "find" underscore_schema
     = strict_create_model (code_points "FindInput")
         [("_id", (TOptional Tstr, Field DefaultNone (JStr "")))]
  /\ generate_pydantic_model strict_create_model "find" underscore_schema
     = Raise (OtherError "NameError: Fields must not use names with leading underscores").
Proof.
  assert (Hnd : NoDup (map fst [("a", JObj [("type", JStr "integer")]);
                                ("b", JObj [("type", JStr "integer")])])).
  { apply nodupb_NoDup. reflexivity. }
  assert (Hnd1 : NoDup (map fst [("_id", JObj [("type", JStr "string")])])).
  { apply nodupb_NoDup. reflexivity. }
  split; [exact Hnd|]. split; [|split].
  - exact (generate_pydantic_model_ok plain_create_model "calculate_sum" sum_schema
             [("a", JObj [("type", JStr "integer")]); ("b", JObj [("type", JStr "integer")])]
             [JStr "a"; JStr "b"] eq_refl eq_refl Hnd eq_refl).
  - exact (generate_pydantic_model_ok strict_create_model "find" underscore_schema
             [("_id", JObj [("type", JStr "string")])] [] eq_refl eq_refl Hnd1 eq_refl).
  - rewrite (generate_pydantic_model_ok strict_create_model "find" underscore_schema
               [("_id", JObj [("type", JStr "string")])] [] eq_refl eq_refl Hnd1 eq_refl).
    reflexivity.
Defined.
